(** * Safari bookmark tools: a shallow embedding and its properties

The development follows the scripts of the repository that test and
rewrite the bookmarks:

- [prune_broken_safari_bookmarks.py]      (module [Prune]),
- [remove_safari_bookmarks_by_domains.py] (module [Remove]),
- [check_safari_bookmarks_http.py]        (module [Check]: its classifier
  and its traversal).

Python values are modelled as follows.  A [str] is a Rocq [string]
(a byte string: the ASCII fragment of Python's text operations), an
[int] is a [Z], [bytes] is a list of bytes.  A bookmark entry, which
the scripts read as a [dict] with the optional keys [Title],
[URIDictionary], [URLString] and [Children], is a record of optional
fields together with the map of the keys the scripts never look at.
Functions that print, mutate their arguments or raise run in a small
state-and-exception monad.  The standard library calls whose result
depends on the outside world ([urlparse], [urlopen], [plistlib],
the clock, the disk) are parameters. *)

From Stdlib Require Import ZArith String Ascii List Bool Lia.
From stdpp Require Import base option list gmap strings pretty.

Local Open Scope string_scope.
Local Open Scope list_scope.
Local Open Scope Z_scope.

(** ** Python strings *)

Module Py.

(** [c.lower()] on an ASCII character. *)
Definition lower_ascii (c : ascii) : ascii :=
  let n := nat_of_ascii c in
  if ((65 <=? n) && (n <=? 90))%nat then ascii_of_nat (n + 32) else c.

(** [s.lower()]. *)
Fixpoint lower (s : string) : string :=
  match s with
  | EmptyString => EmptyString
  | String c r => String (lower_ascii c) (lower r)
  end.

(** [s.startswith(p)]. *)
Definition startswith (s p : string) : bool := String.prefix p s.

(** [s.endswith(p)]. *)
Definition endswith (s p : string) : bool :=
  String.prefix (String.rev p) (String.rev s).

(** [s.lstrip(chars)], [chars] given as a predicate. *)
Fixpoint lstrip (chars : ascii → bool) (s : string) : string :=
  match s with
  | EmptyString => EmptyString
  | String c r => if chars c then lstrip chars r else s
  end.

Definition rstrip (chars : ascii → bool) (s : string) : string :=
  String.rev (lstrip chars (String.rev s)).

Definition strip (chars : ascii → bool) (s : string) : string :=
  rstrip chars (lstrip chars s).

Definition is_dot (c : ascii) : bool := Ascii.eqb c ".".

(** The ASCII characters that [str.strip()] without argument removes. *)
Definition is_whitespace (c : ascii) : bool :=
  let n := nat_of_ascii c in
  ((9 <=? n) && (n <=? 13) || (28 <=? n) && (n <=? 32))%nat.

(** [sep.join(l)]. *)
Definition join (sep : string) (l : list string) : string :=
  String.concat sep l.

(** Truth value of a [str]. *)
Definition nonempty (s : string) : bool :=
  match s with EmptyString => false | _ => true end.

(** Truth value of a [str] or [None]. *)
Definition truthy (o : option string) : bool :=
  match o with Some s => nonempty s | None => false end.

(** [a or b], where [a] is a [str] or [None] and [b] a [str]. *)
Definition or_ (a : option string) (b : string) : string :=
  match a with
  | Some s => if nonempty s then s else b
  | None => b
  end.

(** The longest prefix of [s] whose characters satisfy [p], and the rest. *)
Fixpoint span (p : ascii → bool) (s : string) : string * string :=
  match s with
  | EmptyString => (EmptyString, EmptyString)
  | String c r =>
      if p c then let '(a, b) := span p r in (String c a, b)
      else (EmptyString, s)
  end.

(** [str(b)] for a [bool]. *)
Definition str_bool (b : bool) : string := if b then "True" else "False".

End Py.

(** ** Exceptions and the state-and-exception monad *)

(** The exceptions that derive from [Exception]. *)
Inductive exn : Type :=
| HTTPError (code : Z) (msg : string)   (* urllib.error.HTTPError *)
| URLError (reason : string)            (* urllib.error.URLError, not an HTTPError *)
| PermissionError (msg : string)
| IndexError (msg : string)
| Exception (msg : string).             (* any other subclass of Exception *)

(** [str(e)]. *)
Definition str_exn (e : exn) : string :=
  match e with
  | HTTPError code msg => "HTTP Error " +:+ pretty code +:+ ": " +:+ msg
  | URLError reason => "<urlopen error " +:+ reason +:+ ">"
  | PermissionError msg | IndexError msg | Exception msg => msg
  end.

(** How a call of the standard library ends. *)
Inductive call (A : Type) : Type :=
| Returns (a : A)
| Raises (e : exn).
Arguments Returns {A} a.
Arguments Raises {A} e.

(** How a piece of the program ends: with a value, with an exception, or
    with the [SystemExit] of [sys.exit], which [except Exception] lets
    through. *)
Inductive result (A : Type) : Type :=
| Ok (a : A)
| Raise (e : exn)
| Exit (code : Z).
Arguments Ok {A} a.
Arguments Raise {A} e.
Arguments Exit {A} code.

Definition of_call {A} (c : call A) : result A :=
  match c with Returns a => Ok a | Raises e => Raise e end.

(** A function that returns or raises, and whose only effect is that. *)
Global Instance result_ret : MRet result := @Ok.
Global Instance result_bind : MBind result :=
  λ A B k r, match r with
             | Ok a => k a
             | Raise e => Raise e
             | Exit code => Exit code
             end.

(** [try: body  except Exception as e: handler(e)], for such a function. *)
Definition catch {A} (body : result A) (handler : exn → result A) : result A :=
  match body with
  | Raise e => handler e
  | r => r
  end.

(** A computation over a mutable state [S]: the state survives an
    exception, as the effects of a Python function that raises do. *)
Definition Py (S A : Type) : Type := S → result A * S.

Definition ret {S A} (a : A) : Py S A := λ s, (Ok a, s).

Definition bind {S A B} (m : Py S A) (k : A → Py S B) : Py S B :=
  λ s, match m s with
       | (Ok a, s') => k a s'
       | (Raise e, s') => (Raise e, s')
       | (Exit code, s') => (Exit code, s')
       end.

Definition raise {S A} (e : exn) : Py S A := λ s, (Raise e, s).

(** [sys.exit(code)]. *)
Definition sys_exit {S A} (code : Z) : Py S A := λ s, (Exit code, s).

Definition gets {S A} (f : S → A) : Py S A := λ s, (Ok (f s), s).

Definition modify {S} (f : S → S) : Py S unit := λ s, (Ok tt, f s).

(** The value of a function that does not touch the state. *)
Definition lift {S A} (r : result A) : Py S A := λ s, (r, s).

(** [try: body  except Exception as e: handler(e)], for a computation. *)
Definition try_except {S A} (body : Py S A) (handler : exn → Py S A) : Py S A :=
  λ s, match body s with
       | (Raise e, s') => handler e s'
       | r => r
       end.

Global Instance Py_ret {S} : MRet (Py S) := @ret S.
Global Instance Py_bind {S} : MBind (Py S) := λ A B k m, bind m k.

(** A state that carries the standard output; [write_line] appends what
    one call of [print] writes. *)
Class Stdout (S : Type) : Type := write_line : string → S → S.

(** [print(line)]. *)
Definition print {S : Type} `{!Stdout S} (line : string) : Py S unit :=
  modify (write_line line).

(** [for item in items: new_children.extend(body(item))], the loop that
    both engines run over a [Children] array.  [body] tells which entries
    one iteration appends to [new_children]. *)
Definition for_items {S A} (body : A → Py S (list A)) : list A → Py S (list A) :=
  fix loop (items : list A) : Py S (list A) :=
    match items with
    | [] => mret []
    | item :: rest =>
        kept ← body item;
        new_children ← loop rest;
        mret (kept ++ new_children)
    end.

(** [for item in items: body(item)]. *)
Definition for_each {S A} (body : A → Py S unit) : list A → Py S unit :=
  fix loop (items : list A) : Py S unit :=
    match items with
    | [] => mret tt
    | item :: rest => body item;; loop rest
    end.

(** ** The bookmark tree *)

Definition bytes : Type := list Byte.byte.

Global Instance byte_eq_dec : EqDecision Byte.byte := Byte.byte_eq_dec.
Global Instance bytes_eq_dec : EqDecision bytes := list_eq_dec.

Unset Elimination Schemes.

(** A property-list value the scripts do not interpret. *)
Inductive plist_value : Type :=
| PString (s : string)
| PInteger (z : Z)
| PBool (b : bool)
| PData (b : bytes)
| PArray (l : list plist_value)
| PDict (d : list (string * plist_value)).

(** One entry of a [Children] array.  [Children = Some _] is
    ["Children" in item]; [others] holds every other key.  The fields
    have the types of a Safari document: titles and URLs are strings,
    [Children] is an array of entries; a document that stores anything
    else under these keys is outside the model.  [plistlib] builds one
    dictionary per node, so no two places of a tree share an entry, and
    the assignment [item["Children"] = kids] of the scripts is the
    update [set_Children] of the one place where the entry is. *)
Inductive entry : Type := Entry {
  Title : option string;
  URIDictionary : option (gmap string string);
  URLString : option string;
  Children : option (list entry);
  others : gmap string plist_value
}.
Set Elimination Schemes.

(** [item["Children"] = kids]. *)
Definition set_Children (it : entry) (kids : list entry) : entry :=
  {| Title := Title it; URIDictionary := URIDictionary it;
     URLString := URLString it; Children := Some kids; others := others it |}.

(** [item.get("URIDictionary", {}).get("title")]. *)
Definition uri_title (it : entry) : option string :=
  match URIDictionary it with
  | Some d => d !! "title"
  | None => None
  end.

(** The title the scripts compute for a folder:
    [item.get("Title") or item.get("URIDictionary", {}).get("title") or ""]. *)
Definition folder_title (it : entry) : string :=
  Py.or_ (Title it) (Py.or_ (uri_title it) "").

(** The title the scripts compute for a bookmark with URL [url]:
    [item.get("URIDictionary", {}).get("title") or item.get("Title") or url]. *)
Definition leaf_title (it : entry) (url : string) : string :=
  Py.or_ (uri_title it) (Py.or_ (Title it) url).

(** ["/".join([p for p in path_stack if p])]. *)
Definition folder_path_of (path_stack : list string) : string :=
  Py.join "/" (filter (λ p, Is_true (Py.nonempty p)) path_stack).

(** ** The standard library calls the classifier makes *)

(** What the scripts read of [urlparse(url)]. *)
Record ParseResult : Type := {
  scheme : string;
  hostname_of : option string    (* the [hostname] attribute *)
}.

(** [urllib.request.Request(url, headers=...)]. *)
Record Request : Type := {
  full_url : string;
  headers : list (string * string)
}.

(** The two calls are parameters.  [Request(...)] and
    [ssl.create_default_context()], which [check_url] makes before its
    [try], are taken to return. *)
Class Urllib : Type := {
  (** [urllib.parse.urlparse]; it may raise [ValueError]. *)
  urlparse : string → call ParseResult;
  (** [urlopen(req, timeout=timeout, context=ctx)] followed by
      [resp.getcode()]: the status code, or the exception raised. *)
  urlopen : Request → Z → call Z
}.

(** ** Files, clock and property lists *)

(** A [pathlib.Path]: the directory part and the final component. *)
Record Path : Type := {
  parent : string;
  name : string
}.

Global Instance Path_eq_dec : EqDecision Path.
Proof. solve_decision. Defined.

Global Instance Path_countable : Countable Path :=
  inj_countable' (λ p, (parent p, name p))
                 (λ q, {| parent := q.1; name := q.2 |})
                 (λ p, match p with Build_Path _ _ => eq_refl end).

(** [str(path)]. *)
Definition str_path (p : Path) : string :=
  if String.eqb (parent p) "." then name p
  else if Py.endswith (parent p) "/" then parent p +:+ name p
  else parent p +:+ "/" +:+ name p.

(** [path.with_name(new_name)]; pathlib refuses a path without a name. *)
Definition with_name (p : Path) (new_name : string) : call Path :=
  if Py.nonempty (name p)
  then Returns {| parent := parent p; name := new_name |}
  else Raises (Exception (str_path p +:+ " has an empty name")).

(** The process as the [main] functions see it: the files on disk and
    the standard output, one entry per [print]. *)
Record world : Type := {
  files : gmap Path bytes;
  console : list string
}.

Global Instance world_stdout : Stdout world :=
  λ line w, {| files := files w; console := console w ++ [line] |}.

(** [path.exists()]. *)
Definition path_exists (p : Path) : Py world bool :=
  gets (λ w, bool_decide (is_Some (files w !! p))).

(** [path.read_bytes()], also [open(path, "rb")] read to the end.  A
    file that exists can be read: permissions are not modelled. *)
Definition read_bytes (p : Path) : Py world bytes :=
  λ w, match files w !! p with
       | Some b => (Ok b, w)
       | None => (Raise (Exception ("No such file or directory: " +:+ str_path p)), w)
       end.

(** How an attempt to write a file ends: the file holds the new content;
    or it could not be opened for writing and is untouched; or it was
    opened (hence truncated) and the write stopped with an error, leaving
    [partial] behind.  The error is an [OSError] or an encoding error of
    the serializer, with message [msg]. *)
Inductive write_outcome : Type :=
| Written
| OpenFailed (msg : string)
| Interrupted (partial : bytes) (msg : string).

(** [path.write_bytes(data)], and [open(path, "wb")] followed by writing
    [data], under the outcome [o] that the disk gives to this attempt. *)
Definition write_file (o : write_outcome) (p : Path) (data : bytes) : Py world unit :=
  match o with
  | Written =>
      modify (λ w, {| files := <[p := data]> (files w); console := console w |})
  | OpenFailed msg => raise (Exception msg)
  | Interrupted partial msg =>
      modify (λ w, {| files := <[p := partial]> (files w); console := console w |});;
      raise (Exception msg)
  end.

(** [datetime.now()]. *)
Record datetime : Type := {
  year : nat; month : nat; day : nat;
  hour : nat; minute : nat; second : nat
}.

(** A number printed on at least [width] digits, as [%m] or [%Y] do. *)
Definition zero_pad (width : nat) (n : nat) : string :=
  let digits := pretty n in
  String.concat "" (replicate (width - String.length digits) "0") +:+ digits.

(** [dt.strftime("%Y%m%d-%H%M%S")]. *)
Definition strftime (dt : datetime) : string :=
  zero_pad 4 (year dt) +:+ zero_pad 2 (month dt) +:+ zero_pad 2 (day dt)
  +:+ "-" +:+ zero_pad 2 (hour dt) +:+ zero_pad 2 (minute dt)
  +:+ zero_pad 2 (second dt).

(** What a run of a [main] finds outside the program. *)
Class Host : Type := {
  (** [Path.home()] *)
  home : string;
  (** [datetime.now()] when the backup is taken *)
  now : datetime;
  (** [plistlib.load] on the bytes of a file; it raises on a malformed
      document *)
  plistlib_load : bytes → call entry;
  (** the bytes [plistlib.dump] produces *)
  plistlib_dump : entry → bytes;
  (** the outcome of the three writes of a run *)
  backup_write : write_outcome;
  overwrite : write_outcome;
  restore_write : write_outcome
}.

(** The exit status of the process once [main] has run. *)
Definition exit_status (r : result unit) : Z :=
  match r with
  | Ok _ => 0
  | Raise _ => 1
  | Exit code => code
  end.

(** A line feed. *)
Definition LF : string := String (ascii_of_nat 10) EmptyString.

(** ** prune_broken_safari_bookmarks.py *)

Module Prune.
Section Engine.
Context `{Urllib}.

Definition is_http_url (url : string) : bool :=
  match urlparse url with
  | Returns p => bool_decide (scheme p ∈ ["http"; "https"])
  | Raises _ => false
  end.

Definition hostname (url : string) : string :=
  match urlparse url with
  | Returns p => Py.lower (Py.or_ (hostname_of p) "")
  | Raises _ => ""
  end.

(** The pair [(status_code, error_message)] that [check_url] returns;
    [None] is Python's [None]. *)
Definition verdict : Type := option Z * option string.

Definition check_url (url : string) (timeout : Z) : result verdict :=
  if negb (is_http_url url) then mret (None, Some "Non-HTTP")
  else
    let req := {| full_url := url;
                  headers := [("User-Agent", "SafariBookmarkPruner/1.0")] |} in
    catch
      (code ← of_call (urlopen req timeout);
       mret (Some code, None))
      (λ e, match e with
            | HTTPError code _ => mret (Some code, None)
            | URLError reason => mret (None, Some ("URLError: " +:+ reason))
            | e => mret (None, Some ("Error: " +:+ str_exn e))
            end).

(** The [stats] dictionary of [main]. *)
Record stats_t : Type := {
  total_tested : Z;
  total_broken : Z;
  total_deleted : Z
}.

(** What [prune_children] mutates: its arguments [path_stack] and
    [stats], and the standard output (one entry per [print]). *)
Record state : Type := {
  path_stack : list string;
  stats : stats_t;
  stdout : list string
}.

Global Instance state_stdout : Stdout state :=
  λ line s, {| path_stack := path_stack s; stats := stats s;
               stdout := stdout s ++ [line] |}.

(** [path_stack.append(p)]. *)
Definition path_stack_append (p : string) : Py state unit :=
  modify (λ s, {| path_stack := path_stack s ++ [p]; stats := stats s;
                  stdout := stdout s |}).

(** [path_stack.pop()]. *)
Definition path_stack_pop : Py state unit :=
  λ s, match rev (path_stack s) with
       | [] => (Raise (IndexError "pop from empty list"), s)
       | _ :: r => (Ok tt, {| path_stack := rev r; stats := stats s;
                              stdout := stdout s |})
       end.

Definition set_stats (f : stats_t → stats_t) : Py state unit :=
  modify (λ s, {| path_stack := path_stack s; stats := f (stats s);
                  stdout := stdout s |}).

(** [stats["total_tested"] += 1] and its two siblings. *)
Definition incr_total_tested : Py state unit :=
  set_stats (λ t, {| total_tested := total_tested t + 1;
                     total_broken := total_broken t;
                     total_deleted := total_deleted t |}).
Definition incr_total_broken : Py state unit :=
  set_stats (λ t, {| total_tested := total_tested t;
                     total_broken := total_broken t + 1;
                     total_deleted := total_deleted t |}).
Definition incr_total_deleted : Py state unit :=
  set_stats (λ t, {| total_tested := total_tested t;
                     total_broken := total_broken t;
                     total_deleted := total_deleted t + 1 |}).

(** The deletion decision of [prune_children]: [(to_delete, reason)]. *)
Definition decide_deletion (min_status : Z) (v : verdict) : bool * string :=
  match v.1 with
  | None => (true, Py.or_ v.2 "Aucune réponse")
  | Some status =>
      if bool_decide (status >= min_status)
      then (true, "Statut HTTP " +:+ pretty status)
      else (false, "Statut HTTP " +:+ pretty status)
  end.

Definition status_text (status : option Z) : string :=
  match status with
  | Some status =>
      if bool_decide (200 <= status < 300) then pretty status +:+ " (OK)"
      else if bool_decide (300 <= status < 400) then pretty status +:+ " (Redirection)"
      else if bool_decide (400 <= status < 500) then pretty status +:+ " (Erreur client)"
      else pretty status +:+ " (Erreur serveur)"
  | None => "Aucune réponse"
  end.

Section Loop.
Variables (folder_filter : option string) (timeout : Z) (dry_run : bool)
          (min_status : Z).

(** The part of the loop body that handles a bookmark with a URL. *)
Definition prune_leaf (item : entry) (url : string) : Py state (list entry) :=
  let title := leaf_title item url in
  path_stack ← gets path_stack;
  let folder_path := folder_path_of path_stack in
  let full_path :=
    if Py.nonempty folder_path then folder_path +:+ " / " +:+ title else title in
  if Py.truthy folder_filter
     && negb (Py.startswith folder_path (default "" folder_filter))
  then mret [item]
  else
    incr_total_tested;;
    stats ← gets stats;
    print ("[" +:+ pretty (total_tested stats) +:+ "] " +:+ full_path);;
    print ("   URL → " +:+ url);;
    v ← lift (check_url url timeout);
    let '(status, error) := v in
    let '(to_delete, reason) := decide_deletion min_status v in
    print ("   Statut → " +:+ status_text status
           +:+ (if Py.truthy error then " | " +:+ default "" error else ""));;
    new_children ←
      (if to_delete then
         incr_total_broken;;
         print ("   🔥 Marqué pour suppression (" +:+ reason +:+ ")");;
         if dry_run then mret [item]
         else incr_total_deleted;; mret []
       else
         print "   ✅ Conservé";;
         mret [item]);
    print "";;
    mret new_children.

(** One iteration of the [for] loop of [prune_children]: the entries
    it appends to [new_children]. *)
Fixpoint prune_item (item : entry) : Py state (list entry) :=
  match Children item with
  | Some children =>
      let title := folder_title item in
      path_stack_append (Py.or_ (Some title) "Sans titre");;
      filtered_kids ← for_items prune_item children;
      path_stack_pop;;
      mret [set_Children item filtered_kids]
  | None =>
      if negb (Py.truthy (URLString item)) then mret [item]
      else prune_leaf item (default "" (URLString item))
  end.

Definition prune_children (children : list entry) : Py state (list entry) :=
  for_items prune_item children.

End Loop.
End Engine.

Section Main.
Context `{Urllib} `{Host}.

Definition BOOKMARKS_PATH : Path :=
  {| parent := home +:+ "/Library/Safari"; name := "Bookmarks.plist" |}.

Definition backup_bookmarks (path : Path) : Py world Path :=
  let ts := strftime now in
  backup_path ← lift (of_call (with_name path ("Bookmarks.backup." +:+ ts +:+ ".plist")));
  data ← read_bytes path;
  write_file backup_write backup_path data;;
  mret backup_path.

(** The parsed command line.  [bookmarks_path] is
    [Path(args.bookmarks_path).expanduser()]. *)
Record Args : Type := {
  bookmarks_path : Path;
  folder : option string;
  timeout : Z;
  dry_run : bool;
  min_status : Z
}.

(** The command line without any option. *)
Definition default_args : Args :=
  {| bookmarks_path := BOOKMARKS_PATH; folder := None; timeout := 10;
     dry_run := false; min_status := 300 |}.

(** The call [prune_children(children=children, path_stack=[], ...,
    stats=stats)] of [main], with the fresh [stats] dictionary; it
    gives back the new children and the final [stats]. *)
Definition call_prune_children (args : Args) (folder_filter : option string)
    (children : list entry) : Py world (list entry * stats_t) :=
  λ w,
    let st := {| path_stack := [];
                 stats := {| total_tested := 0; total_broken := 0;
                             total_deleted := 0 |};
                 stdout := console w |} in
    let '(r, st') := prune_children folder_filter (timeout args) (dry_run args)
                       (min_status args) children st in
    let w' := {| files := files w; console := stdout st' |} in
    match r with
    | Ok new_children => (Ok (new_children, stats st'), w')
    | Raise e => (Raise e, w')
    | Exit code => (Exit code, w')
    end.

Definition main (args : Args) : Py world unit :=
  let plist_path := bookmarks_path args in
  found ← path_exists plist_path;
  if negb found then
    print ("❌ Fichier introuvable : " +:+ str_path plist_path);;
    sys_exit 1
  else
  print "⚠️ Assure-toi que Safari est FERMÉ et qu'iCloud Safari est désactivé le temps du script.";;
  print ("📄 Fichier : " +:+ str_path plist_path);;
  print ("📁 Dossier filtré : "
         +:+ Py.or_ (folder args) "Aucun (tous les signets)");;
  print ("🕒 Timeout : " +:+ pretty (timeout args) +:+ "s");;
  print ("🔪 Suppression si statut >= " +:+ pretty (min_status args)
         +:+ " ou aucune réponse");;
  print ("🧪 Dry-run : " +:+ Py.str_bool (dry_run args));;
  print "";;
  backup_path ← backup_bookmarks plist_path;
  print ("💾 Sauvegarde créée : " +:+ str_path backup_path +:+ LF);;
  data ← try_except
    (raw ← read_bytes plist_path;
     lift (of_call (plistlib_load raw)))
    (λ e, match e with
          | PermissionError _ =>
              print "❌ Permission refusée. Active l'Accès complet au disque pour Terminal / python3.";;
              sys_exit 1
          | e =>
              print ("❌ Impossible de lire le plist : " +:+ str_exn e);;
              sys_exit 1
          end);
  let children := default [] (Children data) in
  let folder_filter :=
    if Py.truthy (folder args)
    then Some (Py.strip Py.is_whitespace (default "" (folder args)))
    else None in
  '(new_children, stats) ← call_prune_children args folder_filter children;
  print "📊 Récapitulatif :";;
  print ("   Signets testés       : " +:+ pretty (total_tested stats));;
  print ("   Signets cassés       : " +:+ pretty (total_broken stats));;
  (if dry_run args
   then print "   Signets supprimés    : 0 (dry-run)"
   else print ("   Signets supprimés    : " +:+ pretty (total_deleted stats)));;
  print ("   Sauvegarde disponible: " +:+ str_path backup_path);;
  print "";;
  if dry_run args then
    print "✅ Dry-run terminé. Relance sans --dry-run pour appliquer la suppression."
  else
    let data := set_Children data new_children in
    try_except
      (write_file overwrite plist_path (plistlib_dump data);;
       print "✅ Fichier Bookmarks.plist mis à jour.")
      (λ e,
         print ("❌ Erreur d'écriture du plist : " +:+ str_exn e);;
         print "↩️ Restauration de la sauvegarde...";;
         backup ← read_bytes backup_path;
         write_file restore_write plist_path backup;;
         print "✅ Restauration effectuée.";;
         sys_exit 1).

End Main.
End Prune.

(** ** remove_safari_bookmarks_by_domains.py *)

Module Remove.
Section Engine.
Context `{Urllib}.

Definition hostname (url : string) : string :=
  match urlparse url with
  | Returns p => Py.lower (Py.or_ (hostname_of p) "")
  | Raises _ => ""
  end.

Definition matches_domain (host : string) (targets : list string) : bool :=
  let host := Py.strip Py.is_dot (Py.lower (Py.or_ (Some host) "")) in
  if negb (Py.nonempty host) then false
  else
    existsb (λ d,
               let d := Py.lstrip Py.is_dot (Py.lower d) in
               Py.nonempty d
               && (String.eqb host d || Py.endswith host ("." +:+ d)))
            targets.

(** [filter_children] only prints: its state is the standard output. *)
Global Instance lines_stdout : Stdout (list string) :=
  λ line out, (out ++ [line]).

(** The loop of [filter_children]: [body] tells which entries one
    iteration appends to [new_children] and what it adds to [deleted]. *)
Definition for_items_counting {S A} (body : A → Py S (list A * Z))
    : list A → Py S (list A * Z) :=
  fix loop (items : list A) : Py S (list A * Z) :=
    match items with
    | [] => mret ([], 0)
    | item :: rest =>
        '(kept, n) ← body item;
        '(new_children, deleted) ← loop rest;
        mret ((kept ++ new_children), n + deleted)
    end.

Section Loop.
Variables (targets : list string) (ignore_folders : gset string)
          (dry_run : bool).

(** One iteration of the [for] loop of [filter_children]. *)
Fixpoint filter_item (item : entry) : Py (list string) (list entry * Z) :=
  match Children item with
  | Some children =>
      let title := folder_title item in
      if bool_decide (title ∈ ignore_folders) then mret ([item], 0)
      else
        '(filtered_kids, del_count) ← for_items_counting filter_item children;
        let item := if dry_run then item else set_Children item filtered_kids in
        mret ([item], del_count)
  | None =>
      let url := default "" (URLString item) in
      if Py.truthy (URLString item) && matches_domain (hostname url) targets
      then
        let title := leaf_title item url in
        print ("➡️  Match domaine → suppression : " +:+ title
               +:+ " (" +:+ url +:+ ")");;
        mret (if dry_run then [item] else [], 1)
      else mret ([item], 0)
  end.

Definition filter_children (children : list entry)
    : Py (list string) (list entry * Z) :=
  for_items_counting filter_item children.

End Loop.
End Engine.

Section Main.
Context `{Urllib} `{Host}.

Definition BOOKMARKS_PATH : Path :=
  {| parent := home +:+ "/Library/Safari"; name := "Bookmarks.plist" |}.

Definition backup_bookmarks (bookmarks_path : Path) : Py world Path :=
  let ts := strftime now in
  backup_path ← lift (of_call (with_name bookmarks_path
                        ("Bookmarks.backup." +:+ ts +:+ ".plist")));
  data ← read_bytes bookmarks_path;
  write_file backup_write backup_path data;;
  mret backup_path.

(** The parsed command line.  [bookmarks_path] is
    [Path(args.bookmarks_path).expanduser()]. *)
Record Args : Type := {
  domain : list string;
  ignore_folder : list string;
  dry_run : bool;
  bookmarks_path : Path
}.

(** The call of [filter_children] in [main]: its prints go to the
    standard output of the process. *)
Definition call_filter_children (targets : list string)
    (ignore_folders : gset string) (dry_run : bool) (children : list entry)
    : Py world (list entry * Z) :=
  λ w,
    let '(r, out) := filter_children targets ignore_folders dry_run children
                       (console w) in
    (r, {| files := files w; console := out |}).

Definition main (args : Args) : Py world unit :=
  let path := bookmarks_path args in
  found ← path_exists path;
  if negb found then
    print ("❌ Fichier introuvable : " +:+ str_path path);;
    print "Astuce : Vérifie le chemin et ferme Safari avant de lancer le script.";;
    sys_exit 1
  else
  data ← try_except
    (raw ← read_bytes path;
     lift (of_call (plistlib_load raw)))
    (λ e,
       print ("❌ Impossible de lire le plist : " +:+ str_exn e);;
       sys_exit 1);
  let targets :=
    map (Py.strip Py.is_whitespace)
        (filter (λ d, Is_true (Py.nonempty (Py.strip Py.is_whitespace d)))
                (domain args)) in
  if bool_decide (targets = []) then
    print "❌ Aucun domaine valide fourni.";;
    sys_exit 1
  else
  let ignore_folders : gset string := list_to_set (ignore_folder args) in
  print "ℹ️  Configuration :";;
  print ("   - Fichier : " +:+ str_path path);;
  print ("   - Dry-run : " +:+ Py.str_bool (dry_run args));;
  print ("   - Domaines : " +:+ Py.join ", " targets);;
  (if bool_decide (ignore_folders ≠ ∅)
   then print ("   - Dossiers ignorés : "
               +:+ Py.join ", " (elements ignore_folders))
   else mret tt);;
  print "⚠️  Assure-toi que Safari est FERMÉ (et idéalement la synchro iCloud Safari désactivée temporairement).";;
  backup_path ← backup_bookmarks path;
  print ("💾 Sauvegarde créée : " +:+ str_path backup_path);;
  let children := default [] (Children data) in
  '(new_children, deleted) ←
    call_filter_children targets ignore_folders (dry_run args) children;
  if dry_run args then
    print (LF +:+ "✅ Dry-run terminé : " +:+ pretty deleted
           +:+ " signet(s) seraient supprimé(s). Aucune modification écrite.");;
    print "   Supprime --dry-run pour appliquer réellement les changements."
  else
    let data := set_Children data new_children in
    try_except
      (write_file overwrite path (plistlib_dump data);;
       print (LF +:+ "✅ Terminé : " +:+ pretty deleted
              +:+ " signet(s) supprimé(s).");;
       print "   Relance Safari (et re-active iCloud si tu l’avais coupé).")
      (λ e,
         print ("❌ Erreur d'écriture du plist, restauration de la sauvegarde… ("
                +:+ str_exn e +:+ ")");;
         backup_bytes ← read_bytes backup_path;
         write_file restore_write path backup_bytes;;
         print "↩️  Fichier original restauré.";;
         sys_exit 1).

End Main.
End Remove.

(** ** check_safari_bookmarks_http.py *)

Module Check.
Section Classifier.
Context `{Urllib}.

Definition is_http_url (url : string) : bool :=
  match urlparse url with
  | Returns p => bool_decide (scheme p ∈ ["http"; "https"])
  | Raises _ => false
  end.

Definition check_url (url : string) (timeout : Z)
    : result (option Z * option string) :=
  if negb (is_http_url url) then mret (None, Some "Non-HTTP")
  else
    let req := {| full_url := url;
                  headers := [("User-Agent", "SafariBookmarkChecker/1.0")] |} in
    catch
      (code ← of_call (urlopen req timeout);
       mret (Some code, None))
      (λ e, match e with
            | HTTPError code _ => mret (Some code, None)
            | URLError reason => mret (None, Some ("URLError: " +:+ reason))
            | e => mret (None, Some ("Error: " +:+ str_exn e))
            end).

End Classifier.

Section Walk.
Context `{Urllib}.

Definition hostname (url : string) : string :=
  match urlparse url with
  | Returns p => Py.lower (Py.or_ (hostname_of p) "")
  | Raises _ => ""
  end.

(** A row of [out_rows]. *)
Record row : Type := {
  path : string;
  full_path : string;
  title : string;
  url : string;
  domain : string
}.

(** What [walk] mutates: its arguments [path_stack] and [out_rows]. *)
Record state : Type := {
  path_stack : list string;
  out_rows : list row
}.

(** [path_stack.append(p)]. *)
Definition path_stack_append (p : string) : Py state unit :=
  modify (λ s, {| path_stack := path_stack s ++ [p]; out_rows := out_rows s |}).

(** [path_stack.pop()]. *)
Definition path_stack_pop : Py state unit :=
  λ s, match rev (path_stack s) with
       | [] => (Raise (IndexError "pop from empty list"), s)
       | _ :: r => (Ok tt, {| path_stack := rev r; out_rows := out_rows s |})
       end.

(** [out_rows.append(row)]. *)
Definition out_rows_append (r : row) : Py state unit :=
  modify (λ s, {| path_stack := path_stack s; out_rows := out_rows s ++ [r] |}).

(** One iteration of the [for] loop of [walk]. *)
Fixpoint walk_item (item : entry) : Py state unit :=
  match Children item with
  | Some children =>
      let title := folder_title item in
      path_stack_append (Py.or_ (Some title) "Sans titre");;
      for_each walk_item children;;
      path_stack_pop
  | None =>
      if Py.truthy (URLString item) then
        let url := default "" (URLString item) in
        let title := leaf_title item url in
        stack ← gets path_stack;
        let folder_path := folder_path_of stack in
        let full_path :=
          if Py.nonempty folder_path then folder_path +:+ " / " +:+ title
          else title in
        out_rows_append {| path := folder_path; full_path := full_path;
                           title := title; url := url; domain := hostname url |}
      else mret tt
  end.

Definition walk (children : list entry) : Py state unit :=
  for_each walk_item children.

End Walk.

(** An element of [results]: the five keys copied from the row, and
    the two cells of the verdict.  An empty cell ([""]) is [None] for
    [status]. *)
Record result_row : Type := {
  of_row : row;
  status : option Z;
  error : string
}.

(** What the [csv] module and [pathlib] do for [write_csv]. *)
Class Csv : Type := {
  (** [Path(s).expanduser()] *)
  expanduser : string → Path;
  (** the text that [csv.DictWriter] writes: the header, then a line
      for each row *)
  csv_dump : list result_row → bytes;
  (** the outcome of the write *)
  csv_write : write_outcome
}.
Section Main.
Context `{Urllib} `{Host} `{Csv}.

Definition BOOKMARKS_PATH : Path :=
  {| parent := home +:+ "/Library/Safari"; name := "Bookmarks.plist" |}.

Definition load_bookmarks (path : Path) : Py world entry :=
  raw ← read_bytes path;
  lift (of_call (plistlib_load raw)).

Definition write_csv (rows : list result_row) (path : Path) : Py world unit :=
  write_file csv_write path (csv_dump rows).

(** The parsed command line.  [bookmarks_path] is
    [Path(args.bookmarks_path).expanduser()]. *)
Record Args : Type := {
  bookmarks_path : Path;
  folder : option string;
  timeout : Z;
  output_csv : option string;
  limit : option Z
}.

(** Truth value of an [int] or [None]. *)
Definition truthy_int (o : option Z) : bool :=
  match o with
  | Some n => negb (n =? 0)
  | None => false
  end.

(** [l[:n]]. *)
Definition slice_to {A} (n : Z) (l : list A) : list A :=
  if bool_decide (0 <= n) then take (Z.to_nat n) l
  else take (Z.to_nat (Z.of_nat (length l) + n)) l.

Definition status_text (status : option Z) : string :=
  match status with
  | Some status =>
      if bool_decide (200 <= status < 300) then pretty status +:+ " (OK)"
      else if bool_decide (300 <= status < 400) then pretty status +:+ " (Redirection)"
      else if bool_decide (400 <= status < 500) then pretty status +:+ " (Erreur client)"
      else pretty status +:+ " (Erreur serveur)"
  | None => "Aucune réponse"
  end.

(** [status if status else ""]. *)
Definition status_cell (status : option Z) : option Z :=
  match status with
  | Some 0 => None
  | status => status
  end.

(** [str] of a [status] cell. *)
Definition str_status (cell : option Z) : string :=
  match cell with
  | Some status => pretty status
  | None => ""
  end.

(** The call [walk(data.get("Children", []), [], all_rows)] of [main],
    with the fresh list [all_rows], which it gives back. *)
Definition call_walk (children : list entry) : Py world (list row) :=
  λ w,
    let '(r, st) := walk children {| path_stack := []; out_rows := [] |} in
    match r with
    | Ok _ => (Ok (out_rows st), w)
    | Raise e => (Raise e, w)
    | Exit code => (Exit code, w)
    end.

(** One iteration of the loop of [main] over [rows]: the element it
    appends to [results]. *)
Definition check_row (total : nat) (timeout : Z) (idx : Z) (r : row)
    : Py world result_row :=
  print ("[" +:+ pretty idx +:+ "/" +:+ pretty (Z.of_nat total) +:+ "] "
         +:+ full_path r);;
  print ("   URL → " +:+ url r);;
  v ← lift (check_url (url r) timeout);
  let '(status_code, error_message) := v in
  print ("   Statut → " +:+ status_text status_code
         +:+ (if Py.truthy error_message
              then " | " +:+ default "" error_message else ""));;
  print "";;
  mret {| of_row := r; status := status_cell status_code;
          error := Py.or_ error_message "" |}.

(** [for idx, r in enumerate(rows, start=idx): ...]. *)
Fixpoint check_rows (total : nat) (timeout : Z) (idx : Z) (rows : list row)
    : Py world (list result_row) :=
  match rows with
  | [] => mret []
  | r :: rest =>
      result ← check_row total timeout idx r;
      results ← check_rows total timeout (idx + 1) rest;
      mret (result :: results)
  end.

(** [(not r["status"]) or int(r["status"]) >= 400]. *)
Definition is_broken (r : result_row) : bool :=
  match status r with
  | None => true
  | Some status => bool_decide (status >= 400)
  end.

Definition main (args : Args) : Py world unit :=
  let plist_path := bookmarks_path args in
  data ← try_except
    (load_bookmarks plist_path)
    (λ e, match e with
          | PermissionError _ =>
              print "❌ Autorisation refusée. Active l’Accès complet au disque pour Terminal.";;
              sys_exit 1
          | e => raise e
          end);
  all_rows ← call_walk (default [] (Children data));
  let target :=
    if Py.truthy (folder args)
    then Some (Py.strip Py.is_whitespace (default "" (folder args)))
    else None in
  let rows :=
    filter (λ r, Is_true (negb (Py.truthy target)
                          || Py.startswith (path r) (default "" target)))
           all_rows in
  let rows :=
    if truthy_int (limit args) then slice_to (default 0 (limit args)) rows
    else rows in
  print ("🔎 Signets à tester : " +:+ pretty (Z.of_nat (length rows)));;
  (if Py.truthy target
   then print ("📁 Filtre dossier : " +:+ default "" target)
   else mret tt);;
  results ← check_rows (length rows) (timeout args) 1 rows;
  (if Py.truthy (output_csv args) then
     write_csv results (expanduser (default "" (output_csv args)));;
     print (LF +:+ "📄 Export CSV : " +:+ default "" (output_csv args))
   else mret tt);;
  let broken := filter (λ r, Is_true (is_broken r)) results in
  print (LF +:+ "📊 Résumé :");;
  print ("   Total : " +:+ pretty (Z.of_nat (length results)));;
  print ("   Liens cassés : " +:+ pretty (Z.of_nat (length broken)) +:+ LF);;
  for_each (λ b, print (" - " +:+ str_status (status b) +:+ " | "
                        +:+ full_path (of_row b) +:+ " | " +:+ url (of_row b)))
           (take 15 broken).

End Main.

End Check.

(** ** A concrete platform, for the examples *)

Module Sample.

Definition is_alpha (c : ascii) : bool :=
  let n := nat_of_ascii c in
  ((65 <=? n) && (n <=? 90) || (97 <=? n) && (n <=? 122))%nat.

Definition is_digit (c : ascii) : bool :=
  let n := nat_of_ascii c in ((48 <=? n) && (n <=? 57))%nat.

(** [urllib.parse.scheme_chars] *)
Definition is_scheme_char (c : ascii) : bool :=
  is_alpha c || is_digit c
  || Ascii.eqb c "+" || Ascii.eqb c "-" || Ascii.eqb c ".".

(** What follows the last [c] in [s]; [acc] if there is no [c]. *)
Fixpoint after_last (c : ascii) (s acc : string) : string :=
  match s with
  | EmptyString => acc
  | String a r => if Ascii.eqb a c then after_last c r r else after_last c r acc
  end.

Definition starts_alpha (s : string) : bool :=
  match s with String c _ => is_alpha c | EmptyString => false end.

(** The scheme and host name that [urllib.parse.urlparse] finds in a
    plain URL [scheme://user@host:port/path?query#fragment].  Bracketed
    (IPv6) hosts are refused, as malformed ones are by [urlparse]. *)
Definition parse_url (url : string) : call ParseResult :=
  let '(pre, rest) := Py.span is_scheme_char url in
  let '(scheme, rest) :=
    match rest with
    | String ":" rest' =>
        if starts_alpha pre then (Py.lower pre, rest') else (EmptyString, url)
    | _ => (EmptyString, url)
    end in
  let netloc :=
    match rest with
    | String "/" (String "/" r) =>
        fst (Py.span (λ c, negb (Ascii.eqb c "/" || Ascii.eqb c "?" || Ascii.eqb c "#")) r)
    | _ => EmptyString
    end in
  if existsb (λ c, Ascii.eqb c "[" || Ascii.eqb c "]") (list_ascii_of_string netloc)
  then Raises (Exception "Invalid IPv6 URL")
  else
    let hostinfo := after_last "@" netloc netloc in
    let host := fst (Py.span (λ c, negb (Ascii.eqb c ":")) hostinfo) in
    Returns {| scheme := scheme;
          hostname_of := if Py.nonempty host then Some (Py.lower host) else None |}.

(** A small web: one live site, one page that is gone, one host that
    does not resolve, one that times out. *)
Definition open_url (req : Request) (timeout : Z) : call Z :=
  let url := full_url req in
  if String.eqb url "http://gone.example/page" then Raises (HTTPError 404 "Not Found")
  else if String.eqb url "http://dead.example" then Raises (URLError "[Errno 8] nodename nor servname provided, or not known")
  else if String.eqb url "https://slow.example" then Raises (Exception "The read operation timed out")
  else if String.eqb url "http://busy.example" then Raises (HTTPError 503 "Service Unavailable")
  else Returns 200.

Definition urllib : Urllib := {| urlparse := parse_url; urlopen := open_url |}.

(** Bookmarks and folders as Safari writes them. *)
Definition bookmark (title url : string) : entry :=
  {| Title := None; URIDictionary := Some {[ "title" := title ]};
     URLString := Some url; Children := None;
     others := {[ "WebBookmarkType" := PString "WebBookmarkTypeLeaf" ]} |}.

Definition folder_ (title : string) (children : list entry) : entry :=
  {| Title := Some title; URIDictionary := None; URLString := None;
     Children := Some children;
     others := {[ "WebBookmarkType" := PString "WebBookmarkTypeList" ]} |}.

Definition tree : list entry :=
  [ folder_ "BookmarksBar"
      [ bookmark "Live" "http://live.example";
        bookmark "Dead" "http://dead.example";
        folder_ "Dev"
          [ bookmark "Gone" "http://gone.example/page";
            bookmark "Bookmarklet" "javascript:void(0)" ] ];
    folder_ "" [ bookmark "Facebook" "https://m.facebook.com/home" ];
    bookmark "Busy" "http://busy.example" ].

Definition root (children : list entry) : entry :=
  {| Title := None; URIDictionary := None; URLString := None;
     Children := Some children; others := ∅ |}.

Definition bytes_of (s : string) : bytes := list_byte_of_string s.

(** A toy property-list codec: the document ["tree"] holds [tree], an
    empty file is malformed, anything else is an empty root. *)
Definition load_plist (b : bytes) : call entry :=
  match b with
  | [] => Raises (Exception "Invalid file")
  | _ => if bool_decide (b = bytes_of "tree") then Returns (root tree)
         else Returns (root [])
  end.

Definition dump_plist (e : entry) : bytes :=
  bytes_of ("pruned:" +:+ pretty (length (default [] (Children e)))).

Definition host (b o r : write_outcome) : Host :=
  {| home := "/Users/me";
     now := {| year := 2025; month := 1; day := 2;
               hour := 3; minute := 4; second := 5 |};
     plistlib_load := load_plist;
     plistlib_dump := dump_plist;
     backup_write := b; overwrite := o; restore_write := r |}.

(** A disk that holds one document, the sample tree, at [path]. *)
Definition disk (path : Path) : world :=
  {| files := {[ path := bytes_of "tree" ]}; console := [] |}.

(** The state in which [main] calls [prune_children]. *)
Definition fresh : Prune.state :=
  {| Prune.path_stack := [];
     Prune.stats := {| Prune.total_tested := 0; Prune.total_broken := 0;
                       Prune.total_deleted := 0 |};
     Prune.stdout := [] |}.


(** A toy CSV writer, one line per row, and [expanduser] for a file
    name without a directory. *)
Definition csv_of (rows : list Check.result_row) : bytes :=
  bytes_of (String.concat LF
              (map (λ r, Check.url (Check.of_row r) +:+ ","
                         +:+ Check.str_status (Check.status r)) rows)).

Definition csv (c : write_outcome) : Check.Csv :=
  {| Check.expanduser := λ s, {| parent := "."; name := s |};
     Check.csv_dump := csv_of;
     Check.csv_write := c |}.

End Sample.

(** ** Vocabulary of the statements *)

(** Induction on a bookmark tree: a property of an entry may rely on the
    property of each of its children. *)
Definition entry_ind (P : entry → Prop)
    (step : ∀ it, (∀ kids, Children it = Some kids → Forall P kids) → P it)
    : ∀ it, P it :=
  fix go (it : entry) : P it :=
    step it
      (match it as it0
             return ∀ kids, Children it0 = Some kids → Forall P kids with
       | Entry _ _ _ c _ =>
           match c as c0 return ∀ kids, c0 = Some kids → Forall P kids with
           | Some kids0 =>
               λ kids (E : Some kids0 = Some kids),
                 match E in (_ = o)
                       return match o with
                              | Some k => Forall P k
                              | None => True
                              end with
                 | eq_refl =>
                     (fix all (l : list entry) : Forall P l :=
                        match l with
                        | [] => @List.Forall_nil _ P
                        | x :: r => @List.Forall_cons _ P x r (go x) (all r)
                        end) kids0
                 end
           | None => λ kids (E : None = Some kids),
                       match E in (_ = o)
                             return match o with
                                    | Some k => Forall P k
                                    | None => True
                                    end with
                       | eq_refl => I
                       end
           end
       end).

(** A verdict of the classifier with exactly one side filled in: a status
    code and no error, or no status and an error that says why. *)
Definition one_sided (v : option Z * option string) : Prop :=
  (∃ code, v = (Some code, None))
  ∨ (∃ reason, v = (None, Some reason) ∧ reason ≠ "").

(** [title or "Sans titre"]: what [prune_children] pushes on [path_stack]
    when it enters a folder. *)
Definition pushed_title (it : entry) : string :=
  Py.or_ (Some (folder_title it)) "Sans titre".

(** The URL of a bookmark, [""] when it has none. *)
Definition url_of (it : entry) : string := default "" (URLString it).

(** The bookmarks below an entry that have a URL, in the order of the
    traversal, each with the [path_stack] under which it is met. *)
Fixpoint bookmarks_of (path_stack : list string) (it : entry)
    : list (list string * entry) :=
  match Children it with
  | Some kids => flat_map (bookmarks_of (path_stack ++ [pushed_title it])) kids
  | None => if Py.truthy (URLString it) then [(path_stack, it)] else []
  end.

Definition bookmarks (path_stack : list string) (children : list entry)
    : list (list string * entry) :=
  flat_map (bookmarks_of path_stack) children.

(** The row that [walk] appends for a bookmark met under [path_stack]. *)
Definition row_of `{Urllib} (b : list string * entry) : Check.row :=
  let url := url_of b.2 in
  let title := leaf_title b.2 url in
  let folder_path := folder_path_of b.1 in
  {| Check.path := folder_path;
     Check.full_path :=
       if Py.nonempty folder_path then folder_path +:+ " / " +:+ title
       else title;
     Check.title := title; Check.url := url;
     Check.domain := Check.hostname url |}.

(** The entries of a tree that are not folders, at any depth. *)
Fixpoint leaves_of (it : entry) : list entry :=
  match Children it with
  | Some kids => flat_map leaves_of kids
  | None => [it]
  end.

Definition leaves (children : list entry) : list entry :=
  flat_map leaves_of children.

(** The folders of a tree, emptied of every bookmark: what is left of the
    tree when only folders count. *)
Fixpoint folders_of (it : entry) : list entry :=
  match Children it with
  | Some kids => [set_Children it (flat_map folders_of kids)]
  | None => []
  end.

Definition folders (children : list entry) : list entry :=
  flat_map folders_of children.

(** [thins children new_children]: [new_children] is [children] with some
    bookmarks left out, at any depth; every folder is still there, in
    place, and the entries that remain are in their original order. *)
Inductive thins : list entry → list entry → Prop :=
| thins_nil : thins [] []
| thins_keep it rest rest' :
    thins rest rest' → thins (it :: rest) (it :: rest')
| thins_drop it rest rest' :
    Children it = None → thins rest rest' → thins (it :: rest) rest'
| thins_folder it kids kids' rest rest' :
    Children it = Some kids → thins kids kids' → thins rest rest' →
    thins (it :: rest) (set_Children it kids' :: rest').

Section PruneVocabulary.
Context `{Urllib}.
Variables (folder_filter : option string) (timeout : Z) (dry_run : bool)
          (min_status : Z).

(** A bookmark met under [path_stack] is within the scope of
    [folder_filter]: the guard of [prune_children] lets it through. *)
Definition in_scope (path_stack : list string) : bool :=
  negb (Py.truthy folder_filter
        && negb (Py.startswith (folder_path_of path_stack)
                               (default "" folder_filter))).

(** The deletion decision for a URL: [to_delete] for its verdict. *)
Definition marked (url : string) : bool :=
  match Prune.check_url url timeout with
  | Ok v => (Prune.decide_deletion min_status v).1
  | _ => false
  end.

(** The bookmarks that a run tests, and those it marks. *)
Definition tested (path_stack : list string) (children : list entry)
    : list (list string * entry) :=
  filter (λ b, Is_true (in_scope b.1)) (bookmarks path_stack children).

Definition broken (path_stack : list string) (children : list entry)
    : list (list string * entry) :=
  filter (λ b, Is_true (marked (url_of b.2))) (tested path_stack children).

(** What one iteration of [prune_children] appends to [new_children],
    as a function of the entry and of [path_stack]. *)
Fixpoint retained_of (path_stack : list string) (it : entry) : list entry :=
  match Children it with
  | Some kids =>
      [set_Children it
         (flat_map (retained_of (path_stack ++ [pushed_title it])) kids)]
  | None =>
      if Py.truthy (URLString it) && in_scope path_stack
         && marked (url_of it) && negb dry_run
      then [] else [it]
  end.

Definition retained (path_stack : list string) (children : list entry)
    : list entry :=
  flat_map (retained_of path_stack) children.

(** The [stats] dictionary after a run over [children]. *)
Definition tallied (t : Prune.stats_t) (path_stack : list string)
    (children : list entry) : Prune.stats_t :=
  let n_tested := Z.of_nat (length (tested path_stack children)) in
  let n_broken := Z.of_nat (length (broken path_stack children)) in
  {| Prune.total_tested := Prune.total_tested t + n_tested;
     Prune.total_broken := Prune.total_broken t + n_broken;
     Prune.total_deleted :=
       Prune.total_deleted t + (if dry_run then 0 else n_broken) |}.

End PruneVocabulary.

Section RemoveVocabulary.
Context `{Urllib}.
Variables (targets : list string) (ignore_folders : gset string).

(** The match of [filter_children] on a bookmark. *)
Definition targeted (it : entry) : bool :=
  Py.truthy (URLString it)
  && Remove.matches_domain (Remove.hostname (url_of it)) targets.

(** The bookmarks that are not inside an ignored folder. *)
Fixpoint reached_of (it : entry) : list entry :=
  match Children it with
  | Some kids =>
      if bool_decide (folder_title it ∈ ignore_folders) then []
      else flat_map reached_of kids
  | None => [it]
  end.

Definition reached (children : list entry) : list entry :=
  flat_map reached_of children.

(** The ignored folders that the traversal meets. *)
Fixpoint ignored_of (it : entry) : list entry :=
  match Children it with
  | Some kids =>
      if bool_decide (folder_title it ∈ ignore_folders) then [it]
      else flat_map ignored_of kids
  | None => []
  end.

Definition ignored (children : list entry) : list entry :=
  flat_map ignored_of children.

(** What one iteration of [filter_children] appends to [new_children],
    as a function of the entry. *)
Fixpoint spared_of (dry_run : bool) (it : entry) : list entry :=
  match Children it with
  | Some kids =>
      if bool_decide (folder_title it ∈ ignore_folders) then [it]
      else [if dry_run then it
            else set_Children it (flat_map (spared_of dry_run) kids)]
  | None => if targeted it && negb dry_run then [] else [it]
  end.

Definition spared (dry_run : bool) (children : list entry) : list entry :=
  flat_map (spared_of dry_run) children.

(** The line that [filter_children] prints for a match. *)
Definition match_line (it : entry) : string :=
  "➡️  Match domaine → suppression : " +:+ leaf_title it (url_of it)
  +:+ " (" +:+ url_of it +:+ ")".

End RemoveVocabulary.

(** The stem and the extension of a file name, as [pathlib] splits it at
    the last dot: a dot that opens or closes the name does not count. *)
Definition stem_and_extension (name : string) : string * string :=
  let '(ext_rev, rest) := Py.span (λ c, negb (Py.is_dot c)) (String.rev name) in
  match rest with
  | String _ stem_rev =>
      if Py.nonempty stem_rev && Py.nonempty ext_rev
      then (String.rev stem_rev, String.rev ext_rev)
      else (name, EmptyString)
  | EmptyString => (name, EmptyString)
  end.

(** The backup name that the specification describes,
    [<original-name>.backup.<YYYYMMDD-HHMMSS>.<original-extension>]. *)
Definition derived_backup_name (name ts : string) : string :=
  let '(stem, extension) := stem_and_extension name in
  stem +:+ ".backup." +:+ ts +:+ "." +:+ extension.

Section MainVocabulary.
Context `{Host}.

(** The backup name that [backup_bookmarks] builds. *)
Definition backup_name : string :=
  "Bookmarks.backup." +:+ strftime now +:+ ".plist".

(** The sibling of [path] where the backup goes. *)
Definition backup_path_of (path : Path) : Path :=
  {| parent := parent path; name := backup_name |}.

(** A run of [prune_broken_safari_bookmarks.py] gets as far as the
    final write: the document is there with the bytes [original], it
    could be backed up and parsed, and the run is not a dry run. *)
Definition prune_reaches_overwrite (args : Prune.Args) (w : world)
    (original : bytes) : Prop :=
  files w !! Prune.bookmarks_path args = Some original
  ∧ Py.nonempty (name (Prune.bookmarks_path args)) = true
  ∧ backup_write = Written
  ∧ (∃ data, plistlib_load original = Returns data)
  ∧ Prune.dry_run args = false.

(** The same for [remove_safari_bookmarks_by_domains.py], which also
    wants a domain that is not blank. *)
Definition remove_reaches_overwrite (args : Remove.Args) (w : world)
    (original : bytes) : Prop :=
  files w !! Remove.bookmarks_path args = Some original
  ∧ Py.nonempty (name (Remove.bookmarks_path args)) = true
  ∧ backup_write = Written
  ∧ (∃ data, plistlib_load original = Returns data)
  ∧ (∃ d, d ∈ Remove.domain args
          ∧ Py.nonempty (Py.strip Py.is_whitespace d) = true)
  ∧ Remove.dry_run args = false.

End MainVocabulary.

(** [m] leaves every file outside [touched] as it is, however it ends. *)
Definition unchanged_outside {A} (touched : Path → Prop) (m : Py world A) : Prop :=
  ∀ w p, ¬ touched p → files (m w).2 !! p = files w !! p.

(** [m] does not return: it raises or exits. *)
Definition never_returns {A} (m : Py world A) : Prop :=
  ∀ w a, (m w).1 ≠ Ok a.

(** A date and time that [datetime.now()] can return. *)
Definition calendar (dt : datetime) : Prop :=
  1 <= Z.of_nat (year dt) <= 9999
  ∧ (1 ≤ month dt ≤ 12 ∧ 1 ≤ day dt ≤ 31
     ∧ hour dt < 24 ∧ minute dt < 60 ∧ second dt < 60)%nat.

Section CheckVocabulary.
Context `{Urllib}.

(** The rows that [check_safari_bookmarks_http.py] tests: those of the
    bookmarks within the scope of [--folder], cut by [--limit]. *)
Definition selected (folder : option string) (limit : option Z)
    (children : list entry) : list Check.row :=
  let target :=
    if Py.truthy folder
    then Some (Py.strip Py.is_whitespace (default "" folder))
    else None in
  let rows := map row_of (tested target [] children) in
  if Check.truthy_int limit then Check.slice_to (default 0 limit) rows
  else rows.

(** The element of [results] for a row: the row with the cells of its
    verdict. *)
Definition checked (timeout : Z) (r : Check.row) : Check.result_row :=
  let v := match Check.check_url (Check.url r) timeout with
           | Ok v => v
           | _ => (None, None)
           end in
  {| Check.of_row := r; Check.status := Check.status_cell v.1;
     Check.error := Py.or_ v.2 "" |}.

End CheckVocabulary.

(** * Properties *)

(** ** Running a computation *)

Ltac run :=
unfold mbind, mret, Py_bind, Py_ret, result_bind, result_ret,
       bind, ret, lift, gets, modify, print, raise, sys_exit; cbn beta iota.

Lemma run_bind {S A B} (m : Py S A) (k : A → Py S B) s a s' :
  m s = (Ok a, s') → (m ≫= k) s = k a s'.
Proof. intros Hm. unfold mbind, Py_bind, bind. by rewrite Hm. Qed.

Lemma run_bind_raise {S A B} (m : Py S A) (k : A → Py S B) s e s' :
  m s = (Raise e, s') → (m ≫= k) s = (Raise e, s').
Proof. intros Hm. unfold mbind, Py_bind, bind. by rewrite Hm. Qed.

Lemma run_bind_exit {S A B} (m : Py S A) (k : A → Py S B) s c s' :
  m s = (Exit c, s') → (m ≫= k) s = (Exit c, s').
Proof. intros Hm. unfold mbind, Py_bind, bind. by rewrite Hm. Qed.

Lemma run_print line (w : world) :
  print line w = (Ok tt, {| files := files w; console := console w ++ [line] |}).
Proof. reflexivity. Qed.

Lemma run_try_ok {S A} (body : Py S A) handler s a s' :
  body s = (Ok a, s') → try_except body handler s = (Ok a, s').
Proof. intros Hb. unfold try_except. by rewrite Hb. Qed.

Lemma run_try_raise {S A} (body : Py S A) handler s e s' :
  body s = (Raise e, s') → try_except body handler s = handler e s'.
Proof. intros Hb. unfold try_except. by rewrite Hb. Qed.

Lemma run_read_bytes p w b :
  files w !! p = Some b → read_bytes p w = (Ok b, w).
Proof. intros Hf. unfold read_bytes. by rewrite Hf. Qed.

Lemma run_print_then {B} line (k : unit → Py world B) (w : world) :
  (print line ≫= k) w
  = k tt {| files := files w; console := console w ++ [line] |}.
Proof. reflexivity. Qed.

Lemma run_write_written p data (w : world) :
  write_file Written p data w
  = (Ok tt, {| files := <[p := data]> (files w); console := console w |}).
Proof. reflexivity. Qed.

Lemma run_write_open_failed msg p data (w : world) :
  write_file (OpenFailed msg) p data w = (Raise (Exception msg), w).
Proof. reflexivity. Qed.

Lemma run_write_interrupted partial msg p data (w : world) :
  write_file (Interrupted partial msg) p data w
  = (Raise (Exception msg),
     {| files := <[p := partial]> (files w); console := console w |}).
Proof. reflexivity. Qed.

Ltac step H := rewrite (run_bind _ _ _ _ _ H).
Ltac prints := rewrite ?run_print_then; cbn [files console].

(** ** The bookmark tree *)

Lemma flat_map_one {A B} (f : A → list B) (x : A) : flat_map f [x] = f x.
Proof. simpl. apply app_nil_r. Qed.

Lemma set_Children_same it kids :
Children it = Some kids → set_Children it kids = it.
Proof. destruct it; simpl; by intros ->. Qed.

Lemma bookmarks_of_folder ps it kids :
Children it = Some kids →
bookmarks_of ps it = bookmarks (ps ++ [pushed_title it]) kids.
Proof. destruct it; simpl; by intros ->. Qed.

Lemma bookmarks_of_leaf ps it :
Children it = None →
bookmarks_of ps it = if Py.truthy (URLString it) then [(ps, it)] else [].
Proof. destruct it; simpl; by intros ->. Qed.

Lemma bookmarks_cons ps it rest :
bookmarks ps (it :: rest) = (bookmarks_of ps it ++ bookmarks ps rest).
Proof. reflexivity. Qed.

Lemma folders_of_folder it kids :
Children it = Some kids → folders_of it = [set_Children it (folders kids)].
Proof. destruct it; simpl; by intros ->. Qed.

Lemma folders_of_leaf it : Children it = None → folders_of it = [].
Proof. destruct it; simpl; by intros ->. Qed.

Lemma pushed_title_set_Children it kids :
pushed_title (set_Children it kids) = pushed_title it.
Proof. reflexivity. Qed.

Lemma folder_title_set_Children it kids :
folder_title (set_Children it kids) = folder_title it.
Proof. reflexivity. Qed.

Lemma leaves_of_folder it kids :
  Children it = Some kids → leaves_of it = leaves kids.
Proof. destruct it; simpl; by intros ->. Qed.

Lemma leaves_of_leaf it : Children it = None → leaves_of it = [it].
Proof. destruct it; simpl; by intros ->. Qed.

(** ** The traversal *)

(** [bookmarks] lists what the traversal of the repository meets: [walk]
    appends one row for each of its elements, in order, computed from
    the entry and the [path_stack] it is listed with; it does not raise
    and leaves [path_stack] as it found it. *)
Lemma walk_lists_bookmarks `{Urllib} (children : list entry) (st : Check.state) :
  Check.walk children st
  = (Ok tt,
     {| Check.path_stack := Check.path_stack st;
        Check.out_rows :=
          Check.out_rows st ++ map row_of (bookmarks (Check.path_stack st) children) |}).
Proof.
  assert (∀ l, Forall (λ it, ∀ st,
                 Check.walk_item it st
                 = (Ok tt,
                    {| Check.path_stack := Check.path_stack st;
                       Check.out_rows :=
                         Check.out_rows st
                         ++ map row_of (bookmarks_of (Check.path_stack st) it) |})) l →
               ∀ st, Check.walk l st
                 = (Ok tt,
                    {| Check.path_stack := Check.path_stack st;
                       Check.out_rows :=
                         Check.out_rows st
                         ++ map row_of (bookmarks (Check.path_stack st) l) |}))
    as Hlist.
  { induction 1 as [|it rest Hit _ IH]; intros st'.
    - simpl. rewrite app_nil_r. by destruct st'.
    - change (Check.walk (it :: rest)) with (Check.walk_item it;; Check.walk rest).
      rewrite (run_bind _ _ _ _ _ (Hit st')), IH. cbn [Check.path_stack Check.out_rows].
      by rewrite bookmarks_cons, map_app, app_assoc. }
  revert st. apply Hlist, Forall_forall. intros it _. clear children.
  induction it as [it IH] using entry_ind. intros st.
  destruct (Children it) as [kids|] eqn:Hc.
  - specialize (Hlist kids (IH kids eq_refl)).
    rewrite (bookmarks_of_folder _ _ _ Hc).
    replace (Check.walk_item it) with
      (Check.path_stack_append (pushed_title it);;
       Check.walk kids;;
       Check.path_stack_pop)
      by (destruct it as [? ? ? c ?]; simpl in *; subst c; reflexivity).
    unfold Check.path_stack_append, Check.path_stack_pop. run.
    rewrite Hlist. cbn [Check.path_stack Check.out_rows].
    rewrite rev_app_distr. cbn [rev app]. by rewrite rev_involutive.
  - rewrite (bookmarks_of_leaf _ _ Hc).
    replace (Check.walk_item it st) with
      (if Py.truthy (URLString it)
       then (Ok tt, {| Check.path_stack := Check.path_stack st;
                       Check.out_rows :=
                         Check.out_rows st ++ [row_of (Check.path_stack st, it)] |})
       else (Ok tt, st))
      by (destruct it as [? ? ? c ?]; simpl in *; subst c;
          by destruct (Py.truthy _)).
    destruct (Py.truthy (URLString it)); [reflexivity|].
    simpl. rewrite app_nil_r. by destruct st.
Qed.

(** ** The classifier *)

Section PruneRun.
Context `{Urllib}.
Variables (folder_filter : option string) (timeout : Z) (dry_run : bool)
          (min_status : Z).

Abbreviation prune_item' :=
  (Prune.prune_item folder_filter timeout dry_run min_status).
Abbreviation prune_children' :=
  (Prune.prune_children folder_filter timeout dry_run min_status).
Abbreviation retained_of' :=
  (retained_of folder_filter timeout dry_run min_status).
Abbreviation retained' := (retained folder_filter timeout dry_run min_status).
Abbreviation tallied' := (tallied folder_filter timeout dry_run min_status).
Abbreviation tested' := (tested folder_filter).
Abbreviation broken' := (broken folder_filter timeout min_status).
Abbreviation marked' := (marked timeout min_status).
Abbreviation in_scope' := (in_scope folder_filter).

Lemma check_url_returns url :
  ∃ v, Prune.check_url url timeout = Ok v ∧ one_sided v.
Proof.
  unfold Prune.check_url, one_sided.
  destruct (negb (Prune.is_http_url url)).
  - eexists; split; [reflexivity|]. right. eexists; split; [reflexivity|done].
  - unfold catch. run. destruct (urlopen _ timeout) as [code|e]; simpl.
    + eexists; split; [reflexivity|]. left; eauto.
    + destruct e; simpl; eexists; (split; [reflexivity|]); eauto;
        right; eexists; (split; [reflexivity|]); done.
Qed.

Lemma checker_check_url_returns url :
  ∃ v, Check.check_url url timeout = Ok v ∧ one_sided v.
Proof.
  unfold Check.check_url, one_sided.
  destruct (negb (Check.is_http_url url)).
  - eexists; split; [reflexivity|]. right. eexists; split; [reflexivity|done].
  - unfold catch. run. destruct (urlopen _ timeout) as [code|e]; simpl.
    + eexists; split; [reflexivity|]. left; eauto.
    + destruct e; simpl; eexists; (split; [reflexivity|]); eauto;
        right; eexists; (split; [reflexivity|]); done.
Qed.

Lemma prune_item_unfold it :
  Prune.prune_item folder_filter timeout dry_run min_status it
  = match Children it with
    | Some children =>
        Prune.path_stack_append (pushed_title it);;
        filtered_kids ← Prune.prune_children folder_filter timeout dry_run min_status children;
        Prune.path_stack_pop;;
        mret [set_Children it filtered_kids]
    | None =>
        if negb (Py.truthy (URLString it)) then mret [it]
        else Prune.prune_leaf folder_filter timeout dry_run min_status it (url_of it)
    end.
Proof. destruct it as [? ? ? [kids|] ?]; reflexivity. Qed.

Lemma prune_children_cons it rest :
  Prune.prune_children folder_filter timeout dry_run min_status (it :: rest)
  = (kept ← Prune.prune_item folder_filter timeout dry_run min_status it;
     new_children ← Prune.prune_children folder_filter timeout dry_run min_status rest;
     mret (kept ++ new_children)).
Proof. reflexivity. Qed.

Lemma tested_leaf ps it :
  Children it = None → Py.truthy (URLString it) = true →
  tested' ps [it]
  = if in_scope folder_filter ps then [(ps, it)] else [].
Proof.
  intros Hc Hu. unfold tested, bookmarks. simpl.
  destruct it as [? ? ? c ?]; simpl in *; subst c. rewrite Hu. simpl.
  rewrite filter_cons. simpl.
  destruct (in_scope folder_filter ps); reflexivity.
Qed.

Lemma prune_leaf_run it st :
  Children it = None → Py.truthy (URLString it) = true →
  ∃ lines,
    Prune.prune_leaf folder_filter timeout dry_run min_status it (url_of it) st
    = (Ok (retained_of' (Prune.path_stack st) it),
       {| Prune.path_stack := Prune.path_stack st;
          Prune.stats := tallied' (Prune.stats st) (Prune.path_stack st) [it];
          Prune.stdout := (Prune.stdout st ++ lines) |}).
Proof.
  intros Hc Hurl.
  unfold tallied, broken. rewrite tested_leaf by done.
  replace (retained_of' (Prune.path_stack st) it)
    with (if Py.truthy (URLString it) && in_scope folder_filter (Prune.path_stack st)
             && marked timeout min_status (url_of it) && negb dry_run
          then [] else [it])
    by (destruct it as [? ? ? c ?]; simpl in *; subst c; reflexivity).
  rewrite Hurl. simpl.
  unfold Prune.prune_leaf, in_scope. run.
  destruct st as [ps [t b d] out]; simpl.
  destruct (Py.truthy folder_filter && negb _) eqn:Hs; simpl.
  { exists []. rewrite app_nil_r. do 3 f_equal; destruct dry_run; simpl; lia. }
  unfold marked. rewrite filter_cons; simpl.
  destruct (check_url_returns (url_of it)) as (v & Hv & _). rewrite Hv.
  destruct v as [status error].
  destruct (Prune.decide_deletion min_status (status, error))
    as [to_delete reason] eqn:Hd.
  simpl.
  destruct to_delete, dry_run; simpl; unfold write_line, Prune.state_stdout; simpl;
    rewrite <- !app_assoc; eexists; f_equal; f_equal; try reflexivity;
    f_equal; lia.
Qed.


Lemma tested_app ps l1 l2 :
  tested' ps (l1 ++ l2) = (tested' ps l1 ++ tested' ps l2).
Proof. unfold tested, bookmarks. by rewrite flat_map_app, filter_app. Qed.

Lemma broken_app ps l1 l2 :
  broken' ps (l1 ++ l2) = (broken' ps l1 ++ broken' ps l2).
Proof. unfold broken. by rewrite tested_app, filter_app. Qed.

Lemma tallied_app t ps l1 l2 :
  tallied' t ps (l1 ++ l2) = tallied' (tallied' t ps l1) ps l2.
Proof.
  unfold tallied. rewrite tested_app, broken_app, !length_app. simpl.
  f_equal; destruct dry_run; lia.
Qed.

Lemma tested_folder ps it kids :
  Children it = Some kids →
  tested' ps [it] = tested' (ps ++ [pushed_title it]) kids.
Proof.
  intros Hc. unfold tested, bookmarks. simpl. rewrite app_nil_r.
  destruct it as [? ? ? c ?]; simpl in *; subst c. reflexivity.
Qed.

Lemma tallied_folder t ps it kids :
  Children it = Some kids →
  tallied' t ps [it] = tallied' t (ps ++ [pushed_title it]) kids.
Proof.
  intros Hc. unfold tallied, broken.
  by rewrite (tested_folder _ _ _ Hc).
Qed.

Lemma tallied_nil t ps : tallied' t ps [] = t.
Proof.
  unfold tallied. destruct t; simpl. f_equal; destruct dry_run; lia.
Qed.

(** What a run over an entry does, in full but for the text it prints. *)
Abbreviation item_runs it :=
  (∀ st, ∃ lines,
     prune_item' it st
     = (Ok (retained_of' (Prune.path_stack st) it),
        {| Prune.path_stack := Prune.path_stack st;
           Prune.stats := tallied' (Prune.stats st) (Prune.path_stack st) [it];
           Prune.stdout := (Prune.stdout st ++ lines) |})).

Lemma prune_children_runs children :
  Forall (λ it, item_runs it) children →
  ∀ st, ∃ lines,
    prune_children' children st
    = (Ok (retained' (Prune.path_stack st) children),
       {| Prune.path_stack := Prune.path_stack st;
          Prune.stats := tallied' (Prune.stats st) (Prune.path_stack st) children;
          Prune.stdout := (Prune.stdout st ++ lines) |}).
Proof.
  induction 1 as [|it rest Hit _ IH]; intros st.
  - exists []. rewrite tallied_nil, app_nil_r. by destruct st.
  - rewrite prune_children_cons. run.
    destruct (Hit st) as [l1 ->].
    destruct (IH {| Prune.path_stack := Prune.path_stack st;
                    Prune.stats := tallied' (Prune.stats st) (Prune.path_stack st) [it];
                    Prune.stdout := (Prune.stdout st ++ l1) |}) as [l2 ->].
    simpl. exists (l1 ++ l2).
    change (it :: rest) with ([it] ++ rest).
    rewrite tallied_app, app_assoc. unfold retained. simpl.
    reflexivity.
Qed.

Lemma prune_item_runs it : item_runs it.
Proof.
  induction it as [it IH] using entry_ind. intros st.
  rewrite prune_item_unfold.
  destruct (Children it) as [kids|] eqn:Hc.
  - specialize (IH kids eq_refl).
    run. unfold Prune.path_stack_append, Prune.path_stack_pop. run. simpl.
    destruct (prune_children_runs kids IH
                {| Prune.path_stack := (Prune.path_stack st ++ [pushed_title it]);
                   Prune.stats := Prune.stats st;
                   Prune.stdout := Prune.stdout st |}) as [lines ->].
    simpl. rewrite rev_app_distr. simpl. rewrite rev_involutive.
    exists lines. rewrite (tallied_folder _ _ _ _ Hc).
    do 2 f_equal.
    destruct it as [? ? ? c ?]; simpl in *; subst c. reflexivity.
  - destruct (Py.truthy (URLString it)) eqn:Hu; simpl.
    + by apply prune_leaf_run.
    + exists []. run. rewrite app_nil_r.
      assert (tested' (Prune.path_stack st) [it] = []) as Ht.
      { unfold tested, bookmarks. simpl.
        destruct it as [? ? ? c ?]; simpl in *; subst c. by rewrite Hu. }
      unfold tallied, broken. rewrite Ht. simpl.
      replace (retained_of folder_filter timeout dry_run min_status (Prune.path_stack st) it) with [it].
      2:{ destruct it as [? ? ? c ?]; simpl in *; subst c. by rewrite Hu. }
      destruct st as [ps [t b d] out]; simpl.
      do 3 f_equal; destruct dry_run; lia.
Qed.

(** The run of [prune_children]: it returns, never raises, leaves
    [path_stack] as it found it, and its result and tallies are those
    of the vocabulary above. *)
Lemma prune_children_run children st :
  ∃ lines,
    prune_children' children st
    = (Ok (retained' (Prune.path_stack st) children),
       {| Prune.path_stack := Prune.path_stack st;
          Prune.stats := tallied' (Prune.stats st) (Prune.path_stack st) children;
          Prune.stdout := (Prune.stdout st ++ lines) |}).
Proof.
  apply prune_children_runs, Forall_forall. intros it _. apply prune_item_runs.
Qed.

Lemma prune_item_out_of_scope it st :
  Children it = None → in_scope' (Prune.path_stack st) = false →
  prune_item' it st = (Ok [it], st).
Proof.
  intros Hc Hs. rewrite prune_item_unfold, Hc.
  destruct (Py.truthy (URLString it)); [|reflexivity]. cbn [negb].
  unfold Prune.prune_leaf, in_scope in *. run.
  apply negb_false_iff in Hs. by rewrite Hs.
Qed.

Lemma retained_leaf ps it :
  Children it = None → Py.truthy (URLString it) = true → in_scope' ps = true →
  retained' ps [it] = if marked' (url_of it) && negb dry_run then [] else [it].
Proof.
  intros Hc Hu Hs. unfold retained. rewrite flat_map_one.
  destruct it as [? ? ? c ?]; simpl in *; subst c. by rewrite Hu, Hs.
Qed.

Lemma tallied_leaf t ps it :
  Children it = None → Py.truthy (URLString it) = true → in_scope' ps = true →
  tallied' t ps [it]
  = {| Prune.total_tested := Prune.total_tested t + 1;
       Prune.total_broken :=
         Prune.total_broken t + (if marked' (url_of it) then 1 else 0);
       Prune.total_deleted :=
         Prune.total_deleted t
         + (if marked' (url_of it) && negb dry_run then 1 else 0) |}.
Proof.
  intros Hc Hu Hs. unfold tallied, broken. rewrite (tested_leaf _ _ Hc Hu), Hs.
  rewrite filter_cons. simpl.
  destruct (marked' (url_of it)), dry_run; simpl; reflexivity.
Qed.

Lemma in_scope_prefix scope ps :
  in_scope (Some scope) ps
  = negb (Py.nonempty scope) || Py.startswith (folder_path_of ps) scope.
Proof.
  unfold in_scope. simpl.
  by destruct (Py.nonempty scope), (Py.startswith _ scope).
Qed.

End PruneRun.

(** ** What [prune_children] retains *)

Section RetainedFacts.
Context `{Urllib}.
Variables (folder_filter : option string) (timeout : Z) (dry_run : bool)
          (min_status : Z).

Abbreviation retained_of' :=
  (retained_of folder_filter timeout dry_run min_status).
Abbreviation retained' := (retained folder_filter timeout dry_run min_status).
Abbreviation marked' := (marked timeout min_status).
Abbreviation in_scope' := (in_scope folder_filter).


Lemma retained_of_folder ps it kids :
  Children it = Some kids →
  retained_of' ps it = [set_Children it (retained' (ps ++ [pushed_title it]) kids)].
Proof. destruct it; simpl; by intros ->. Qed.

Lemma retained_of_leaf ps it :
  Children it = None →
  retained_of' ps it
  = if Py.truthy (URLString it) && in_scope' ps && marked' (url_of it) && negb dry_run
    then [] else [it].
Proof. destruct it; simpl; by intros ->. Qed.

(** Lifting a fact about the entries of a list to the list. *)
Lemma retained_Forall (P : list string → list entry → list entry → Prop) :
  (∀ ps, P ps [] []) →
  (∀ ps it rest new, P ps rest new → 
      (∀ kids, Children it = Some kids → P (ps ++ [pushed_title it]) kids (retained' (ps ++ [pushed_title it]) kids)) →
      P ps (it :: rest) (retained_of' ps it ++ new)) →
  ∀ children ps, P ps children (retained' ps children).
Proof.
  intros Hnil Hcons.
  assert (∀ it, ∀ kids, Children it = Some kids →
            ∀ ps, P ps kids (retained' ps kids)) as Hkids.
  { induction it as [it IH] using entry_ind. intros kids Hc.
    specialize (IH kids Hc). clear Hc.
    induction IH as [|x r Hx _ IHr]; intros ps.
    - apply Hnil.
    - apply Hcons; [apply IHr|]. intros k Hk. by apply (Hx k Hk). }
  induction children as [|it rest IH]; intros ps.
  - apply Hnil.
  - apply Hcons; [apply IH|]. intros kids Hk. by apply (Hkids it kids Hk).
Qed.

Lemma retained_dry_run ps children :
  dry_run = true → retained' ps children = children.
Proof.
  intros Hd. revert children ps.
  apply (retained_Forall (λ _ l new, new = l)); [done|].
  intros ps it rest new -> Hk.
  destruct (Children it) as [kids|] eqn:Hc.
  - rewrite (retained_of_folder _ _ _ Hc), (Hk kids eq_refl).
    by rewrite (set_Children_same _ _ Hc).
  - rewrite (retained_of_leaf _ _ Hc), Hd, andb_false_r. done.
Qed.

Lemma retained_no_match ps children :
  Forall (λ b, marked' (url_of b.2) = false) (bookmarks ps children) →
  retained' ps children = children.
Proof.
  revert children ps.
  apply (retained_Forall
           (λ ps l new, Forall (λ b, marked' (url_of b.2) = false) (bookmarks ps l) → new = l));
    [done|].
  intros ps it rest new IH Hk Hall.
  rewrite bookmarks_cons in Hall. apply Forall_app in Hall as [Hit Hrest].
  rewrite (IH Hrest).
  destruct (Children it) as [kids|] eqn:Hc.
  - rewrite (retained_of_folder _ _ _ Hc).
    rewrite (bookmarks_of_folder _ _ _ Hc) in Hit.
    by rewrite (Hk kids eq_refl Hit), (set_Children_same _ _ Hc).
  - rewrite (retained_of_leaf _ _ Hc).
    rewrite (bookmarks_of_leaf _ _ Hc) in Hit.
    destruct (Py.truthy (URLString it)); [|done].
    apply Forall_inv in Hit. simpl in Hit. by rewrite Hit, andb_false_r.
Qed.

Lemma retained_thins ps children : thins children (retained' ps children).
Proof.
  revert children ps.
  apply (retained_Forall (λ _ l new, thins l new)); [intros; constructor|].
  intros ps it rest new IH Hk.
  destruct (Children it) as [kids|] eqn:Hc.
  - rewrite (retained_of_folder _ _ _ Hc). simpl.
    eapply thins_folder; eauto.
  - rewrite (retained_of_leaf _ _ Hc).
    destruct (_ && negb dry_run); simpl; by constructor.
Qed.

Lemma retained_folders ps children :
  folders (retained' ps children) = folders children.
Proof.
  revert children ps.
  apply (retained_Forall (λ _ l new, folders new = folders l)); [done|].
  intros ps it rest new IH Hk.
  unfold folders in *. rewrite flat_map_app, IH. simpl. f_equal.
  destruct (Children it) as [kids|] eqn:Hc.
  - rewrite (retained_of_folder _ _ _ Hc), flat_map_one.
    rewrite (folders_of_folder it kids Hc).
    rewrite (folders_of_folder (set_Children it _) _ eq_refl).
    unfold folders. rewrite (Hk kids eq_refl). reflexivity.
  - rewrite (retained_of_leaf _ _ Hc), (folders_of_leaf _ Hc).
    destruct (_ && negb dry_run); [done|].
    by rewrite flat_map_one, (folders_of_leaf _ Hc).
Qed.

Lemma retained_out_of_scope ps children :
  filter (λ b, in_scope' b.1 = false) (bookmarks ps (retained' ps children))
  = filter (λ b, in_scope' b.1 = false) (bookmarks ps children).
Proof.
  revert children ps.
  apply (retained_Forall
           (λ ps l new, filter (λ b, in_scope' b.1 = false) (bookmarks ps new)
                        = filter (λ b, in_scope' b.1 = false) (bookmarks ps l)));
    [done|].
  intros ps it rest new IH Hk.
  unfold bookmarks in *. rewrite flat_map_app, filter_app, IH. simpl.
  rewrite filter_app. f_equal.
  destruct (Children it) as [kids|] eqn:Hc.
  - rewrite (retained_of_folder _ _ _ Hc), flat_map_one.
    rewrite (bookmarks_of_folder _ it kids Hc).
    rewrite (bookmarks_of_folder _ (set_Children it _) _ eq_refl).
    rewrite pushed_title_set_Children. apply (Hk kids eq_refl).
  - rewrite (retained_of_leaf _ _ Hc), (bookmarks_of_leaf _ _ Hc).
    destruct (Py.truthy (URLString it)) eqn:Hu; cbn [andb].
    + destruct (in_scope' ps) eqn:Hs; cbn [andb].
      * rewrite (filter_cons _ (ps, it)), decide_False by (simpl; congruence).
        destruct (marked' (url_of it) && negb dry_run); [done|].
        rewrite flat_map_one, (bookmarks_of_leaf _ _ Hc), Hu.
        rewrite filter_cons, decide_False by (simpl; congruence). done.
      * by rewrite flat_map_one, (bookmarks_of_leaf _ _ Hc), Hu.
    + by rewrite flat_map_one, (bookmarks_of_leaf _ _ Hc), Hu.
Qed.
End RetainedFacts.

(** ** The run of [filter_children] *)

Section RemoveRun.
Context `{Urllib}.
Variables (targets : list string) (ignore_folders : gset string)
          (dry_run : bool).

Abbreviation filter_item' :=
  (Remove.filter_item targets ignore_folders dry_run).
Abbreviation filter_children' :=
  (Remove.filter_children targets ignore_folders dry_run).
Abbreviation hits children :=
  (filter (λ it, Is_true (targeted targets it)) (reached ignore_folders children)).

Lemma filter_item_unfold it :
  filter_item' it
  = match Children it with
    | Some children =>
        if bool_decide (folder_title it ∈ ignore_folders) then mret ([it], 0)
        else
          '(filtered_kids, del_count) ← filter_children' children;
          mret ([if dry_run then it else set_Children it filtered_kids], del_count)
    | None =>
        if targeted targets it
        then
          print (match_line it);;
          mret (if dry_run then [it] else [], 1)
        else mret ([it], 0)
    end.
Proof. destruct it as [? ? ? [kids|] ?]; reflexivity. Qed.

Lemma filter_children_cons it rest :
  filter_children' (it :: rest)
  = ('(kept, n) ← filter_item' it;
     '(new_children, deleted) ← filter_children' rest;
     mret ((kept ++ new_children), n + deleted)).
Proof. reflexivity. Qed.

Lemma hits_app l1 l2 : hits (l1 ++ l2) = (hits l1 ++ hits l2).
Proof. unfold reached. by rewrite flat_map_app, filter_app. Qed.

Lemma filter_children_runs children :
  Forall (λ it, ∀ out,
            filter_item' it out
            = (Ok (spared_of targets ignore_folders dry_run it,
                   Z.of_nat (length (hits [it]))),
               (out ++ map match_line (hits [it])))) children →
  ∀ out,
    filter_children' children out
    = (Ok (spared targets ignore_folders dry_run children,
           Z.of_nat (length (hits children))),
       (out ++ map match_line (hits children))).
Proof.
  induction 1 as [|it rest Hit _ IH]; intros out.
  - simpl. by rewrite app_nil_r.
  - rewrite filter_children_cons. run. rewrite Hit, IH.
    change (it :: rest) with ([it] ++ rest).
    rewrite hits_app, length_app, map_app, app_assoc, Nat2Z.inj_add.
    reflexivity.
Qed.

Lemma filter_item_run it out :
  filter_item' it out
  = (Ok (spared_of targets ignore_folders dry_run it,
         Z.of_nat (length (hits [it]))),
     (out ++ map match_line (hits [it]))).
Proof.
  revert out. induction it as [it IH] using entry_ind. intros out.
  rewrite filter_item_unfold.
  destruct (Children it) as [kids|] eqn:Hc.
  - specialize (IH kids eq_refl).
    assert (reached ignore_folders [it]
            = if bool_decide (folder_title it ∈ ignore_folders) then []
              else reached ignore_folders kids) as Hr.
    { unfold reached. simpl. rewrite app_nil_r.
      destruct it as [? ? ? c ?]; simpl in *; subst c. reflexivity. }
    assert (spared_of targets ignore_folders dry_run it
            = if bool_decide (folder_title it ∈ ignore_folders) then [it]
              else [if dry_run then it
                    else set_Children it (spared targets ignore_folders dry_run kids)]) as Hs.
    { destruct it as [? ? ? c ?]; simpl in *; subst c. reflexivity. }
    rewrite Hr, Hs.
    destruct (bool_decide (folder_title it ∈ ignore_folders)).
    + simpl. by rewrite app_nil_r.
    + run. rewrite (filter_children_runs kids IH). reflexivity.
  - assert (reached ignore_folders [it] = [it]) as Hr.
    { unfold reached. simpl.
      destruct it as [? ? ? c ?]; simpl in *; subst c. reflexivity. }
    assert (spared_of targets ignore_folders dry_run it
            = if targeted targets it && negb dry_run then [] else [it]) as Hs.
    { destruct it as [? ? ? c ?]; simpl in *; subst c. reflexivity. }
    rewrite Hr, Hs, filter_cons. simpl.
    destruct (targeted targets it); simpl.
    + run. unfold write_line, Remove.lines_stdout. by destruct dry_run.
    + by rewrite app_nil_r.
Qed.

(** The run of [filter_children']: it returns, never raises, and its
    result, its count and what it prints are those of the vocabulary. *)
Lemma filter_children_run children out :
  filter_children' children out
  = (Ok (spared targets ignore_folders dry_run children,
         Z.of_nat (length (hits children))),
     (out ++ map match_line (hits children))).
Proof.
  apply filter_children_runs, Forall_forall. intros it _ out'.
  apply filter_item_run.
Qed.
End RemoveRun.

(** ** What [filter_children] spares *)

Section SparedFacts.
Context `{Urllib}.
Variables (targets : list string) (ignore_folders : gset string)
          (dry_run : bool).

Abbreviation spared_of' := (spared_of targets ignore_folders dry_run).
Abbreviation spared' := (spared targets ignore_folders dry_run).
Abbreviation targeted' := (targeted targets).
Abbreviation reached' := (reached ignore_folders).
Abbreviation ignored' := (ignored ignore_folders).


Lemma spared_of_folder it kids :
  Children it = Some kids →
  spared_of' it
  = if bool_decide (folder_title it ∈ ignore_folders) then [it]
    else [if dry_run then it else set_Children it (spared' kids)].
Proof. destruct it; simpl; by intros ->. Qed.

Lemma spared_of_leaf it :
  Children it = None →
  spared_of' it = if targeted' it && negb dry_run then [] else [it].
Proof. destruct it; simpl; by intros ->. Qed.

Lemma reached_of_folder it kids :
  Children it = Some kids →
  reached_of ignore_folders it
  = if bool_decide (folder_title it ∈ ignore_folders) then [] else reached' kids.
Proof. destruct it; simpl; by intros ->. Qed.

Lemma reached_of_leaf it :
  Children it = None → reached_of ignore_folders it = [it].
Proof. destruct it; simpl; by intros ->. Qed.

Lemma ignored_of_folder it kids :
  Children it = Some kids →
  ignored_of ignore_folders it
  = if bool_decide (folder_title it ∈ ignore_folders) then [it] else ignored' kids.
Proof. destruct it; simpl; by intros ->. Qed.

Lemma ignored_of_leaf it :
  Children it = None → ignored_of ignore_folders it = [].
Proof. destruct it; simpl; by intros ->. Qed.

(** Lifting a fact about the entries of a list to the list. *)
Lemma spared_Forall (P : list entry → list entry → Prop) :
  P [] [] →
  (∀ it rest new, P rest new →
      (∀ kids, Children it = Some kids → P kids (spared' kids)) →
      P (it :: rest) (spared_of' it ++ new)) →
  ∀ children, P children (spared' children).
Proof.
  intros Hnil Hcons.
  assert (∀ it, ∀ kids, Children it = Some kids → P kids (spared' kids)) as Hkids.
  { induction it as [it IH] using entry_ind. intros kids Hc.
    specialize (IH kids Hc). clear Hc.
    induction IH as [|x r Hx _ IHr]; [apply Hnil|].
    apply Hcons; [apply IHr|]. intros k Hk. by apply (Hx k Hk). }
  induction children as [|it rest IH]; [apply Hnil|].
  apply Hcons; [apply IH|]. intros kids Hk. by apply (Hkids it kids Hk).
Qed.

Lemma spared_dry_run children : dry_run = true → spared' children = children.
Proof.
  intros Hd. revert children.
  apply (spared_Forall (λ l new, new = l)); [done|].
  intros it rest new -> Hk.
  destruct (Children it) as [kids|] eqn:Hc.
  - rewrite (spared_of_folder _ _ Hc), Hd. by destruct (bool_decide _).
  - by rewrite (spared_of_leaf _ Hc), Hd, andb_false_r.
Qed.

Lemma spared_no_match children :
  Forall (λ it, targeted' it = false) (leaves children) →
  spared' children = children.
Proof.
  revert children.
  apply (spared_Forall
           (λ l new, Forall (λ it, targeted' it = false) (leaves l) → new = l));
    [done|].
  intros it rest new IH Hk Hall.
  unfold leaves in Hall. simpl in Hall. apply Forall_app in Hall as [Hit Hrest].
  rewrite (IH Hrest).
  destruct (Children it) as [kids|] eqn:Hc.
  - rewrite (spared_of_folder _ _ Hc).
    destruct (bool_decide _); [done|]. destruct dry_run; [done|].
    rewrite (leaves_of_folder _ _ Hc) in Hit.
    by rewrite (Hk kids eq_refl Hit), (set_Children_same _ _ Hc).
  - rewrite (spared_of_leaf _ Hc). rewrite (leaves_of_leaf _ Hc) in Hit.
    apply Forall_inv in Hit. by rewrite Hit.
Qed.

Lemma reached_no_match children :
  Forall (λ it, targeted' it = false) (leaves children) →
  filter (λ it, Is_true (targeted' it)) (reached' children) = [].
Proof.
  intros Hall. 
  assert (∀ l, Forall (λ it, targeted' it = false) (leaves l) →
               Forall (λ it, targeted' it = false) (reached' l)) as Hsub.
  { clear children Hall.
    assert (∀ it, Forall (λ it, targeted' it = false) (leaves_of it) →
                  Forall (λ it, targeted' it = false) (reached_of ignore_folders it)) as Hone.
    { induction it as [it IH] using entry_ind. intros Hl.
      destruct (Children it) as [kids|] eqn:Hc.
      - rewrite (reached_of_folder _ _ Hc).
        destruct (bool_decide _); [constructor|].
        rewrite (leaves_of_folder _ _ Hc) in Hl.
        specialize (IH kids eq_refl). clear Hc.
        unfold reached, leaves in *.
        induction IH as [|x r Hx _ IHr]; [constructor|].
        simpl in *. apply Forall_app in Hl as [? ?].
        apply Forall_app. split; auto.
      - by rewrite (reached_of_leaf _ Hc), <- (leaves_of_leaf _ Hc). }
    induction l as [|x r IHr]; [constructor|]. intros Hl.
    unfold reached, leaves in *. simpl in *.
    apply Forall_app in Hl as [? ?]. apply Forall_app. split; auto. }
  specialize (Hsub _ Hall).
  induction Hsub as [|x r Hx _ IHr]; [done|].
  rewrite filter_cons, decide_False; [done|]. rewrite Hx. intros [].
Qed.

Lemma spared_thins children : thins children (spared' children).
Proof.
  revert children.
  apply (spared_Forall (λ l new, thins l new)); [constructor|].
  intros it rest new IH Hk.
  destruct (Children it) as [kids|] eqn:Hc.
  - rewrite (spared_of_folder _ _ Hc).
    destruct (bool_decide _); [by constructor|].
    destruct dry_run; [by constructor|].
    eapply thins_folder; eauto.
  - rewrite (spared_of_leaf _ Hc).
    destruct (_ && negb dry_run); simpl; by constructor.
Qed.

Lemma spared_folders children : folders (spared' children) = folders children.
Proof.
  revert children.
  apply (spared_Forall (λ l new, folders new = folders l)); [done|].
  intros it rest new IH Hk.
  unfold folders in *. rewrite flat_map_app, IH. simpl. f_equal.
  destruct (Children it) as [kids|] eqn:Hc.
  - rewrite (spared_of_folder _ _ Hc).
    destruct (bool_decide _); [by rewrite flat_map_one|].
    destruct dry_run; [by rewrite flat_map_one|].
    rewrite flat_map_one, (folders_of_folder it kids Hc).
    rewrite (folders_of_folder (set_Children it _) _ eq_refl).
    unfold folders. by rewrite (Hk kids eq_refl).
  - rewrite (spared_of_leaf _ Hc), (folders_of_leaf _ Hc).
    destruct (_ && negb dry_run); [done|].
    by rewrite flat_map_one, (folders_of_leaf _ Hc).
Qed.

Lemma spared_ignored children : ignored' (spared' children) = ignored' children.
Proof.
  revert children.
  apply (spared_Forall (λ l new, ignored' new = ignored' l)); [done|].
  intros it rest new IH Hk.
  unfold ignored in *. rewrite flat_map_app, IH. simpl. f_equal.
  destruct (Children it) as [kids|] eqn:Hc.
  - rewrite (spared_of_folder _ _ Hc), (ignored_of_folder it kids Hc).
    destruct (bool_decide (folder_title it ∈ ignore_folders)) eqn:Hi.
    + by rewrite flat_map_one, (ignored_of_folder it kids Hc), Hi.
    + destruct dry_run.
      * by rewrite flat_map_one, (ignored_of_folder it kids Hc), Hi.
      * rewrite flat_map_one, (ignored_of_folder (set_Children it _) _ eq_refl).
        rewrite folder_title_set_Children, Hi. apply (Hk kids eq_refl).
  - rewrite (spared_of_leaf _ Hc), (ignored_of_leaf _ Hc).
    destruct (_ && negb dry_run); [done|].
    by rewrite flat_map_one, (ignored_of_leaf _ Hc).
Qed.
End SparedFacts.

(** Over a whole run of the domain script, the ignored folders that the
    traversal meets, at any depth, are in the result as they were. *)
Lemma ignored_folders_unchanged `{Urllib} targets ignore_folders dry_run
    (children : list entry) (out : list string) :
  ∃ new_children deleted out',
    Remove.filter_children targets ignore_folders dry_run children out
    = (Ok (new_children, deleted), out')
    ∧ ignored ignore_folders new_children = ignored ignore_folders children.
Proof.
  rewrite filter_children_run. eexists _, _, _. split; [reflexivity|].
  apply spared_ignored.
Qed.

(** ** The two [main] functions *)

Section MainFacts.
Context `{Urllib} `{Host}.

Lemma prune_backup_run path w original :
  files w !! path = Some original →
  Py.nonempty (name path) = true →
  backup_write = Written →
  Prune.backup_bookmarks path w
  = (Ok (backup_path_of path),
     {| files := <[backup_path_of path := original]> (files w);
        console := console w |}).
Proof.
  intros Hf Hn Hb. unfold Prune.backup_bookmarks, with_name, read_bytes, write_file.
  rewrite Hn, Hb. run. simpl. rewrite Hf. reflexivity.
Qed.

Lemma call_prune_children_run args ff children w :
  ∃ stats out,
    Prune.call_prune_children args ff children w
    = (Ok (retained ff (Prune.timeout args) (Prune.dry_run args) (Prune.min_status args) [] children, stats),
       {| files := files w; console := out |}).
Proof.
  unfold Prune.call_prune_children.
  edestruct prune_children_run as [lines ->]. simpl. eauto.
Qed.

Lemma lookup_after_backup (m : gmap Path bytes) bp path original :
  m !! path = Some original → <[bp := original]> m !! path = Some original.
Proof.
  intros Hm. destruct (decide (bp = path)) as [->|Hne].
  - apply lookup_insert_eq.
  - by rewrite lookup_insert_ne.
Qed.

(** The handler of a failed overwrite, common to the two scripts: it
    reads the backup, writes it over the document and exits. *)
Lemma restore_run {B} (k : unit → Py world B) path bp (w : world) backup :
  files w !! bp = Some backup →
  ∃ r w',
    (read_bytes bp ≫= λ b, write_file restore_write path b ≫= k) w = (r, w')
    ∧ (restore_write = Written →
       (r, w') = k tt {| files := <[path := backup]> (files w);
                         console := console w |})
    ∧ (restore_write ≠ Written → ∃ e, r = Raise e).
Proof.
  intros Hb. rewrite (run_bind _ _ _ _ _ (run_read_bytes _ _ _ Hb)).
  destruct restore_write as [|msg|partial msg].
  - rewrite (run_bind _ _ _ _ _ (run_write_written _ _ _)).
    eexists _, _. split; [apply surjective_pairing|]. split; [|done].
    intros _. by rewrite <- surjective_pairing.
  - rewrite (run_bind_raise _ _ _ _ _ (run_write_open_failed _ _ _ _)).
    eexists _, _. split; [reflexivity|]. split; [done|eauto].
  - rewrite (run_bind_raise _ _ _ _ _ (run_write_interrupted _ _ _ _ _)).
    eexists _, _. split; [reflexivity|]. split; [done|eauto].
Qed.

Lemma prune_main_failed_overwrite args w original :
  prune_reaches_overwrite args w original →
  overwrite ≠ Written →
  let path := Prune.bookmarks_path args in
  ∃ r w',
    Prune.main args w = (r, w')
    ∧ exit_status r = 1
    ∧ (restore_write = Written → backup_path_of path ≠ path →
       files w' !! path = Some original).
Proof.
  intros (Hf & Hn & Hb & [data Hl] & Hd) Ho path.
  unfold Prune.main. fold path. fold path in Hf, Hn.
  assert (path_exists path w = (Ok true, w)) as Hex.
  { unfold path_exists, gets. rewrite Hf. by rewrite bool_decide_true by eauto. }
  step Hex. cbn [negb]. prints.
  erewrite run_bind by (by apply prune_backup_run).
  prints.
  erewrite run_bind.
  2:{ apply run_try_ok. erewrite run_bind.
      2:{ apply run_read_bytes. cbn [files]. by apply lookup_after_backup. }
      unfold lift. rewrite Hl. reflexivity. }
  match goal with
  | |- context [(Prune.call_prune_children ?a ?f ?c ≫= _) ?w0] =>
      destruct (call_prune_children_run a f c w0) as (stats & out & Hrun)
  end.
  step Hrun. cbn [files console]. rewrite Hd. prints.
  clear Hrun.
  match goal with
  | |- context [{| files := _; console := ?c |}] => generalize c; clear out; intros out
  end.
  match goal with
  | |- context [plistlib_dump ?d] => generalize (plistlib_dump d); intros new_bytes
  end.
  assert (∃ w1 e backup,
            (write_file overwrite path new_bytes
             ≫= λ _, print "✅ Fichier Bookmarks.plist mis à jour.")
              {| files := <[backup_path_of path:=original]> (files w);
                 console := out |} = (Raise e, w1)
            ∧ files w1 !! backup_path_of path = Some backup
            ∧ (backup_path_of path ≠ path → backup = original))
    as (w1 & e & backup & Hw & Hbk & Hsame).
  { destruct overwrite as [|msg|partial msg]; [done| |].
    - eexists _, _, original.
      rewrite (run_bind_raise _ _ _ _ _ (run_write_open_failed _ _ _ _)).
      split; [reflexivity|]. cbn [files]. by rewrite lookup_insert_eq.
    - rewrite (run_bind_raise _ _ _ _ _ (run_write_interrupted _ _ _ _ _)).
      cbn [files console].
      destruct (decide (backup_path_of path = path)) as [Heq|Hne].
      + eexists _, _, partial. split; [reflexivity|]. cbn [files].
        rewrite Heq, lookup_insert_eq. done.
      + eexists _, _, original. split; [reflexivity|]. cbn [files].
        by rewrite lookup_insert_ne, lookup_insert_eq. }
  rewrite (run_try_raise _ _ _ _ _ Hw). prints.
  match goal with
  | |- context [(read_bytes ?bp ≫= λ b, write_file restore_write ?p b ≫= ?k) ?w0] =>
      destruct (restore_run k p bp w0 backup Hbk) as (r & w' & -> & Hok & Hko)
  end.
  exists r, w'. split; [reflexivity|].
  destruct restore_write as [|m|p0 m].
  - specialize (Hok eq_refl). rewrite run_print_then in Hok.
    unfold sys_exit in Hok. injection Hok as -> ->. split; [reflexivity|].
    intros _ Hne. cbn [files]. rewrite lookup_insert_eq. by rewrite Hsame.
  - destruct Hko as [e' ->]; [done|]. split; [reflexivity|]. done.
  - destruct Hko as [e' ->]; [done|]. split; [reflexivity|]. done.
Qed.

Lemma remove_backup_run path w original :
  files w !! path = Some original →
  Py.nonempty (name path) = true →
  backup_write = Written →
  Remove.backup_bookmarks path w
  = (Ok (backup_path_of path),
     {| files := <[backup_path_of path := original]> (files w);
        console := console w |}).
Proof.
  intros Hf Hn Hb. unfold Remove.backup_bookmarks, with_name, read_bytes, write_file.
  rewrite Hn, Hb. run. simpl. rewrite Hf. reflexivity.
Qed.

Lemma call_filter_children_run targets ignore_folders dry_run children w :
  ∃ deleted out,
    Remove.call_filter_children targets ignore_folders dry_run children w
    = (Ok (spared targets ignore_folders dry_run children, deleted),
       {| files := files w; console := out |}).
Proof.
  unfold Remove.call_filter_children. rewrite filter_children_run. eauto.
Qed.

Lemma remove_main_failed_overwrite args w original :
  remove_reaches_overwrite args w original →
  overwrite ≠ Written →
  let path := Remove.bookmarks_path args in
  ∃ r w',
    Remove.main args w = (r, w')
    ∧ exit_status r = 1
    ∧ (restore_write = Written → backup_path_of path ≠ path →
       files w' !! path = Some original).
Proof.
  intros (Hf & Hn & Hb & [data Hl] & (d & Hin & Hnb) & Hd) Ho path.
  unfold Remove.main. fold path. fold path in Hf, Hn.
  assert (path_exists path w = (Ok true, w)) as Hex.
  { unfold path_exists, gets. rewrite Hf. by rewrite bool_decide_true by eauto. }
  step Hex. cbn [negb].
  erewrite run_bind.
  2:{ apply run_try_ok. erewrite run_bind by (by apply run_read_bytes).
      unfold lift. rewrite Hl. reflexivity. }
  rewrite bool_decide_false.
  2:{ intros Hnil. apply (f_equal length) in Hnil. rewrite length_map in Hnil.
      assert (d ∈ filter (λ d, Is_true (Py.nonempty (Py.strip Py.is_whitespace d)))
                         (Remove.domain args)) as Hd'.
      { apply list_elem_of_filter. split; [by rewrite Hnb|done]. }
      destruct (filter _ (Remove.domain args)); [by apply elem_of_nil in Hd'|done]. }
  prints.
  match goal with
  | |- context [(?m ≫= _) {| files := files w; console := ?c |}] =>
      assert (∃ out, m {| files := files w; console := c |}
                     = (Ok tt, {| files := files w; console := out |})) as [out Hp]
  end.
  { destruct (bool_decide _); eexists; reflexivity. }
  step Hp. clear Hp. prints.
  erewrite run_bind by (by apply remove_backup_run).
  prints.
  match goal with
  | |- context [(Remove.call_filter_children ?t ?i ?dr ?c ≫= _) ?w0] =>
      destruct (call_filter_children_run t i dr c w0) as (deleted & out' & Hrun)
  end.
  step Hrun. cbn [files console]. rewrite Hd. clear Hrun.
  match goal with
  | |- context [plistlib_dump ?d] => generalize (plistlib_dump d); intros new_bytes
  end.
  match goal with
  | |- context [try_except (_ ≫= ?k) _ _] =>
  assert (∃ w1 e backup,
            (write_file overwrite path new_bytes ≫= k)
              {| files := <[backup_path_of path:=original]> (files w);
                 console := out' |} = (Raise e, w1)
            ∧ files w1 !! backup_path_of path = Some backup
            ∧ (backup_path_of path ≠ path → backup = original))
    as (w1 & e & backup & Hw & Hbk & Hsame)
  end.
  { destruct overwrite as [|msg|partial msg]; [done| |].
    - eexists _, _, original.
      rewrite (run_bind_raise _ _ _ _ _ (run_write_open_failed _ _ _ _)).
      split; [reflexivity|]. cbn [files]. by rewrite lookup_insert_eq.
    - rewrite (run_bind_raise _ _ _ _ _ (run_write_interrupted _ _ _ _ _)).
      cbn [files console].
      destruct (decide (backup_path_of path = path)) as [Heq|Hne].
      + eexists _, _, partial. split; [reflexivity|]. cbn [files].
        rewrite Heq, lookup_insert_eq. done.
      + eexists _, _, original. split; [reflexivity|]. cbn [files].
        by rewrite lookup_insert_ne, lookup_insert_eq. }
  rewrite (run_try_raise _ _ _ _ _ Hw). prints.
  match goal with
  | |- context [(read_bytes ?bp ≫= λ b, write_file restore_write ?p b ≫= ?k) ?w0] =>
      destruct (restore_run k p bp w0 backup Hbk) as (r & w' & -> & Hok & Hko)
  end.
  exists r, w'. split; [reflexivity|].
  destruct restore_write as [|m|p0 m].
  - specialize (Hok eq_refl). rewrite run_print_then in Hok.
    unfold sys_exit in Hok. injection Hok as -> ->. split; [reflexivity|].
    intros _ Hne. cbn [files]. rewrite lookup_insert_eq. by rewrite Hsame.
  - destruct Hko as [e' ->]; [done|]. split; [reflexivity|]. done.
  - destruct Hko as [e' ->]; [done|]. split; [reflexivity|]. done.
Qed.

(** X15.  A run of the pruning script whose final write succeeds ends
    with status 0; the disk then holds the backup and, in place of the
    document, the serialized tree with the new children. *)
Lemma prune_main_success args w original data :
  files w !! Prune.bookmarks_path args = Some original →
  Py.nonempty (name (Prune.bookmarks_path args)) = true →
  backup_write = Written →
  plistlib_load original = Returns data →
  Prune.dry_run args = false →
  overwrite = Written →
  let path := Prune.bookmarks_path args in
  let folder_filter :=
    if Py.truthy (Prune.folder args)
    then Some (Py.strip Py.is_whitespace (default "" (Prune.folder args)))
    else None in
  let new_children :=
    retained folder_filter (Prune.timeout args) false (Prune.min_status args)
             [] (default [] (Children data)) in
  ∃ out,
    Prune.main args w
    = (Ok tt,
       {| files := <[path := plistlib_dump (set_Children data new_children)]>
                     (<[backup_path_of path := original]> (files w));
          console := out |}).
Proof.
  intros Hf Hn Hb Hl Hd Ho path folder_filter new_children.
  unfold Prune.main. fold path. fold path in Hf, Hn.
  assert (path_exists path w = (Ok true, w)) as Hex.
  { unfold path_exists, gets. rewrite Hf. by rewrite bool_decide_true by eauto. }
  step Hex. cbn [negb]. prints.
  erewrite run_bind by (by apply prune_backup_run).
  prints.
  erewrite run_bind.
  2:{ apply run_try_ok. erewrite run_bind.
      2:{ apply run_read_bytes. cbn [files]. by apply lookup_after_backup. }
      unfold lift. rewrite Hl. reflexivity. }
  fold folder_filter.
  match goal with
  | |- context [(Prune.call_prune_children ?a ?f ?c ≫= _) ?w0] =>
      destruct (call_prune_children_run a f c w0) as (stats & out & Hrun)
  end.
  step Hrun. cbn [files console]. rewrite Hd. fold new_children. prints.
  rewrite Ho. unfold try_except.
  rewrite (run_bind _ _ _ _ _ (run_write_written _ _ _)). cbn [files console].
  rewrite run_print. cbn [files console]. eauto.
Qed.

(** X16.  A dry run of the pruning script ends with status 0 and
    writes nothing but the backup. *)
Lemma prune_main_dry_run args w original data :
  files w !! Prune.bookmarks_path args = Some original →
  Py.nonempty (name (Prune.bookmarks_path args)) = true →
  backup_write = Written →
  plistlib_load original = Returns data →
  Prune.dry_run args = true →
  ∃ out,
    Prune.main args w
    = (Ok tt,
       {| files := <[backup_path_of (Prune.bookmarks_path args) := original]> (files w);
          console := out |}).
Proof.
  intros Hf Hn Hb Hl Hd.
  unfold Prune.main.
  assert (path_exists (Prune.bookmarks_path args) w = (Ok true, w)) as Hex.
  { unfold path_exists, gets. rewrite Hf. by rewrite bool_decide_true by eauto. }
  step Hex. cbn [negb]. prints.
  erewrite run_bind by (by apply prune_backup_run).
  prints.
  erewrite run_bind.
  2:{ apply run_try_ok. erewrite run_bind.
      2:{ apply run_read_bytes. cbn [files]. by apply lookup_after_backup. }
      unfold lift. rewrite Hl. reflexivity. }
  match goal with
  | |- context [(Prune.call_prune_children ?a ?f ?c ≫= _) ?w0] =>
      destruct (call_prune_children_run a f c w0) as (stats & out & Hrun)
  end.
  step Hrun. cbn [files console]. rewrite Hd. prints.
  rewrite run_print. cbn [files console]. eauto.
Qed.

(** X22.  A dry run of the domain script ends with status 0 and writes
    nothing but the backup. *)
Lemma remove_main_dry_run args w original data :
  files w !! Remove.bookmarks_path args = Some original →
  Py.nonempty (name (Remove.bookmarks_path args)) = true →
  backup_write = Written →
  plistlib_load original = Returns data →
  (∃ d, d ∈ Remove.domain args
        ∧ Py.nonempty (Py.strip Py.is_whitespace d) = true) →
  Remove.dry_run args = true →
  ∃ out,
    Remove.main args w
    = (Ok tt,
       {| files := <[backup_path_of (Remove.bookmarks_path args) := original]> (files w);
          console := out |}).
Proof.
  intros Hf Hn Hb Hl (d & Hin & Hnb) Hd.
  unfold Remove.main.
  assert (path_exists (Remove.bookmarks_path args) w = (Ok true, w)) as Hex.
  { unfold path_exists, gets. rewrite Hf. by rewrite bool_decide_true by eauto. }
  step Hex. cbn [negb].
  erewrite run_bind.
  2:{ apply run_try_ok. erewrite run_bind by (by apply run_read_bytes).
      unfold lift. rewrite Hl. reflexivity. }
  rewrite bool_decide_false.
  2:{ intros Hnil. apply (f_equal length) in Hnil. rewrite length_map in Hnil.
      assert (d ∈ filter (λ d, Is_true (Py.nonempty (Py.strip Py.is_whitespace d)))
                         (Remove.domain args)) as Hd'.
      { apply list_elem_of_filter. split; [by rewrite Hnb|done]. }
      destruct (filter _ (Remove.domain args)); [by apply elem_of_nil in Hd'|done]. }
  prints.
  match goal with
  | |- context [(?m ≫= _) {| files := files w; console := ?c |}] =>
      assert (∃ out, m {| files := files w; console := c |}
                     = (Ok tt, {| files := files w; console := out |})) as [out Hp]
  end.
  { destruct (bool_decide _); eexists; reflexivity. }
  step Hp. clear Hp. prints.
  erewrite run_bind by (by apply remove_backup_run).
  prints.
  match goal with
  | |- context [(Remove.call_filter_children ?t ?i ?dr ?c ≫= _) ?w0] =>
      destruct (call_filter_children_run t i dr c w0) as (deleted & out' & Hrun)
  end.
  step Hrun. cbn [files console]. rewrite Hd. prints.
  rewrite run_print. cbn [files console]. eauto.
Qed.

End MainFacts.

(** ** More on what [prune_children] retains *)

Section RetainedMore.
Context `{Urllib}.
Variables (folder_filter : option string) (timeout : Z) (dry_run : bool)
          (min_status : Z).

Abbreviation retained_of' :=
  (retained_of folder_filter timeout dry_run min_status).
Abbreviation retained' := (retained folder_filter timeout dry_run min_status).
Abbreviation marked' := (marked timeout min_status).
Abbreviation in_scope' := (in_scope folder_filter).

(** The bookmarks that a run removes. *)
Abbreviation removed' b := (in_scope' b.1 && marked' (url_of b.2) && negb dry_run).

Lemma retained_bookmarks ps children :
  bookmarks ps (retained' ps children)
  = filter (λ b, Is_true (negb (removed' b))) (bookmarks ps children).
Proof.
  revert children ps.
  apply (retained_Forall folder_filter timeout dry_run min_status
           (λ ps l new, bookmarks ps new
                        = filter (λ b, Is_true (negb (removed' b))) (bookmarks ps l)));
    [done|].
  intros ps it rest new IH Hk.
  unfold bookmarks in *. rewrite flat_map_app, IH. simpl.
  rewrite filter_app. f_equal.
  destruct (Children it) as [kids|] eqn:Hc.
  - rewrite (retained_of_folder _ _ _ _ _ _ _ Hc), flat_map_one.
    rewrite (bookmarks_of_folder _ it kids Hc).
    rewrite (bookmarks_of_folder _ (set_Children it _) _ eq_refl).
    rewrite pushed_title_set_Children. apply (Hk kids eq_refl).
  - rewrite (retained_of_leaf _ _ _ _ _ _ Hc), (bookmarks_of_leaf _ _ Hc).
    destruct (Py.truthy (URLString it)) eqn:Hu; cbn [andb].
    + rewrite filter_cons. cbn [fst snd].
      destruct (in_scope' ps && marked' (url_of it) && negb dry_run); simpl.
      * done.
      * by rewrite (bookmarks_of_leaf _ _ Hc), Hu.
    + by rewrite flat_map_one, (bookmarks_of_leaf _ _ Hc), Hu.
Qed.

Lemma retained_leaves_without_url ps children :
  filter (λ it, Py.truthy (URLString it) = false) (leaves (retained' ps children))
  = filter (λ it, Py.truthy (URLString it) = false) (leaves children).
Proof.
  revert children ps.
  apply (retained_Forall folder_filter timeout dry_run min_status
           (λ ps l new,
              filter (λ it, Py.truthy (URLString it) = false) (leaves new)
              = filter (λ it, Py.truthy (URLString it) = false) (leaves l)));
    [done|].
  intros ps it rest new IH Hk.
  unfold leaves in *. rewrite flat_map_app, filter_app, IH. simpl.
  rewrite filter_app. f_equal.
  destruct (Children it) as [kids|] eqn:Hc.
  - rewrite (retained_of_folder _ _ _ _ _ _ _ Hc), flat_map_one.
    rewrite (leaves_of_folder it kids Hc).
    rewrite (leaves_of_folder (set_Children it _) _ eq_refl).
    apply (Hk kids eq_refl).
  - rewrite (retained_of_leaf _ _ _ _ _ _ Hc), (leaves_of_leaf _ Hc).
    destruct (Py.truthy (URLString it)) eqn:Hu; cbn [andb].
    + rewrite filter_cons, decide_False by congruence.
      destruct (in_scope' ps && marked' (url_of it) && negb dry_run); [done|].
      rewrite flat_map_one, (leaves_of_leaf _ Hc).
      by rewrite filter_cons, decide_False by congruence.
    + by rewrite flat_map_one, (leaves_of_leaf _ Hc).
Qed.

Lemma retained_idempotent ps children :
  retained' ps (retained' ps children) = retained' ps children.
Proof.
  revert children ps.
  apply (retained_Forall folder_filter timeout dry_run min_status
           (λ ps l new, retained' ps new = new)); [done|].
  intros ps it rest new IH Hk.
  unfold retained in *. rewrite flat_map_app, IH. f_equal.
  destruct (Children it) as [kids|] eqn:Hc.
  - rewrite (retained_of_folder _ _ _ _ _ _ _ Hc), flat_map_one.
    rewrite (retained_of_folder _ _ _ _ _ (set_Children it _) _ eq_refl).
    rewrite pushed_title_set_Children. unfold retained.
    rewrite (Hk kids eq_refl). reflexivity.
  - rewrite (retained_of_leaf _ _ _ _ _ _ Hc).
    destruct (_ && negb dry_run) eqn:Hr; [done|].
    by rewrite flat_map_one, (retained_of_leaf _ _ _ _ _ _ Hc), Hr.
Qed.

Lemma broken_retained ps children :
  dry_run = false →
  broken folder_filter timeout min_status ps (retained' ps children) = [].
Proof.
  intros Hd. unfold broken, tested. rewrite retained_bookmarks.
  rewrite !list_filter_filter.
  induction (bookmarks ps children) as [|b l IH]; [done|].
  rewrite filter_cons. destruct (decide _) as [Hb|Hb]; [|exact IH].
  exfalso. revert Hb. rewrite Hd.
  destruct (in_scope' b.1), (marked' (url_of b.2)); simpl; tauto.
Qed.

Lemma length_filter_split {A} (P : A → bool) (l : list A) :
  length l
  = (length (filter (λ x, Is_true (negb (P x))) l)
     + length (filter (λ x, Is_true (P x)) l))%nat.
Proof.
  induction l as [|x l IH]; [done|].
  rewrite !filter_cons. destruct (P x); simpl; lia.
Qed.

Lemma broken_as_removed ps children :
  dry_run = false →
  broken folder_filter timeout min_status ps children
  = filter (λ b, Is_true (removed' b)) (bookmarks ps children).
Proof.
  intros Hd. unfold broken, tested. rewrite list_filter_filter.
  apply list_filter_iff. intros b. rewrite Hd.
  destruct (in_scope' b.1), (marked' (url_of b.2)); simpl; tauto.
Qed.

End RetainedMore.

(** The verdict of the pruning script on an http URL, read off the
    outcome of [urlopen]: the deletion decision is negative exactly when
    the server answered, normally or with an HTTP error, below
    [min_status]. *)
Lemma marked_false_iff `{Urllib} timeout min_status url :
  marked timeout min_status url = false
  ↔ Prune.is_http_url url = true
    ∧ ∃ code, code < min_status
        ∧ (urlopen {| full_url := url;
                      headers := [("User-Agent", "SafariBookmarkPruner/1.0")] |}
                   timeout = Returns code
           ∨ ∃ msg,
               urlopen {| full_url := url;
                          headers := [("User-Agent", "SafariBookmarkPruner/1.0")] |}
                       timeout = Raises (HTTPError code msg)).
Proof.
  unfold marked, Prune.check_url.
  destruct (Prune.is_http_url url); cbn [negb].
  2:{ simpl. split; [done|]. by intros [? _]. }
  unfold catch, mbind, mret, result_bind, result_ret.
  destruct (urlopen _ timeout) as [code|e]; cbn [of_call].
  - unfold Prune.decide_deletion. cbn [fst].
    destruct (bool_decide (code >= min_status)) eqn:Hc; cbn [fst].
    + apply bool_decide_eq_true in Hc. split; [done|].
      intros [_ (c & Hlt & [[= ->]|[msg [=]]])]. lia.
    + apply bool_decide_eq_false in Hc. split; [|done]. intros _.
      split; [done|]. exists code. split; [lia|by left].
  - destruct e as [code msg|reason|msg|msg|msg]; cbn.
    2-5: (split; [done|]; intros [_ (c & _ & [[=]|[? [=]]])]).
    unfold Prune.decide_deletion. cbn [fst].
    destruct (bool_decide (code >= min_status)) eqn:Hc; cbn [fst].
    + apply bool_decide_eq_true in Hc. split; [done|].
      intros [_ (c & Hlt & [[=]|[m [= -> _]]])]. lia.
    + apply bool_decide_eq_false in Hc. split; [|done]. intros _.
      split; [done|]. exists code. split; [lia|right; eauto].
Qed.

Lemma filter_all {A} (P : A → Prop) `{∀ x, Decision (P x)} (l : list A) :
  (∀ x, P x) → filter P l = l.
Proof.
  intros HP. induction l as [|x l IH]; [done|].
  by rewrite filter_cons_True, IH.
Qed.

Lemma filter_none {A} (P : A → Prop) `{∀ x, Decision (P x)} (l : list A) :
  (∀ x, x ∈ l → ¬ P x) → filter P l = [].
Proof.
  intros HP. induction l as [|x l IH]; [done|].
  rewrite filter_cons_False by (apply HP; left).
  apply IH. intros y Hy. apply HP. by right.
Qed.

(** ** More on what [filter_children] spares *)

Section SparedMore.
Context `{Urllib}.
Variables (targets : list string) (ignore_folders : gset string)
          (dry_run : bool).

Abbreviation spared_of' := (spared_of targets ignore_folders dry_run).
Abbreviation spared' := (spared targets ignore_folders dry_run).
Abbreviation targeted' := (targeted targets).
Abbreviation reached' := (reached ignore_folders).

Lemma spared_reached children :
  reached' (spared' children)
  = filter (λ it, Is_true (negb (targeted' it && negb dry_run)))
           (reached' children).
Proof.
  revert children.
  apply (spared_Forall targets ignore_folders dry_run
           (λ l new, reached' new
                     = filter (λ it, Is_true (negb (targeted' it && negb dry_run)))
                              (reached' l))); [done|].
  intros it rest new IH Hk.
  unfold reached in *. rewrite flat_map_app, IH. simpl.
  rewrite filter_app. f_equal.
  destruct (Children it) as [kids|] eqn:Hc.
  - rewrite (spared_of_folder _ _ _ _ _ Hc), (reached_of_folder _ it kids Hc).
    destruct (bool_decide (folder_title it ∈ ignore_folders)) eqn:Hi.
    + by rewrite flat_map_one, (reached_of_folder _ it kids Hc), Hi.
    + rewrite flat_map_one. destruct dry_run eqn:Hd.
      * rewrite (reached_of_folder _ it kids Hc), Hi.
        symmetry. apply filter_all. intros x. by rewrite andb_false_r.
      * rewrite (reached_of_folder _ (set_Children it _) _ eq_refl).
        rewrite folder_title_set_Children, Hi. apply (Hk kids eq_refl).
  - rewrite (spared_of_leaf _ _ _ _ Hc), (reached_of_leaf _ _ Hc).
    rewrite filter_cons.
    destruct (targeted' it && negb dry_run); simpl; [done|].
    by rewrite (reached_of_leaf _ _ Hc).
Qed.

Lemma spared_idempotent children :
  spared' (spared' children) = spared' children.
Proof.
  revert children.
  apply (spared_Forall targets ignore_folders dry_run
           (λ l new, spared' new = new)); [done|].
  intros it rest new IH Hk.
  unfold spared in *. rewrite flat_map_app, IH. f_equal.
  destruct (Children it) as [kids|] eqn:Hc.
  - rewrite (spared_of_folder _ _ _ _ _ Hc).
    destruct (bool_decide (folder_title it ∈ ignore_folders)) eqn:Hi.
    + by rewrite flat_map_one, (spared_of_folder _ _ _ _ _ Hc), Hi.
    + rewrite flat_map_one. destruct dry_run eqn:Hd.
      * by rewrite (spared_of_folder _ _ _ _ _ Hc), Hi.
      * rewrite (spared_of_folder _ _ _ (set_Children it _) _ eq_refl).
        rewrite folder_title_set_Children, Hi.
        unfold spared. by rewrite (Hk kids eq_refl).
  - rewrite (spared_of_leaf _ _ _ _ Hc).
    destruct (targeted' it && negb dry_run) eqn:Ht; [done|].
    by rewrite flat_map_one, (spared_of_leaf _ _ _ _ Hc), Ht.
Qed.

Lemma hits_spared children :
  dry_run = false →
  filter (λ it, Is_true (targeted' it)) (reached' (spared' children)) = [].
Proof.
  intros Hd. rewrite spared_reached, list_filter_filter.
  apply filter_none. intros it _. rewrite Hd, andb_true_r.
  destruct (targeted' it); simpl; tauto.
Qed.

End SparedMore.

(** ** The files a run touches *)

Section Frame.
Context (touched : Path → Prop).

Lemma unchanged_same {A} (m : Py world A) :
  (∀ w, files (m w).2 = files w) → unchanged_outside touched m.
Proof. intros Hm w p _. by rewrite Hm. Qed.

Lemma unchanged_ret {A} (a : A) : unchanged_outside touched (mret a).
Proof. by apply unchanged_same. Qed.

Lemma unchanged_print line : unchanged_outside touched (print line).
Proof. by apply unchanged_same. Qed.

Lemma unchanged_sys_exit {A} code : unchanged_outside touched (@sys_exit world A code).
Proof. by apply unchanged_same. Qed.

Lemma unchanged_lift {A} (r : result A) : unchanged_outside touched (lift r).
Proof. by apply unchanged_same. Qed.

Lemma unchanged_path_exists p : unchanged_outside touched (path_exists p).
Proof. by apply unchanged_same. Qed.

Lemma unchanged_read_bytes p : unchanged_outside touched (read_bytes p).
Proof.
  apply unchanged_same. intros w. unfold read_bytes. by destruct (files w !! p).
Qed.

Lemma unchanged_write_file o p data :
  touched p → unchanged_outside touched (write_file o p data).
Proof.
  intros Hp w q Hq. assert (p ≠ q) as Hne by (by intros ->).
  destruct o; simpl; [by rewrite lookup_insert_ne|done|by rewrite lookup_insert_ne].
Qed.

Lemma unchanged_bind {A B} (m : Py world A) (k : A → Py world B) :
  unchanged_outside touched m → (∀ a, unchanged_outside touched (k a)) →
  unchanged_outside touched (m ≫= k).
Proof.
  intros Hm Hk w p Hp. specialize (Hm w p Hp).
  unfold mbind, Py_bind, bind. destruct (m w) as [[a| |] w1]; [|done..].
  simpl in Hm. by rewrite (Hk a w1 p Hp).
Qed.

Lemma unchanged_bind_stop {A B} (m : Py world A) (k : A → Py world B) :
  unchanged_outside touched m → never_returns m →
  unchanged_outside touched (m ≫= k).
Proof.
  intros Hm Hn w p Hp. specialize (Hm w p Hp). specialize (Hn w).
  unfold mbind, Py_bind, bind. destruct (m w) as [[a| |] w1]; [|done..].
  by destruct (Hn a).
Qed.

Lemma unchanged_try_except {A} (body : Py world A) handler :
  unchanged_outside touched body → (∀ e, unchanged_outside touched (handler e)) →
  unchanged_outside touched (try_except body handler).
Proof.
  intros Hb Hh w p Hp. specialize (Hb w p Hp).
  unfold try_except. destruct (body w) as [[a|e|] w1]; [done| |done].
  simpl in Hb. by rewrite (Hh e w1 p Hp).
Qed.

Lemma unchanged_call_prune_children `{Urllib} args ff children :
  unchanged_outside touched (Prune.call_prune_children args ff children).
Proof.
  apply unchanged_same. intros w. unfold Prune.call_prune_children.
  destruct (Prune.prune_children _ _ _ _ _ _) as [[?| |] ?]; reflexivity.
Qed.

Lemma unchanged_call_filter_children `{Urllib} targets ignore_folders dry_run children :
  unchanged_outside touched
    (Remove.call_filter_children targets ignore_folders dry_run children).
Proof.
  apply unchanged_same. intros w. unfold Remove.call_filter_children.
  destruct (Remove.filter_children _ _ _ _ _) as [? ?]; reflexivity.
Qed.

End Frame.

Ltac frame :=
  repeat first
    [ apply unchanged_print
    | apply unchanged_ret
    | apply unchanged_sys_exit
    | apply unchanged_lift
    | apply unchanged_path_exists
    | apply unchanged_read_bytes
    | apply unchanged_call_prune_children
    | apply unchanged_call_filter_children
    | apply unchanged_write_file
    | apply unchanged_try_except; [|intros ?]
    | apply unchanged_bind; [|intros ?] ].

Section MainFrame.
Context `{Urllib} `{Host}.

Lemma unchanged_prune_backup (touched : Path → Prop) path :
  touched (backup_path_of path) →
  unchanged_outside touched (Prune.backup_bookmarks path).
Proof.
  intros Ht w p Hp. assert (backup_path_of path ≠ p) as Hne by (by intros <-).
  unfold Prune.backup_bookmarks, with_name, read_bytes, write_file. run.
  destruct (Py.nonempty (name path)); simpl; [|done].
  destruct (files w !! path); [|done].
  fold backup_name. fold (backup_path_of path).
  destruct backup_write; simpl; [by rewrite lookup_insert_ne|done|by rewrite lookup_insert_ne].
Qed.

Lemma unchanged_remove_backup (touched : Path → Prop) path :
  touched (backup_path_of path) →
  unchanged_outside touched (Remove.backup_bookmarks path).
Proof.
  intros Ht w p Hp. assert (backup_path_of path ≠ p) as Hne by (by intros <-).
  unfold Remove.backup_bookmarks, with_name, read_bytes, write_file. run.
  destruct (Py.nonempty (name path)); simpl; [|done].
  destruct (files w !! path); [|done].
  fold backup_name. fold (backup_path_of path).
  destruct backup_write; simpl; [by rewrite lookup_insert_ne|done|by rewrite lookup_insert_ne].
Qed.

Lemma prune_backup_never_returns path :
  backup_write ≠ Written → never_returns (Prune.backup_bookmarks path).
Proof.
  intros Hb w a. unfold Prune.backup_bookmarks, with_name, read_bytes, write_file.
  run. destruct (Py.nonempty (name path)); simpl; [|done].
  destruct (files w !! path); [|done].
  destruct backup_write; done.
Qed.

Lemma remove_backup_never_returns path :
  backup_write ≠ Written → never_returns (Remove.backup_bookmarks path).
Proof.
  intros Hb w a. unfold Remove.backup_bookmarks, with_name, read_bytes, write_file.
  run. destruct (Py.nonempty (name path)); simpl; [|done].
  destruct (files w !! path); [|done].
  destruct backup_write; done.
Qed.

End MainFrame.

(** ** Python strings *)

Section Strings.

Abbreviation chars_of := list_ascii_of_string.

Lemma chars_of_inj s1 s2 : chars_of s1 = chars_of s2 → s1 = s2.
Proof.
  intros Heq. rewrite <- (string_of_list_ascii_of_string s1).
  rewrite <- (string_of_list_ascii_of_string s2). by rewrite Heq.
Qed.

Lemma chars_of_app s1 s2 : chars_of (s1 +:+ s2) = chars_of s1 ++ chars_of s2.
Proof. induction s1 as [|c r IH]; [done|]. simpl. by rewrite <- IH. Qed.

Lemma chars_of_rev_app s1 s2 :
  chars_of (String.rev_app s1 s2) = List.rev (chars_of s1) ++ chars_of s2.
Proof.
  revert s2. induction s1 as [|c r IH]; intros s2; [done|].
  simpl. rewrite IH. simpl. by rewrite <- app_assoc.
Qed.

Lemma chars_of_rev s : chars_of (String.rev s) = List.rev (chars_of s).
Proof. unfold String.rev. rewrite chars_of_rev_app. simpl. apply app_nil_r. Qed.

Lemma rev_rev s : String.rev (String.rev s) = s.
Proof. apply chars_of_inj. by rewrite !chars_of_rev, rev_involutive. Qed.

Lemma rev_append s1 s2 :
  String.rev (s1 +:+ s2) = String.rev s2 +:+ String.rev s1.
Proof.
  apply chars_of_inj.
  by rewrite chars_of_rev, !chars_of_app, rev_app_distr, !chars_of_rev.
Qed.


Lemma append_nil_r s : s +:+ "" = s.
Proof. apply chars_of_inj. rewrite chars_of_app. apply app_nil_r. Qed.

Lemma nonempty_false s : Py.nonempty s = false ↔ s = "".
Proof. by destruct s. Qed.


Lemma prefix_iff p s : String.prefix p s = true ↔ ∃ r, s = p +:+ r.
Proof.
  revert s. induction p as [|a p IH]; intros s.
  - destruct s; (split; [eauto|done]).
  - destruct s as [|b s]; simpl.
    + split; [done|]. by intros [r ?].
    + destruct (ascii_dec a b) as [->|Hne].
      * rewrite IH. split; intros [r Hr]; exists r; [by rewrite Hr|].
        by injection Hr.
      * split; [done|]. intros [r [= -> _]]. done.
Qed.

Lemma startswith_iff s p : Py.startswith s p = true ↔ ∃ r, s = p +:+ r.
Proof. apply prefix_iff. Qed.

Lemma endswith_iff s p : Py.endswith s p = true ↔ ∃ pre, s = pre +:+ p.
Proof.
  unfold Py.endswith. rewrite prefix_iff. split.
  - intros [r Hr]. exists (String.rev r).
    apply (f_equal String.rev) in Hr.
    by rewrite rev_rev, rev_append, rev_rev in Hr.
  - intros [pre ->]. exists (String.rev pre). apply rev_append.
Qed.

Lemma lower_append s1 s2 : Py.lower (s1 +:+ s2) = Py.lower s1 +:+ Py.lower s2.
Proof.
  induction s1 as [|c r IH]; [done|].
  change (String c r +:+ s2) with (String c (r +:+ s2)). simpl. by rewrite IH.
Qed.

Lemma or_some s : Py.or_ (Some s) "" = s.
Proof. by destruct s. Qed.

Variable chars : ascii → bool.

Lemma lstrip_head c r : Py.lstrip chars (String c r) = String c r ∨ chars c = true.
Proof. simpl. destruct (chars c); eauto. Qed.

Lemma lstrip_starts s c r : Py.lstrip chars s = String c r → chars c = false.
Proof.
  induction s as [|a s IH]; [done|]. simpl.
  destruct (chars a) eqn:Ha; [done|]. by intros [= <- _].
Qed.

Lemma lstrip_append s1 s2 :
  Py.lstrip chars (s1 +:+ s2)
  = if Py.nonempty (Py.lstrip chars s1) then Py.lstrip chars s1 +:+ s2
    else Py.lstrip chars s2.
Proof.
  induction s1 as [|c r IH]; [done|].
  change (String c r +:+ s2) with (String c (r +:+ s2)). simpl.
  by destruct (chars c).
Qed.



Lemma rstrip_ends s pre c :
  Py.rstrip chars s = pre +:+ String c "" → chars c = false.
Proof.
  unfold Py.rstrip. intros Hs. apply (f_equal String.rev) in Hs.
  rewrite rev_rev, rev_append in Hs. apply (lstrip_starts _ _ _ Hs).
Qed.

End Strings.

Lemma lstrip_dot_snoc s :
  Py.lstrip Py.is_dot (s +:+ ".") = ""
  ∨ ∃ pre, Py.lstrip Py.is_dot (s +:+ ".") = pre +:+ ".".
Proof.
  rewrite lstrip_append. destruct (Py.nonempty _); eauto.
Qed.



Lemma nonempty_true s : Py.nonempty s = true ↔ s ≠ "".
Proof. by destruct s. Qed.

(** ** The suffix rule of [matches_domain] *)

(** The test that [matches_domain] makes on one target, both already
    normalized. *)
Lemma suffix_test h d :
  (String.eqb h d || Py.endswith h ("." +:+ d)) = true
  ↔ h = d ∨ ∃ sub, h = sub +:+ "." +:+ d.
Proof. by rewrite orb_true_iff, String.eqb_eq, endswith_iff. Qed.

Lemma matches_domain_true host targets :
  Remove.matches_domain host targets = true
  ↔ Py.nonempty (Py.strip Py.is_dot (Py.lower host)) = true
    ∧ ∃ d, d ∈ targets
           ∧ Py.nonempty (Py.lstrip Py.is_dot (Py.lower d)) = true
           ∧ (String.eqb (Py.strip Py.is_dot (Py.lower host))
                         (Py.lstrip Py.is_dot (Py.lower d))
              || Py.endswith (Py.strip Py.is_dot (Py.lower host))
                             ("." +:+ Py.lstrip Py.is_dot (Py.lower d))) = true.
Proof.
  unfold Remove.matches_domain. rewrite or_some.
  destruct (Py.nonempty (Py.strip Py.is_dot (Py.lower host))); cbn [negb].
  - rewrite existsb_exists. split.
    + intros (d & Hin & Hd). apply andb_true_iff in Hd as [Hn Ht].
      split; [done|]. exists d. by rewrite list_elem_of_In.
    + intros (_ & d & Hin & Hn & Ht). exists d.
      rewrite <- list_elem_of_In. split; [done|]. by rewrite Hn, Ht.
  - split; [done|]. by intros [? _].
Qed.


(** ** The time stamp of a backup *)

(** A number other than 0 is printed without a leading zero. *)
Lemma pretty_N_go_lead x s :
  (0 < x)%N → ∃ c r, pretty_N_go x s = String c r ∧ c ≠ "0"%char.
Proof.
  revert s. induction (N.lt_wf_0 x) as [x _ IH]. intros s Hx.
  rewrite pretty_N_go_step by done.
  destruct (decide (x < 10)%N) as [Hlt|Hge].
  - rewrite N.div_small, N.mod_small, pretty_N_go_0 by done.
    eexists _, _. split; [reflexivity|].
    assert (x = 1 ∨ x = 2 ∨ x = 3 ∨ x = 4 ∨ x = 5 ∨ x = 6
            ∨ x = 7 ∨ x = 8 ∨ x = 9)%N as Hx' by lia.
    destruct Hx' as [->|[->|[->|[->|[->|[->|[->|[->| ->]]]]]]]]; done.
  - apply IH; [apply N.div_lt; lia|apply N.div_str_pos; lia].
Qed.

Lemma pretty_nat_lead (n : nat) :
  (n = 0%nat ∧ pretty n = "0")
  ∨ ∃ c r, pretty n = String c r ∧ c ≠ "0"%char.
Proof.
  unfold pretty, pretty_nat, pretty, pretty_N.
  destruct (decide (N.of_nat n = 0%N)) as [Hz|Hnz].
  - left. split; [lia|done].
  - right. apply pretty_N_go_lead. lia.
Qed.

(** [k] zeros, as [zero_pad] writes them. *)
Lemma zeros_S k :
  String.concat "" (replicate (S k) "0")
  = String "0" (String.concat "" (replicate k "0")).
Proof. by destruct k. Qed.

Lemma zeros_pretty_inj a b (n m : nat) :
  String.concat "" (replicate a "0") +:+ pretty n
  = String.concat "" (replicate b "0") +:+ pretty m →
  n = m.
Proof.
  revert b. induction a as [|a IH]; intros [|b].
  - simpl. apply (inj pretty).
  - rewrite zeros_S. simpl. intros Heq.
    destruct (pretty_nat_lead n) as [[-> Hn]|(c & r & Hn & Hc)];
      rewrite Hn in Heq; [|by injection Heq as -> _].
    injection Heq as Heq.
    destruct (pretty_nat_lead m) as [[-> _]|(c & r & Hm & _)]; [done|].
    rewrite Hm in Heq. by destruct (String.concat "" (replicate b "0")).
  - rewrite zeros_S. simpl. intros Heq.
    destruct (pretty_nat_lead m) as [[-> Hm]|(c & r & Hm & Hc)];
      rewrite Hm in Heq; [|by injection Heq as <- _].
    injection Heq as Heq.
    destruct (pretty_nat_lead n) as [[-> _]|(c & r & Hn & _)]; [done|].
    rewrite Hn in Heq. by destruct (String.concat "" (replicate a "0")).
  - rewrite !zeros_S. intros [= Heq]. by apply (IH b).
Qed.

Lemma zero_pad_inj width n m : zero_pad width n = zero_pad width m → n = m.
Proof. apply zeros_pretty_inj. Qed.

Lemma zero_pad_2_length n :
  (n < 100)%nat → String.length (zero_pad 2 n) = 2%nat.
Proof.
  intros Hn.
  assert (forallb (λ n, (String.length (zero_pad 2 n) =? 2)%nat) (seq 0 100)
          = true) as Hall by (vm_compute; reflexivity).
  rewrite forallb_forall in Hall.
  apply Nat.eqb_eq, Hall, in_seq. lia.
Qed.

Lemma length_chars_of s : length (list_ascii_of_string s) = String.length s.
Proof. induction s as [|c r IH]; [done|]. simpl. by rewrite IH. Qed.

Lemma length_append a b :
  String.length (a +:+ b) = (String.length a + String.length b)%nat.
Proof. by rewrite <- !length_chars_of, chars_of_app, length_app. Qed.

(** Two strings of the same length that start equal concatenations are
    equal, and so are the rests. *)
Lemma append_inj_length a b c d :
  String.length a = String.length c → a +:+ b = c +:+ d → a = c ∧ b = d.
Proof.
  intros Hl Heq. apply (f_equal list_ascii_of_string) in Heq.
  rewrite !chars_of_app in Heq.
  apply app_inj_1 in Heq as [Ha Hb]; [|by rewrite !length_chars_of].
  split; by apply chars_of_inj.
Qed.

Lemma strftime_inj dt1 dt2 :
  calendar dt1 → calendar dt2 → strftime dt1 = strftime dt2 → dt1 = dt2.
Proof.
  intros (Hy1 & Hm1 & Hd1 & Hh1 & Hmi1 & Hs1) (Hy2 & Hm2 & Hd2 & Hh2 & Hmi2 & Hs2).
  unfold strftime. intros Heq.
  pose proof (zero_pad_2_length (month dt1)) as Lm1.
  pose proof (zero_pad_2_length (month dt2)) as Lm2.
  pose proof (zero_pad_2_length (day dt1)) as Ld1.
  pose proof (zero_pad_2_length (day dt2)) as Ld2.
  pose proof (zero_pad_2_length (hour dt1)) as Lh1.
  pose proof (zero_pad_2_length (hour dt2)) as Lh2.
  pose proof (zero_pad_2_length (minute dt1)) as Lmi1.
  pose proof (zero_pad_2_length (minute dt2)) as Lmi2.
  pose proof (zero_pad_2_length (second dt1)) as Ls1.
  pose proof (zero_pad_2_length (second dt2)) as Ls2.
  assert (String.length (zero_pad 4 (year dt1))
          = String.length (zero_pad 4 (year dt2))) as Ly.
  { apply (f_equal String.length) in Heq. rewrite !length_append in Heq.
    simpl in Heq. lia. }
  apply append_inj_length in Heq as [Ey Heq]; [|done].
  apply append_inj_length in Heq as [Em Heq]; [|lia].
  apply append_inj_length in Heq as [Ed Heq]; [|lia].
  apply append_inj_length in Heq as [_ Heq]; [|done].
  apply append_inj_length in Heq as [Eh Heq]; [|lia].
  apply append_inj_length in Heq as [Emi Es]; [|lia].
  apply zero_pad_inj in Ey, Em, Ed, Eh, Emi, Es.
  destruct dt1, dt2; simpl in *. by subst.
Qed.

(** ** The [main] of check_safari_bookmarks_http.py *)

Lemma filter_map {A B} (f : A → B) (P : B → Prop) `{∀ y, Decision (P y)}
    (l : list A) :
  filter P (map f l) = map f (filter (λ x, P (f x)) l).
Proof.
  induction l as [|x l IH]; [done|]. simpl.
  rewrite !filter_cons, IH. by destruct (decide (P (f x))).
Qed.

Section CheckMain.
Context `{Urllib} `{Host} `{Check.Csv}.

Lemma call_walk_run children (w : world) :
  Check.call_walk children w = (Ok (map row_of (bookmarks [] children)), w).
Proof. unfold Check.call_walk. by rewrite walk_lists_bookmarks. Qed.

(** The rows that pass the folder filter of [main] are those of the
    bookmarks that the pruning script has in scope. *)
Lemma rows_in_scope target children :
  filter (λ r, Is_true (negb (Py.truthy target)
                        || Py.startswith (Check.path r) (default "" target)))
         (map row_of (bookmarks [] children))
  = map row_of (tested target [] children).
Proof.
  rewrite filter_map. unfold tested. f_equal.
  apply list_filter_iff. intros b. unfold in_scope. cbn [row_of Check.path].
  by destruct (Py.truthy target), (Py.startswith _ _).
Qed.

Lemma check_row_run total timeout idx r (w : world) :
  ∃ out,
    Check.check_row total timeout idx r w
    = (Ok (checked timeout r), {| files := files w; console := out |}).
Proof.
  unfold Check.check_row, checked. prints.
  destruct (checker_check_url_returns timeout (Check.url r)) as ([s e] & -> & _).
  unfold lift. run. eauto.
Qed.

Lemma check_rows_run total timeout rows : ∀ idx (w : world),
  ∃ out,
    Check.check_rows total timeout idx rows w
    = (Ok (map (checked timeout) rows), {| files := files w; console := out |}).
Proof.
  induction rows as [|r rest IH]; intros idx w.
  - exists (console w). by destruct w.
  - destruct (check_row_run total timeout idx r w) as [out1 Hr1].
    destruct (IH (idx + 1) {| files := files w; console := out1 |}) as [out2 Hr2].
    exists out2. cbn [Check.check_rows].
    step Hr1. step Hr2. reflexivity.
Qed.

Lemma print_each_run {A} (line : A → string) l : ∀ (w : world),
  ∃ out,
    for_each (λ b, print (line b)) l w
    = (Ok tt, {| files := files w; console := out |}).
Proof.
  induction l as [|b l IH]; intros w.
  - exists (console w). by destruct w.
  - cbn [for_each]. prints.
    destruct (IH {| files := files w; console := console w ++ [line b] |})
      as [out Hout].
    exists out. exact Hout.
Qed.

End CheckMain.

Section CheckFrame.
Context `{Urllib} `{Host} `{Check.Csv}.
Variable touched : Path → Prop.

Lemma unchanged_raise {A} e : unchanged_outside touched (@raise world A e).
Proof. by apply unchanged_same. Qed.

Lemma unchanged_call_walk children :
  unchanged_outside touched (Check.call_walk children).
Proof. apply unchanged_same. intros w. by rewrite call_walk_run. Qed.

Lemma unchanged_check_rows total timeout rows idx :
  unchanged_outside touched (Check.check_rows total timeout idx rows).
Proof.
  apply unchanged_same. intros w.
  by destruct (check_rows_run total timeout rows idx w) as [out ->].
Qed.

Lemma unchanged_print_each {A} (line : A → string) l :
  unchanged_outside touched (for_each (λ b, print (line b)) l).
Proof.
  apply unchanged_same. intros w.
  by destruct (print_each_run line l w) as [out ->].
Qed.

End CheckFrame.

(** ** A backup that fails *)

Section FailedBackup.
Context `{Urllib} `{Host}.

Lemma prune_backup_raises path (w : world) :
  is_Some (files w !! path) → backup_write ≠ Written →
  ∃ e w', Prune.backup_bookmarks path w = (Raise e, w').
Proof.
  intros [b Hf] Hb.
  unfold Prune.backup_bookmarks, with_name, read_bytes, write_file. run.
  destruct (Py.nonempty (name path)); simpl; [|eauto].
  rewrite Hf. destruct backup_write; [done|simpl; eauto..].
Qed.

Lemma remove_backup_raises path (w : world) :
  is_Some (files w !! path) → backup_write ≠ Written →
  ∃ e w', Remove.backup_bookmarks path w = (Raise e, w').
Proof.
  intros [b Hf] Hb.
  unfold Remove.backup_bookmarks, with_name, read_bytes, write_file. run.
  destruct (Py.nonempty (name path)); simpl; [|eauto].
  rewrite Hf. destruct backup_write; [done|simpl; eauto..].
Qed.

End FailedBackup.

(** ** The claims *)


(** C5.  A bookmark within scope whose verdict is [(status, error)] is
    marked for removal exactly when [status] is absent or at least
    [min_status], and is kept when [status] is below [min_status]; a
    marked bookmark leaves the list unless the run is a dry run.  The
    threshold is 300 when the command line gives none. *)
Theorem leaf_marked_iff_no_status_or_threshold `{Urllib}
    (folder_filter : option string) (timeout : Z) (dry_run : bool)
    (min_status : Z) (it : entry) (st : Prune.state)
    (status : option Z) (error : option string) :
  Children it = None →
  Py.truthy (URLString it) = true →
  in_scope folder_filter (Prune.path_stack st) = true →
  Prune.check_url (url_of it) timeout = Ok (status, error) →
  ∃ new_children st',
    Prune.prune_children folder_filter timeout dry_run min_status [it] st
    = (Ok new_children, st')
    ∧ (Prune.total_broken (Prune.stats st')
       = Prune.total_broken (Prune.stats st) + 1
       ↔ status = None ∨ ∃ code, status = Some code ∧ code >= min_status)
    ∧ (Prune.total_broken (Prune.stats st')
       = Prune.total_broken (Prune.stats st)
       ↔ ∃ code, status = Some code ∧ code < min_status)
    ∧ (Prune.total_broken (Prune.stats st')
       = Prune.total_broken (Prune.stats st) + 1 →
       new_children = if dry_run then [it] else [])
    ∧ (Prune.total_broken (Prune.stats st')
       = Prune.total_broken (Prune.stats st) →
       new_children = [it])
    ∧ (∀ host : Host, Prune.min_status Prune.default_args = 300).
Proof.
  intros Hc Hu Hs Hv.
  destruct (prune_children_run folder_filter timeout dry_run min_status [it] st)
    as [lines Hrun].
  rewrite Hrun. eexists _, _. split; [reflexivity|]. cbn [Prune.stats].
  rewrite (tallied_leaf _ _ _ _ _ _ _ Hc Hu Hs), (retained_leaf _ _ _ _ _ _ Hc Hu Hs).
  cbn [Prune.total_broken]. unfold marked. rewrite Hv.
  unfold Prune.decide_deletion. cbn [fst snd].
  assert (∀ host : Host, Prune.min_status Prune.default_args = 300) as Hdef
    by reflexivity.
  destruct status as [code|]; cbn [fst].
  - destruct (bool_decide (code >= min_status)) eqn:Hcode; cbn [fst andb].
    + apply bool_decide_eq_true in Hcode.
      split; [|split; [|split; [|split]]]; [| | | |exact Hdef].
      * split; [intros _; right; eauto|done].
      * split; [lia|]. intros [c [[= <-] ?]]. lia.
      * intros _. by destruct dry_run.
      * lia.
    + apply bool_decide_eq_false in Hcode.
      split; [|split; [|split; [|split]]]; [| | | |exact Hdef].
      * split; [lia|]. intros [[=]|[c [[= <-] ?]]]. lia.
      * split; [|lia]. intros _. exists code. split; [done|lia].
      * lia.
      * done.
  - cbn [andb].
    split; [|split; [|split; [|split]]]; [| | | |exact Hdef].
    + split; [intros _; by left|done].
    + split; [lia|]. intros [c [[=] _]].
    + intros _. by destruct dry_run.
    + lia.
Qed.

(** C3, as the code has it.  A bookmark whose URL is not http or https
    gets the verdict [(None, "Non-HTTP")] whatever the network would
    answer, and a run that tests it marks it as it marks any bookmark
    without a response: within scope it leaves the list unless the run
    is a dry run; outside the scope it stays. *)
Theorem non_http_leaf_is_marked `{Urllib}
    (folder_filter : option string) (timeout : Z) (dry_run : bool)
    (min_status : Z) (it : entry) (st : Prune.state) :
  Children it = None →
  Py.truthy (URLString it) = true →
  Prune.is_http_url (url_of it) = false →
  Prune.check_url (url_of it) timeout = Ok (None, Some "Non-HTTP")
  ∧ (in_scope folder_filter (Prune.path_stack st) = true →
     ∃ st',
       Prune.prune_children folder_filter timeout dry_run min_status [it] st
       = (Ok (if dry_run then [it] else []), st')
       ∧ Prune.total_broken (Prune.stats st')
         = Prune.total_broken (Prune.stats st) + 1
       ∧ Prune.total_deleted (Prune.stats st')
         = Prune.total_deleted (Prune.stats st) + (if dry_run then 0 else 1))
  ∧ (in_scope folder_filter (Prune.path_stack st) = false →
     Prune.prune_children folder_filter timeout dry_run min_status [it] st
     = (Ok [it], st)).
Proof.
  intros Hc Hu Hh.
  assert (Prune.check_url (url_of it) timeout = Ok (None, Some "Non-HTTP")) as Hv.
  { unfold Prune.check_url. by rewrite Hh. }
  split; [exact Hv|]. split.
  - intros Hs.
    destruct (prune_children_run folder_filter timeout dry_run min_status [it] st)
      as [lines Hrun].
    rewrite Hrun. eexists. cbn [Prune.stats].
    rewrite (tallied_leaf _ _ _ _ _ _ _ Hc Hu Hs), (retained_leaf _ _ _ _ _ _ Hc Hu Hs).
    unfold marked. rewrite Hv. cbn.
    destruct dry_run; (split; [reflexivity|]); split; reflexivity.
  - intros Hs. rewrite prune_children_cons.
    rewrite (run_bind _ _ _ _ _ (prune_item_out_of_scope _ _ _ _ _ _ Hc Hs)).
    reflexivity.
Qed.

(** C7.  With a scope set, a bookmark whose folder path does not start
    with the scope is kept and nothing else happens for it: no test is
    counted, no line is printed, the state is the one the rest of the
    list starts from.  Over a whole run, the bookmarks out of scope are
    in the result exactly as they were in the tree, and only those
    within scope are counted as tested. *)
Theorem out_of_scope_leaf_untouched `{Urllib}
    (scope : string) (timeout : Z) (dry_run : bool) (min_status : Z) :
  scope ≠ "" →
  (∀ it rest st new_children st',
     Children it = None →
     Py.startswith (folder_path_of (Prune.path_stack st)) scope = false →
     Prune.prune_children (Some scope) timeout dry_run min_status rest st
     = (Ok new_children, st') →
     Prune.prune_children (Some scope) timeout dry_run min_status (it :: rest) st
     = (Ok (it :: new_children), st'))
  ∧ (∀ children st,
       ∃ new_children st',
         Prune.prune_children (Some scope) timeout dry_run min_status children st
         = (Ok new_children, st')
         ∧ filter (λ b, Py.startswith (folder_path_of b.1) scope = false)
                  (bookmarks (Prune.path_stack st) new_children)
           = filter (λ b, Py.startswith (folder_path_of b.1) scope = false)
                    (bookmarks (Prune.path_stack st) children)
         ∧ Prune.total_tested (Prune.stats st')
           = Prune.total_tested (Prune.stats st)
             + Z.of_nat (length
                 (filter (λ b, Py.startswith (folder_path_of b.1) scope = true)
                         (bookmarks (Prune.path_stack st) children)))).
Proof.
  intros Hscope.
  assert (∀ ps, in_scope (Some scope) ps = Py.startswith (folder_path_of ps) scope)
    as Hin.
  { intros ps. rewrite in_scope_prefix. by destruct scope. }
  split.
  - intros it rest st new_children st' Hc Hs Hrest.
    rewrite prune_children_cons.
    rewrite (run_bind _ _ _ _ _
               (prune_item_out_of_scope (Some scope) timeout dry_run min_status
                  it st Hc (eq_trans (Hin _) Hs))).
    by rewrite (run_bind _ _ _ _ _ Hrest).
  - intros children st.
    destruct (prune_children_run (Some scope) timeout dry_run min_status children st)
      as [lines Hrun].
    rewrite Hrun. eexists _, _. split; [reflexivity|]. split.
    + rewrite !(list_filter_iff
                  (λ b, Py.startswith (folder_path_of b.1) scope = false)
                  (λ b, in_scope (Some scope) b.1 = false))
        by (intros b; by rewrite Hin).
      apply retained_out_of_scope.
    + cbn [Prune.stats tallied Prune.total_tested]. do 3 f_equal.
      unfold tested. apply list_filter_iff. intros b. rewrite Hin.
      by destruct (Py.startswith _ scope).
Qed.


(** C8.  When no bookmark of the tree matches the predicate (no URL whose
    verdict marks it, no host among the target domains), either engine
    gives back the children it was given, every entry as it was and in
    place, and counts no match. *)
Theorem no_match_rebuilds_the_same_tree `{Urllib} :
  (∀ folder_filter timeout dry_run min_status children st,
     Forall (λ b, marked timeout min_status (url_of b.2) = false)
            (bookmarks (Prune.path_stack st) children) →
     ∃ st',
       Prune.prune_children folder_filter timeout dry_run min_status children st
       = (Ok children, st')
       ∧ Prune.total_broken (Prune.stats st')
         = Prune.total_broken (Prune.stats st)
       ∧ Prune.total_deleted (Prune.stats st')
         = Prune.total_deleted (Prune.stats st))
  ∧ (∀ targets ignore_folders dry_run children out,
       Forall (λ it, targeted targets it = false) (leaves children) →
       Remove.filter_children targets ignore_folders dry_run children out
       = (Ok (children, 0), out)).
Proof.
  split.
  - intros folder_filter timeout dry_run min_status children st Hall.
    destruct (prune_children_run folder_filter timeout dry_run min_status children st)
      as [lines Hrun].
    rewrite Hrun, retained_no_match by done.
    eexists. split; [reflexivity|]. cbn.
    assert (broken folder_filter timeout min_status (Prune.path_stack st) children = [])
      as ->.
    { unfold broken, tested.
      induction Hall as [|b l Hb _ IH]; [done|].
      rewrite filter_cons. destruct (decide _); [|exact IH].
      rewrite filter_cons, decide_False; [exact IH|]. rewrite Hb. intros []. }
    simpl. split; [lia|]. destruct dry_run; lia.
  - intros targets ignore_folders dry_run children out Hall.
    rewrite filter_children_run, spared_no_match, reached_no_match by done.
    simpl. by rewrite app_nil_r.
Qed.

(** C10.  Neither engine removes a folder: the result is the tree with
    some bookmarks left out and nothing else changed, so every folder is
    still there in its place, and the tree of folders alone is the same
    before and after. *)
Theorem folders_are_never_removed `{Urllib} :
  (∀ folder_filter timeout dry_run min_status children st,
     ∃ new_children st',
       Prune.prune_children folder_filter timeout dry_run min_status children st
       = (Ok new_children, st')
       ∧ thins children new_children
       ∧ folders new_children = folders children)
  ∧ (∀ targets ignore_folders dry_run children out,
       ∃ new_children deleted out',
         Remove.filter_children targets ignore_folders dry_run children out
         = (Ok (new_children, deleted), out')
         ∧ thins children new_children
         ∧ folders new_children = folders children).
Proof.
  split.
  - intros folder_filter timeout dry_run min_status children st.
    destruct (prune_children_run folder_filter timeout dry_run min_status children st)
      as [lines Hrun].
    rewrite Hrun. eexists _, _. split; [reflexivity|].
    split; [apply retained_thins | apply retained_folders].
  - intros targets ignore_folders dry_run children out.
    rewrite filter_children_run. eexists _, _, _. split; [reflexivity|].
    split; [apply spared_thins | apply spared_folders].
Qed.

(** C4.  In the domain script, a folder whose title is in the ignore set
    goes to the result as it is, with all that it holds: the result of
    the list around it is the result of what comes before, the folder
    itself, and the result of what comes after; the count is the sum of
    the two counts and the output is what the two print, whatever the
    bookmarks inside the folder are. *)
Theorem ignored_folder_passes_through `{Urllib}
    (targets : list string) (ignore_folders : gset string) (dry_run : bool)
    (before : list entry) (folder : entry) (after : list entry)
    (out out1 out2 : list string) (kept1 kept2 : list entry) (n1 n2 : Z) :
  is_Some (Children folder) →
  folder_title folder ∈ ignore_folders →
  Remove.filter_children targets ignore_folders dry_run before out
  = (Ok (kept1, n1), out1) →
  Remove.filter_children targets ignore_folders dry_run after out1
  = (Ok (kept2, n2), out2) →
  Remove.filter_children targets ignore_folders dry_run
    (before ++ folder :: after) out
  = (Ok (kept1 ++ folder :: kept2, n1 + n2), out2).
Proof.
  intros [kids Hc] Hi. rewrite !filter_children_run.
  intros [= <- <- <-] [= <- <- <-].
  assert (spared_of targets ignore_folders dry_run folder = [folder]) as Hs.
  { by rewrite (spared_of_folder _ _ _ _ _ Hc), bool_decide_true. }
  assert (reached_of ignore_folders folder = []) as Hr.
  { by rewrite (reached_of_folder _ _ _ Hc), bool_decide_true. }
  unfold spared, reached. rewrite !flat_map_app. cbn [flat_map].
  rewrite Hs, Hr. cbn [app]. rewrite filter_app, length_app, map_app.
  by rewrite Nat2Z.inj_add, app_assoc.
Qed.

(** C2, as the code has it.  The backup is a byte-for-byte copy of the
    document, written next to it under the name
    [Bookmarks.backup.<YYYYMMDD-HHMMSS>.plist] whatever the document is
    called; nothing else on the disk changes.  For a document named
    [Bookmarks.plist] this is the name derived from the document's own
    name and extension. *)
Theorem backup_is_a_copy_named_Bookmarks_backup `{Host}
    (path : Path) (w : world) (original : bytes) :
  files w !! path = Some original →
  Py.nonempty (name path) = true →
  backup_write = Written →
  let backup_path :=
    {| parent := parent path;
       name := "Bookmarks.backup." +:+ strftime now +:+ ".plist" |} in
  let w' := {| files := <[backup_path := original]> (files w);
               console := console w |} in
  Prune.backup_bookmarks path w = (Ok backup_path, w')
  ∧ Remove.backup_bookmarks path w = (Ok backup_path, w')
  ∧ files w' !! backup_path = Some original
  ∧ files w' !! path = Some original
  ∧ (name path = "Bookmarks.plist" →
     name backup_path = derived_backup_name (name path) (strftime now)).
Proof.
  intros Hf Hn Hb backup_path w'.
  split; [by apply prune_backup_run|].
  split; [by apply remove_backup_run|].
  split; [apply lookup_insert_eq|].
  split; [by apply lookup_after_backup|].
  intros ->. reflexivity.
Qed.

(** C1, as the code has it.  When the final write of the document fails,
    the process ends with status 1; and if the write that restores the
    backup succeeds, and the document is not itself the file that the
    backup was written to, the document then holds its bytes from before
    the run. *)
Theorem failed_overwrite_exits_1_and_restores `{Urllib} `{Host}
    (w : world) (original : bytes) :
  overwrite ≠ Written →
  (∀ args : Prune.Args,
     prune_reaches_overwrite args w original →
     ∃ r w',
       Prune.main args w = (r, w')
       ∧ exit_status r = 1
       ∧ (restore_write = Written →
          backup_path_of (Prune.bookmarks_path args) ≠ Prune.bookmarks_path args →
          files w' !! Prune.bookmarks_path args = Some original))
  ∧ (∀ args : Remove.Args,
       remove_reaches_overwrite args w original →
       ∃ r w',
         Remove.main args w = (r, w')
         ∧ exit_status r = 1
         ∧ (restore_write = Written →
            backup_path_of (Remove.bookmarks_path args) ≠ Remove.bookmarks_path args →
            files w' !! Remove.bookmarks_path args = Some original)).
Proof.
  intros Ho. split; intros args Hreach.
  - by apply prune_main_failed_overwrite.
  - by apply remove_main_failed_overwrite.
Qed.

(** ** Examples, witnesses and counterexamples *)

(** C3 as the specification states it does not hold: a [javascript:]
    bookmarklet is not an http URL, its verdict is "Non-HTTP", and a run
    over the whole tree, without a dry run, removes it. *)
Lemma non_http_bookmark_is_removed :
  let it := Sample.bookmark "Bookmarklet" "javascript:void(0)" in
  @Prune.is_http_url Sample.urllib (url_of it) = false
  ∧ @Prune.check_url Sample.urllib (url_of it) 10 = Ok (None, Some "Non-HTTP")
  ∧ (@Prune.prune_children Sample.urllib None 10 false 300 [it] Sample.fresh).1
    = Ok [].
Proof. vm_compute. repeat split. Qed.

(** C2 as the specification states it does not hold: the backup of
    [/tmp/Favorites.xml] is not named after it. *)
Lemma backup_name_ignores_the_source_name :
  let host := Sample.host Written Written Written in
  let path := {| parent := "/tmp"; name := "Favorites.xml" |} in
  ∃ backup_path w',
    @Prune.backup_bookmarks host path (Sample.disk path) = (Ok backup_path, w')
    ∧ name backup_path = "Bookmarks.backup.20250102-030405.plist"
    ∧ derived_backup_name (name path) (strftime (@now host))
      = "Favorites.backup.20250102-030405.xml"
    ∧ name backup_path ≠ derived_backup_name (name path) (strftime (@now host)).
Proof.
  eexists _, _. split; [reflexivity|]. split; [reflexivity|].
  split; [reflexivity|]. vm_compute. discriminate.
Qed.

(** C1 as the specification states it does not hold.  First run: the
    disk is full, the final write stops after truncating the document
    and so does the write that restores it; the document is left empty.  Second run: the document is itself named as the backup of
    that second, so the "backup" read back is the truncated document. *)
Lemma failed_overwrite_can_leave_the_document_changed :
  (let host := Sample.host Written (Interrupted [] "No space left on device")
                           (Interrupted [] "No space left on device") in
   let args := @Prune.default_args host in
   let path := Prune.bookmarks_path args in
   let run := @Prune.main Sample.urllib host args (Sample.disk path) in
   exit_status run.1 = 1
   ∧ files (Sample.disk path) !! path = Some (Sample.bytes_of "tree")
   ∧ files run.2 !! path = Some []
   ∧ files run.2 !! path ≠ files (Sample.disk path) !! path)
  ∧ (let host := Sample.host Written (Interrupted [] "Disk quota exceeded")
                             Written in
     let path := {| parent := "/tmp";
                    name := "Bookmarks.backup.20250102-030405.plist" |} in
     let args := {| Prune.bookmarks_path := path; Prune.folder := None;
                    Prune.timeout := 10; Prune.dry_run := false;
                    Prune.min_status := 300 |} in
     let run := @Prune.main Sample.urllib host args (Sample.disk path) in
     exit_status run.1 = 1
     ∧ files (Sample.disk path) !! path = Some (Sample.bytes_of "tree")
     ∧ files run.2 !! path = Some []
     ∧ files run.2 !! path ≠ files (Sample.disk path) !! path).
Proof. vm_compute. repeat split; discriminate. Qed.

(** C10, on an example: a folder whose only bookmark is dead is kept,
    empty. *)
Example emptied_folder_is_kept :
  (@Prune.prune_children Sample.urllib None 10 false 300
     [Sample.folder_ "Old" [Sample.bookmark "Dead" "http://dead.example"]]
     Sample.fresh).1
  = Ok [Sample.folder_ "Old" []].
Proof. vm_compute. reflexivity. Qed.

(** The scenario of the specification: [Dead] goes, the ignored folder
    [Keep] stays as it is, for the pruning script run on the children of
    [Bar] (which has no ignore set: [X] answers 200) and for the domain
    script with [Keep] ignored. *)
Example specification_scenario :
  let bar := [Sample.bookmark "Dead" "http://dead.example";
              Sample.folder_ "Keep" [Sample.bookmark "X" "http://x.example"]] in
  (@Prune.prune_children Sample.urllib None 10 false 300 bar Sample.fresh).1
  = Ok [Sample.folder_ "Keep" [Sample.bookmark "X" "http://x.example"]]
  ∧ (@Remove.filter_children Sample.urllib ["x.example"; "dead.example"]
       {["Keep"]} false bar []).1
    = Ok ([Sample.folder_ "Keep" [Sample.bookmark "X" "http://x.example"]], 1).
Proof. vm_compute. split; reflexivity. Qed.

(** The suffix rule of the domain script. *)
Example suffix_rule :
  Remove.matches_domain "m.facebook.com" ["facebook.com"] = true
  ∧ Remove.matches_domain "facebook.com" ["facebook.com"] = true
  ∧ Remove.matches_domain "myfacebook.com" ["facebook.com"] = false.
Proof. vm_compute. repeat split. Qed.

Lemma leaf_marked_iff_no_status_or_threshold_witness :
  let it := Sample.bookmark "Gone" "http://gone.example/page" in
  let st := Sample.fresh in
  Children it = None
  ∧ Py.truthy (URLString it) = true
  ∧ in_scope None (Prune.path_stack st) = true
  ∧ @Prune.check_url Sample.urllib (url_of it) 10 = Ok (Some 404, None)
  ∧ ∃ new_children st',
      @Prune.prune_children Sample.urllib None 10 false 300 [it] st
      = (Ok new_children, st')
      ∧ (Prune.total_broken (Prune.stats st')
         = Prune.total_broken (Prune.stats st) + 1
         ↔ Some 404 = None ∨ ∃ code, Some 404 = Some code ∧ code >= 300)
      ∧ (Prune.total_broken (Prune.stats st')
         = Prune.total_broken (Prune.stats st)
         ↔ ∃ code, Some 404 = Some code ∧ code < 300)
      ∧ (Prune.total_broken (Prune.stats st')
         = Prune.total_broken (Prune.stats st) + 1 →
         new_children = if false then [it] else [])
      ∧ (Prune.total_broken (Prune.stats st')
         = Prune.total_broken (Prune.stats st) →
         new_children = [it])
      ∧ (∀ host : Host, Prune.min_status Prune.default_args = 300).
Proof.
  intros it st.
  split; [reflexivity|]. split; [reflexivity|]. split; [reflexivity|].
  split; [reflexivity|].
  apply (@leaf_marked_iff_no_status_or_threshold Sample.urllib None 10 false 300
           it st (Some 404) None); reflexivity.
Defined.

Lemma non_http_leaf_is_marked_witness :
  let it := Sample.bookmark "Bookmarklet" "javascript:void(0)" in
  let st := Sample.fresh in
  Children it = None
  ∧ Py.truthy (URLString it) = true
  ∧ @Prune.is_http_url Sample.urllib (url_of it) = false
  ∧ (@Prune.check_url Sample.urllib (url_of it) 10 = Ok (None, Some "Non-HTTP")
     ∧ (in_scope None (Prune.path_stack st) = true →
        ∃ st',
          @Prune.prune_children Sample.urllib None 10 false 300 [it] st
          = (Ok (if false then [it] else []), st')
          ∧ Prune.total_broken (Prune.stats st')
            = Prune.total_broken (Prune.stats st) + 1
          ∧ Prune.total_deleted (Prune.stats st')
            = Prune.total_deleted (Prune.stats st) + (if false then 0 else 1))
     ∧ (in_scope None (Prune.path_stack st) = false →
        @Prune.prune_children Sample.urllib None 10 false 300 [it] st
        = (Ok [it], st))).
Proof.
  intros it st.
  split; [reflexivity|]. split; [reflexivity|]. split; [reflexivity|].
  apply (@non_http_leaf_is_marked Sample.urllib None 10 false 300 it st);
    reflexivity.
Defined.

Lemma out_of_scope_leaf_untouched_witness :
  let scope := "BookmarksBar/Dev" in
  let it := Sample.bookmark "Dead" "http://dead.example" in
  let st := {| Prune.path_stack := ["BookmarksBar"];
               Prune.stats := Prune.stats Sample.fresh;
               Prune.stdout := [] |} in
  scope ≠ ""
  ∧ Children it = None
  ∧ Py.startswith (folder_path_of (Prune.path_stack st)) scope = false
  ∧ @Prune.prune_children Sample.urllib (Some scope) 10 false 300 [] st
    = (Ok [], st)
  ∧ @Prune.prune_children Sample.urllib (Some scope) 10 false 300 [it] st
    = (Ok [it], st).
Proof.
  intros scope it st.
  assert (scope ≠ "") as Hscope by discriminate.
  split; [exact Hscope|]. split; [reflexivity|]. split; [reflexivity|].
  split; [reflexivity|].
  apply (proj1 (@out_of_scope_leaf_untouched Sample.urllib scope 10 false 300
                  Hscope) it [] st [] st); reflexivity.
Defined.

Lemma no_match_rebuilds_the_same_tree_witness :
  let children :=
    [Sample.folder_ "Dev" [Sample.bookmark "Live" "http://live.example"]] in
  Forall (λ b, @marked Sample.urllib 10 300 (url_of b.2) = false)
         (bookmarks (Prune.path_stack Sample.fresh) children)
  ∧ Forall (λ it, @targeted Sample.urllib ["facebook.com"] it = false)
           (leaves children)
  ∧ (∃ st',
       @Prune.prune_children Sample.urllib None 10 false 300 children Sample.fresh
       = (Ok children, st')
       ∧ Prune.total_broken (Prune.stats st')
         = Prune.total_broken (Prune.stats Sample.fresh)
       ∧ Prune.total_deleted (Prune.stats st')
         = Prune.total_deleted (Prune.stats Sample.fresh))
  ∧ @Remove.filter_children Sample.urllib ["facebook.com"] ∅ false children []
    = (Ok (children, 0), []).
Proof.
  intros children.
  assert (Forall (λ b, @marked Sample.urllib 10 300 (url_of b.2) = false)
                 (bookmarks (Prune.path_stack Sample.fresh) children)) as H1.
  { repeat constructor. }
  assert (Forall (λ it, @targeted Sample.urllib ["facebook.com"] it = false)
                 (leaves children)) as H2.
  { repeat constructor. }
  split; [exact H1|]. split; [exact H2|]. split.
  - exact (proj1 (@no_match_rebuilds_the_same_tree Sample.urllib)
             None 10 false 300 children Sample.fresh H1).
  - exact (proj2 (@no_match_rebuilds_the_same_tree Sample.urllib)
             ["facebook.com"] ∅ false children [] H2).
Defined.

Lemma ignored_folder_passes_through_witness :
  let before := [Sample.bookmark "Live" "http://live.example"] in
  let folder :=
    Sample.folder_ "Keep" [Sample.bookmark "Facebook" "https://m.facebook.com/home"] in
  let after := [Sample.bookmark "Login" "https://facebook.com/login"] in
  let line :=
    "➡️  Match domaine → suppression : Login (https://facebook.com/login)" in
  is_Some (Children folder)
  ∧ folder_title folder ∈ ({["Keep"]} : gset string)
  ∧ @Remove.filter_children Sample.urllib ["facebook.com"] {["Keep"]} false
      before [] = (Ok (before, 0), [])
  ∧ @Remove.filter_children Sample.urllib ["facebook.com"] {["Keep"]} false
      after [] = (Ok ([], 1), [line])
  ∧ @Remove.filter_children Sample.urllib ["facebook.com"] {["Keep"]} false
      (before ++ folder :: after) []
    = (Ok (before ++ folder :: [], 0 + 1), [line]).
Proof.
  intros before folder after line.
  assert (is_Some (Children folder)) as H1 by (eexists; reflexivity).
  assert (folder_title folder ∈ ({["Keep"]} : gset string)) as H2
    by (apply elem_of_singleton; reflexivity).
  split; [exact H1|]. split; [exact H2|].
  split; [reflexivity|]. split; [reflexivity|].
  apply (@ignored_folder_passes_through Sample.urllib ["facebook.com"]
           {["Keep"]} false before folder after [] [] [line] before [] 0 1
           H1 H2); reflexivity.
Defined.

Lemma backup_is_a_copy_named_Bookmarks_backup_witness :
  let host := Sample.host Written Written Written in
  let path := @Prune.BOOKMARKS_PATH host in
  let w := Sample.disk path in
  let original := Sample.bytes_of "tree" in
  let backup_path :=
    {| parent := "/Users/me/Library/Safari";
       name := "Bookmarks.backup.20250102-030405.plist" |} in
  let w' := {| files := <[backup_path := original]> (files w);
               console := console w |} in
  files w !! path = Some original
  ∧ Py.nonempty (name path) = true
  ∧ @backup_write host = Written
  ∧ @Prune.backup_bookmarks host path w = (Ok backup_path, w')
  ∧ @Remove.backup_bookmarks host path w = (Ok backup_path, w')
  ∧ files w' !! backup_path = Some original
  ∧ files w' !! path = Some original
  ∧ (name path = "Bookmarks.plist" →
     name backup_path = derived_backup_name (name path) (strftime (@now host))).
Proof.
  intros host path w original backup_path w'.
  assert (files w !! path = Some original) as H1 by (vm_compute; reflexivity).
  split; [exact H1|]. split; [reflexivity|]. split; [reflexivity|].
  exact (@backup_is_a_copy_named_Bookmarks_backup host path w original
           H1 eq_refl eq_refl).
Defined.

Lemma failed_overwrite_exits_1_and_restores_witness :
  let host := Sample.host Written (Interrupted [] "No space left on device")
                          Written in
  let args := @Prune.default_args host in
  let path := Prune.bookmarks_path args in
  let w := Sample.disk path in
  let original := Sample.bytes_of "tree" in
  @overwrite host ≠ Written
  ∧ @prune_reaches_overwrite host args w original
  ∧ ∃ r w',
      @Prune.main Sample.urllib host args w = (r, w')
      ∧ exit_status r = 1
      ∧ (@restore_write host = Written →
         @backup_path_of host path ≠ path →
         files w' !! path = Some original).
Proof.
  intros host args path w original.
  assert (@overwrite host ≠ Written) as H1 by discriminate.
  assert (@prune_reaches_overwrite host args w original) as H2.
  { split; [vm_compute; reflexivity|]. split; [reflexivity|].
    split; [reflexivity|]. split; [|reflexivity].
    eexists. vm_compute. reflexivity. }
  split; [exact H1|]. split; [exact H2|].
  exact (proj1 (@failed_overwrite_exits_1_and_restores Sample.urllib host
                  w original H1) args H2).
Defined.

(** ** Further properties of the three scripts *)

(** X1.  [prune_children] returns on every tree and every state: it
    does not raise, not even the [IndexError] of [path_stack.pop()]; it
    leaves [path_stack] as it found it and only appends to the standard
    output. *)
Theorem prune_children_returns_and_restores_path_stack `{Urllib}
    (folder_filter : option string) (timeout : Z) (dry_run : bool)
    (min_status : Z) (children : list entry) (st : Prune.state) :
  ∃ new_children st' lines,
    Prune.prune_children folder_filter timeout dry_run min_status children st
    = (Ok new_children, st')
    ∧ Prune.path_stack st' = Prune.path_stack st
    ∧ Prune.stdout st' = Prune.stdout st ++ lines.
Proof.
  destruct (prune_children_run folder_filter timeout dry_run min_status children st)
    as [lines Hrun].
  rewrite Hrun. eexists _, _, lines. done.
Qed.

(** X2.  Without [--dry-run], the bookmarks of the result are those of
    the input, in order, less exactly the ones that are within the folder
    scope and whose URL is marked (no status, or a status of at least
    [min_status]); the entries without a URL are all kept. *)
Theorem prune_removes_exactly_the_marked_bookmarks `{Urllib}
    (folder_filter : option string) (timeout : Z) (min_status : Z)
    (children : list entry) (st : Prune.state) :
  ∃ new_children st',
    Prune.prune_children folder_filter timeout false min_status children st
    = (Ok new_children, st')
    ∧ bookmarks (Prune.path_stack st) new_children
      = filter (λ b, Is_true (negb (in_scope folder_filter b.1
                                    && marked timeout min_status (url_of b.2))))
               (bookmarks (Prune.path_stack st) children)
    ∧ filter (λ it, Py.truthy (URLString it) = false) (leaves new_children)
      = filter (λ it, Py.truthy (URLString it) = false) (leaves children).
Proof.
  destruct (prune_children_run folder_filter timeout false min_status children st)
    as [lines Hrun].
  rewrite Hrun. eexists _, _. split; [reflexivity|]. split.
  - rewrite retained_bookmarks. apply list_filter_iff. intros b.
    by rewrite andb_true_r.
  - apply retained_leaves_without_url.
Qed.

(** X3.  The counters of a run: 0 <= deleted <= broken <= tested <= the
    number of bookmarks; deleted is 0 in a dry run and equals broken
    otherwise; and the bookmarks of the input are those of the result
    plus the deleted ones. *)
Theorem prune_stats_account_for_the_removals `{Urllib}
    (folder_filter : option string) (timeout : Z) (dry_run : bool)
    (min_status : Z) (children : list entry) (st : Prune.state) :
  ∃ new_children st',
    Prune.prune_children folder_filter timeout dry_run min_status children st
    = (Ok new_children, st')
    ∧ let tested := Prune.total_tested (Prune.stats st')
                    - Prune.total_tested (Prune.stats st) in
      let broken := Prune.total_broken (Prune.stats st')
                    - Prune.total_broken (Prune.stats st) in
      let deleted := Prune.total_deleted (Prune.stats st')
                     - Prune.total_deleted (Prune.stats st) in
      0 <= deleted <= broken
      ∧ broken <= tested
      ∧ tested <= Z.of_nat (length (bookmarks (Prune.path_stack st) children))
      ∧ deleted = (if dry_run then 0 else broken)
      ∧ Z.of_nat (length (bookmarks (Prune.path_stack st) children))
        = Z.of_nat (length (bookmarks (Prune.path_stack st) new_children))
          + deleted.
Proof.
  destruct (prune_children_run folder_filter timeout dry_run min_status children st)
    as [lines Hrun].
  rewrite Hrun. eexists _, _. split; [reflexivity|].
  cbn [Prune.stats tallied Prune.total_tested Prune.total_broken Prune.total_deleted].
  pose proof (length_filter (λ b, Is_true (marked timeout min_status (url_of b.2)))
                (tested folder_filter (Prune.path_stack st) children)) as H1.
  pose proof (length_filter (λ b, Is_true (in_scope folder_filter b.1))
                (bookmarks (Prune.path_stack st) children)) as H2.
  fold (broken folder_filter timeout min_status (Prune.path_stack st) children) in H1.
  fold (tested folder_filter (Prune.path_stack st) children) in H2.
  assert (length (bookmarks (Prune.path_stack st) children)
          = (length (bookmarks (Prune.path_stack st)
                       (retained folder_filter timeout dry_run min_status
                          (Prune.path_stack st) children))
             + (if dry_run then 0
                else length (broken folder_filter timeout min_status
                               (Prune.path_stack st) children)))%nat) as H3.
  { destruct dry_run.
    - rewrite retained_dry_run by done. lia.
    - rewrite retained_bookmarks.
      rewrite (broken_as_removed folder_filter timeout false min_status) by done.
      apply (length_filter_split
               (λ b, in_scope folder_filter b.1
                     && marked timeout min_status (url_of b.2) && negb false)). }
  destruct dry_run; lia.
Qed.

(** X4.  A dry run keeps the tree and deletes nothing, and, the servers
    answering the same, it tests and marks what the run without
    [--dry-run] does: its broken count is the number of bookmarks that
    the real run deletes. *)
Theorem prune_dry_run_counts_what_a_real_run_deletes `{Urllib}
    (folder_filter : option string) (timeout : Z) (min_status : Z)
    (children : list entry) (st : Prune.state) :
  ∃ new_children st_dry st_real,
    Prune.prune_children folder_filter timeout true min_status children st
    = (Ok children, st_dry)
    ∧ Prune.prune_children folder_filter timeout false min_status children st
      = (Ok new_children, st_real)
    ∧ Prune.total_tested (Prune.stats st_dry)
      = Prune.total_tested (Prune.stats st_real)
    ∧ Prune.total_broken (Prune.stats st_dry)
      = Prune.total_broken (Prune.stats st_real)
    ∧ Prune.total_deleted (Prune.stats st_dry)
      = Prune.total_deleted (Prune.stats st)
    ∧ Prune.total_deleted (Prune.stats st_real)
      - Prune.total_deleted (Prune.stats st)
      = Prune.total_broken (Prune.stats st_dry)
        - Prune.total_broken (Prune.stats st).
Proof.
  destruct (prune_children_run folder_filter timeout true min_status children st)
    as [lines1 ->].
  destruct (prune_children_run folder_filter timeout false min_status children st)
    as [lines2 ->].
  rewrite retained_dry_run by done. eexists _, _, _.
  split; [reflexivity|]. split; [reflexivity|].
  cbn [Prune.stats tallied Prune.total_tested Prune.total_broken
       Prune.total_deleted].
  repeat split; lia.
Qed.

(** X5.  Pruning is idempotent: run again on its own result, the
    servers answering the same, [prune_children] returns that result
    unchanged and counts no broken link and no deletion. *)
Theorem pruning_the_result_again_changes_nothing `{Urllib}
    (folder_filter : option string) (timeout : Z) (min_status : Z)
    (children : list entry) (st : Prune.state) :
  ∃ new_children st',
    Prune.prune_children folder_filter timeout false min_status children st
    = (Ok new_children, st')
    ∧ ∀ stats2 stdout2, ∃ st2',
        Prune.prune_children folder_filter timeout false min_status new_children
          {| Prune.path_stack := Prune.path_stack st; Prune.stats := stats2;
             Prune.stdout := stdout2 |}
        = (Ok new_children, st2')
        ∧ Prune.total_broken (Prune.stats st2') = Prune.total_broken stats2
        ∧ Prune.total_deleted (Prune.stats st2') = Prune.total_deleted stats2.
Proof.
  destruct (prune_children_run folder_filter timeout false min_status children st)
    as [lines Hrun].
  rewrite Hrun. eexists _, _. split; [reflexivity|]. intros stats2 stdout2.
  edestruct (prune_children_run folder_filter timeout false min_status) as [lines2 ->].
  cbn [Prune.path_stack Prune.stats].
  rewrite retained_idempotent. eexists. split; [reflexivity|].
  cbn [Prune.stats tallied Prune.total_broken Prune.total_deleted].
  rewrite broken_retained by done. simpl. lia.
Qed.

(** X6.  A bookmark within scope survives a run without [--dry-run]
    exactly when its URL is http(s) and the server answered, normally or
    with an [HTTPError], with a status below [min_status]; otherwise it
    is removed. *)
Theorem bookmark_survives_iff_answer_below_threshold `{Urllib}
    (folder_filter : option string) (timeout : Z) (min_status : Z)
    (it : entry) (st : Prune.state) :
  Children it = None →
  Py.truthy (URLString it) = true →
  in_scope folder_filter (Prune.path_stack st) = true →
  let req := {| full_url := url_of it;
                headers := [("User-Agent", "SafariBookmarkPruner/1.0")] |} in
  let answered_below :=
    Prune.is_http_url (url_of it) = true
    ∧ ∃ code, code < min_status
        ∧ (urlopen req timeout = Returns code
           ∨ ∃ msg, urlopen req timeout = Raises (HTTPError code msg)) in
  ∃ new_children st',
    Prune.prune_children folder_filter timeout false min_status [it] st
    = (Ok new_children, st')
    ∧ (new_children = [it] ↔ answered_below)
    ∧ (new_children = [] ↔ ¬ answered_below).
Proof.
  intros Hc Hu Hs req answered_below.
  destruct (prune_children_run folder_filter timeout false min_status [it] st)
    as [lines Hrun].
  rewrite Hrun. eexists _, _. split; [reflexivity|].
  rewrite (retained_leaf _ _ _ _ _ _ Hc Hu Hs), andb_true_r.
  pose proof (marked_false_iff timeout min_status (url_of it)) as Hm.
  fold req in Hm. fold answered_below in Hm.
  destruct (marked timeout min_status (url_of it)).
  - split; split; try done.
    + intros Ha. apply Hm in Ha. done.
    + intros _ Ha. apply Hm in Ha. done.
  - split; split; try done.
    + intros _. by apply Hm.
    + intros Hn. destruct Hn. by apply Hm.
Qed.

(** X7.  Without [--dry-run], [filter_children] removes exactly the
    bookmarks outside the ignored folders whose host matches a target: it
    prints one line for each of them, in order, the ignored folders are
    unchanged, and the count it returns is the number removed. *)
Theorem filter_removes_exactly_the_targets_it_reaches `{Urllib}
    (targets : list string) (ignore_folders : gset string)
    (children : list entry) (out : list string) :
  ∃ new_children deleted,
    Remove.filter_children targets ignore_folders false children out
    = (Ok (new_children, deleted),
       out ++ map match_line
                  (filter (λ it, Is_true (targeted targets it))
                          (reached ignore_folders children)))
    ∧ reached ignore_folders new_children
      = filter (λ it, Is_true (negb (targeted targets it)))
               (reached ignore_folders children)
    ∧ ignored ignore_folders new_children = ignored ignore_folders children
    ∧ Z.of_nat (length (reached ignore_folders children))
      = Z.of_nat (length (reached ignore_folders new_children)) + deleted.
Proof.
  rewrite filter_children_run. eexists _, _. split; [reflexivity|].
  rewrite spared_reached, spared_ignored. split; [|split; [done|]].
  - apply list_filter_iff. intros it. by rewrite andb_true_r.
  - rewrite (length_filter_split (targeted targets) (reached ignore_folders children)).
    rewrite Nat2Z.inj_add. f_equal. f_equal. f_equal.
    apply list_filter_iff. intros it. by rewrite andb_true_r.
Qed.

(** X8.  A dry run of [filter_children] returns the children it was
    given, with the count and the printed lines of the run without
    [--dry-run]; the count is the number of lines printed. *)
Theorem domain_dry_run_announces_the_real_run `{Urllib}
    (targets : list string) (ignore_folders : gset string)
    (children : list entry) (out : list string) :
  ∃ new_children deleted out',
    Remove.filter_children targets ignore_folders false children out
    = (Ok (new_children, deleted), out')
    ∧ Remove.filter_children targets ignore_folders true children out
      = (Ok (children, deleted), out')
    ∧ Z.of_nat (length out') = Z.of_nat (length out) + deleted.
Proof.
  rewrite !filter_children_run. eexists _, _, _. split; [reflexivity|].
  rewrite spared_dry_run by done. split; [reflexivity|].
  rewrite length_app, length_map. lia.
Qed.

(** X9.  Filtering is idempotent: run again on its own result,
    [filter_children] returns it unchanged, counts 0 and prints
    nothing. *)
Theorem filtering_the_result_again_changes_nothing `{Urllib}
    (targets : list string) (ignore_folders : gset string)
    (children : list entry) (out : list string) :
  ∃ new_children deleted out',
    Remove.filter_children targets ignore_folders false children out
    = (Ok (new_children, deleted), out')
    ∧ ∀ out2,
        Remove.filter_children targets ignore_folders false new_children out2
        = (Ok (new_children, 0), out2).
Proof.
  rewrite filter_children_run. eexists _, _, _. split; [reflexivity|].
  intros out2. rewrite filter_children_run.
  rewrite spared_idempotent, hits_spared by done. simpl.
  by rewrite app_nil_r.
Qed.

(** X10.  The suffix rule.  A host matches exactly when, lowercased
    and stripped of the dots around it, it is not empty and some target,
    lowercased and stripped of its leading dots, is not empty and is the
    host itself or what follows a dot in it. *)
Theorem matches_domain_iff_label_suffix (host : string) (targets : list string) :
  Remove.matches_domain host targets = true
  ↔ let h := Py.strip Py.is_dot (Py.lower host) in
    h ≠ ""
    ∧ ∃ d, d ∈ targets
           ∧ let d' := Py.lstrip Py.is_dot (Py.lower d) in
             d' ≠ "" ∧ (h = d' ∨ ∃ sub, h = sub +:+ "." +:+ d').
Proof.
  rewrite matches_domain_true. cbn zeta. rewrite nonempty_true.
  split; intros (Hh & d & Hin & Hd & Ht); (split; [done|]); exists d;
    (split; [done|]).
  - by rewrite <- nonempty_true, <- suffix_test.
  - by rewrite nonempty_true, suffix_test.
Qed.


(** X12.  A target written with a trailing dot (a fully qualified
    name such as [example.com.]) matches no host: the dots at the end of
    the host are stripped, those at the end of a target are not. *)
Theorem target_with_a_trailing_dot_matches_nothing
    (host : string) (targets : list string) :
  (∀ d, d ∈ targets → Py.endswith d "." = true) →
  Remove.matches_domain host targets = false.
Proof.
  intros Hdots. apply not_true_is_false. rewrite matches_domain_true.
  intros (Hh & d & Hin & Hd & Ht).
  apply suffix_test in Ht.
  destruct (proj1 (endswith_iff _ _) (Hdots d Hin)) as [pre ->].
  rewrite lower_append in Hd, Ht.
  change (Py.lower ".") with "." in Hd, Ht.
  destruct (lstrip_dot_snoc (Py.lower pre)) as [Hnil|[p Hp]];
    [by rewrite Hnil in Hd|].
  rewrite Hp in Ht.
  assert (∃ x, Py.strip Py.is_dot (Py.lower host) = x +:+ ".") as [x Hx].
  { destruct Ht as [->|[sub ->]]; [by exists p|].
    exists (sub +:+ "." +:+ p). apply chars_of_inj. rewrite !chars_of_app.
    simpl. by rewrite <- !app_assoc. }
  unfold Py.strip in Hx. by apply rstrip_ends in Hx.
Qed.

(** X13.  When the document does not exist, the pruning script exits
    with status 1 and writes nothing, not even a backup. *)
Theorem prune_main_missing_document_exits_1 `{Urllib} `{Host}
    (args : Prune.Args) (w : world) :
  files w !! Prune.bookmarks_path args = None →
  ∃ out, Prune.main args w = (Exit 1, {| files := files w; console := out |}).
Proof.
  intros Hf. unfold Prune.main.
  assert (path_exists (Prune.bookmarks_path args) w = (Ok false, w)) as Hex.
  { unfold path_exists, gets. rewrite Hf.
    rewrite bool_decide_false; [done|]. by intros [? ?]. }
  step Hex. cbn [negb]. prints. unfold sys_exit. eauto.
Qed.

(** X14.  When the document exists but cannot be parsed, the pruning
    script exits with status 1; it has already taken the backup, which
    is the only change on disk. *)
Theorem prune_main_malformed_document_exits_1_after_backup `{Urllib} `{Host}
    (args : Prune.Args) (w : world) (original : bytes) (e : exn) :
  files w !! Prune.bookmarks_path args = Some original →
  Py.nonempty (name (Prune.bookmarks_path args)) = true →
  backup_write = Written →
  plistlib_load original = Raises e →
  ∃ out,
    Prune.main args w
    = (Exit 1,
       {| files := <[backup_path_of (Prune.bookmarks_path args) := original]>
                     (files w);
          console := out |}).
Proof.
  intros Hf Hn Hb Hl. unfold Prune.main.
  assert (path_exists (Prune.bookmarks_path args) w = (Ok true, w)) as Hex.
  { unfold path_exists, gets. rewrite Hf. by rewrite bool_decide_true by eauto. }
  step Hex. cbn [negb]. prints.
  erewrite run_bind by (by apply prune_backup_run).
  prints.
  match goal with
  | |- context [(try_except ?body ?handler ≫= _) ?w0] =>
      assert (∃ out, try_except body handler w0
                     = (Exit 1, {| files := files w0; console := out |}))
        as [out Hload]
  end.
  { erewrite run_try_raise.
    2:{ erewrite run_bind.
        2:{ apply run_read_bytes. cbn [files]. by apply lookup_after_backup. }
        unfold lift. rewrite Hl. reflexivity. }
    destruct e; prints; unfold sys_exit; eauto. }
  rewrite (run_bind_exit _ _ _ _ _ Hload). cbn [files]. eauto.
Qed.

(** X17.  However a run of the pruning script ends, no file other
    than the document and its backup is created, changed or deleted. *)
Theorem prune_main_touches_only_the_document_and_its_backup `{Urllib} `{Host}
    (args : Prune.Args) (w : world) (p : Path) :
  p ≠ Prune.bookmarks_path args →
  p ≠ backup_path_of (Prune.bookmarks_path args) →
  files (Prune.main args w).2 !! p = files w !! p.
Proof.
  intros Hp Hb.
  cut (unchanged_outside (λ q, q = Prune.bookmarks_path args
                                 ∨ q = backup_path_of (Prune.bookmarks_path args))
         (Prune.main args)).
  { intros Hm. apply Hm. by intros [Ht|Ht]. }
  unfold Prune.main.
  apply unchanged_bind; [frame|]. intros found.
  destruct (negb found); [frame|].
  do 7 (apply unchanged_bind; [frame|]; intros _).
  apply unchanged_bind; [apply unchanged_prune_backup; by right|]. intros backup_path.
  apply unchanged_bind; [frame|]. intros _.
  apply unchanged_bind.
  { apply unchanged_try_except; [frame|]. intros e. destruct e; frame. }
  intros data.
  apply unchanged_bind; [frame|]. intros [new_children stats].
  do 3 (apply unchanged_bind; [frame|]; intros _).
  apply unchanged_bind; [destruct (Prune.dry_run args); frame|]. intros _.
  do 2 (apply unchanged_bind; [frame|]; intros _).
  destruct (Prune.dry_run args); [frame|].
  apply unchanged_try_except.
  - apply unchanged_bind; [|frame]. apply unchanged_write_file. by left.
  - intros e. frame. by left.
Qed.

(** X18.  The pruning script leaves the document as it is, however
    the run ends, when the backup could not be written and when the run
    is a dry run (the document not being itself the backup path). *)
Theorem prune_main_changes_the_document_only_after_a_backup `{Urllib} `{Host}
    (args : Prune.Args) (w : world) :
  backup_write ≠ Written ∨ Prune.dry_run args = true →
  backup_path_of (Prune.bookmarks_path args) ≠ Prune.bookmarks_path args →
  files (Prune.main args w).2 !! Prune.bookmarks_path args
  = files w !! Prune.bookmarks_path args.
Proof.
  intros Hcase Hne.
  cut (unchanged_outside (λ q, q = backup_path_of (Prune.bookmarks_path args))
         (Prune.main args)).
  { intros Hm. apply Hm. intros Ht. by apply Hne. }
  unfold Prune.main.
  apply unchanged_bind; [frame|]. intros found.
  destruct (negb found); [frame|].
  do 7 (apply unchanged_bind; [frame|]; intros _).
  destruct Hcase as [Hb|Hd].
  { apply unchanged_bind_stop;
      [by apply unchanged_prune_backup|by apply prune_backup_never_returns]. }
  apply unchanged_bind; [by apply unchanged_prune_backup|]. intros backup_path.
  apply unchanged_bind; [frame|]. intros _.
  apply unchanged_bind.
  { apply unchanged_try_except; [frame|]. intros e. destruct e; frame. }
  intros data.
  apply unchanged_bind; [frame|]. intros [new_children stats].
  rewrite Hd. frame.
Qed.

(** X19.  When the backup cannot be written, the pruning script ends
    with status 1, whatever else happens: by its own [sys.exit(1)] when
    the document is missing, by the uncaught exception of the backup
    otherwise. *)
Theorem prune_main_failed_backup_ends_with_status_1 `{Urllib} `{Host}
    (args : Prune.Args) (w : world) :
  backup_write ≠ Written →
  exit_status (Prune.main args w).1 = 1.
Proof.
  intros Hb. unfold Prune.main.
  destruct (files w !! Prune.bookmarks_path args) as [raw|] eqn:Hf.
  2:{ assert (path_exists (Prune.bookmarks_path args) w = (Ok false, w)) as Hex.
      { unfold path_exists, gets. rewrite Hf.
        rewrite bool_decide_false; [done|]. by intros [? ?]. }
      step Hex. cbn [negb]. prints. reflexivity. }
  assert (path_exists (Prune.bookmarks_path args) w = (Ok true, w)) as Hex.
  { unfold path_exists, gets. rewrite Hf. by rewrite bool_decide_true by eauto. }
  step Hex. cbn [negb]. prints.
  match goal with
  | |- context [(Prune.backup_bookmarks ?p ≫= _) ?w0] =>
      destruct (prune_backup_raises p w0) as (e & w' & Hbk);
        [cbn [files]; eauto|done|]
  end.
  by rewrite (run_bind_raise _ _ _ _ _ Hbk).
Qed.

(** X20.  The domain script exits with status 1 without writing
    anything, not even a backup, when the document is missing, when it
    cannot be parsed, and when every [--domain] is blank. *)
Theorem remove_main_rejects_bad_input_before_any_write `{Urllib} `{Host}
    (args : Remove.Args) (w : world) :
  files w !! Remove.bookmarks_path args = None
  ∨ (∃ raw e, files w !! Remove.bookmarks_path args = Some raw
              ∧ plistlib_load raw = Raises e)
  ∨ (∀ d, d ∈ Remove.domain args →
          Py.nonempty (Py.strip Py.is_whitespace d) = false) →
  ∃ out,
    Remove.main args w = (Exit 1, {| files := files w; console := out |}).
Proof.
  intros Hcase. unfold Remove.main.
  destruct (files w !! Remove.bookmarks_path args) as [raw|] eqn:Hf.
  2:{ assert (path_exists (Remove.bookmarks_path args) w = (Ok false, w)) as Hex.
      { unfold path_exists, gets. rewrite Hf.
        rewrite bool_decide_false; [done|]. by intros [? ?]. }
      step Hex. cbn [negb]. prints. unfold sys_exit. eauto. }
  assert (path_exists (Remove.bookmarks_path args) w = (Ok true, w)) as Hex.
  { unfold path_exists, gets. rewrite Hf. by rewrite bool_decide_true by eauto. }
  step Hex. cbn [negb].
  destruct (plistlib_load raw) as [data|e] eqn:Hl.
  2:{ erewrite run_bind_exit; [eauto|].
      erewrite run_try_raise.
      2:{ erewrite run_bind by (by apply run_read_bytes).
          unfold lift. rewrite Hl. reflexivity. }
      prints. unfold sys_exit. reflexivity. }
  erewrite run_bind.
  2:{ apply run_try_ok. erewrite run_bind by (by apply run_read_bytes).
      unfold lift. rewrite Hl. reflexivity. }
  destruct Hcase as [Hnone|[(raw' & e & Hraw & Hr)|Hblank]].
  { done. }
  { congruence. }
  rewrite bool_decide_true.
  2:{ rewrite (filter_none _ (Remove.domain args)); [done|].
      intros d Hd Hp. by rewrite (Hblank d Hd) in Hp. }
  prints. unfold sys_exit. eauto.
Qed.

(** X21.  A run of the domain script whose backup and final write
    succeed ends with status 0; the disk then holds the backup and, in
    place of the document, the serialized tree with the children that
    [filter_children] spares for the stripped, non-blank domains. *)
Theorem remove_main_success_writes_the_filtered_tree `{Urllib} `{Host}
    (args : Remove.Args) (w : world) (original : bytes) (data : entry) :
  files w !! Remove.bookmarks_path args = Some original →
  Py.nonempty (name (Remove.bookmarks_path args)) = true →
  backup_write = Written →
  plistlib_load original = Returns data →
  (∃ d, d ∈ Remove.domain args
        ∧ Py.nonempty (Py.strip Py.is_whitespace d) = true) →
  Remove.dry_run args = false →
  overwrite = Written →
  let path := Remove.bookmarks_path args in
  let targets :=
    map (Py.strip Py.is_whitespace)
        (filter (λ d, Is_true (Py.nonempty (Py.strip Py.is_whitespace d)))
                (Remove.domain args)) in
  let new_children :=
    spared targets (list_to_set (Remove.ignore_folder args)) false
           (default [] (Children data)) in
  ∃ out,
    Remove.main args w
    = (Ok tt,
       {| files := <[path := plistlib_dump (set_Children data new_children)]>
                     (<[backup_path_of path := original]> (files w));
          console := out |}).
Proof.
  intros Hf Hn Hb Hl (d & Hin & Hnb) Hd Ho path targets new_children.
  unfold Remove.main. fold path. fold path in Hf, Hn.
  assert (path_exists path w = (Ok true, w)) as Hex.
  { unfold path_exists, gets. rewrite Hf. by rewrite bool_decide_true by eauto. }
  step Hex. cbn [negb].
  erewrite run_bind.
  2:{ apply run_try_ok. erewrite run_bind by (by apply run_read_bytes).
      unfold lift. rewrite Hl. reflexivity. }
  fold targets.
  rewrite bool_decide_false.
  2:{ intros Hnil. apply (f_equal length) in Hnil. unfold targets in Hnil.
      rewrite length_map in Hnil.
      assert (d ∈ filter (λ d, Is_true (Py.nonempty (Py.strip Py.is_whitespace d)))
                         (Remove.domain args)) as Hd'.
      { apply list_elem_of_filter. split; [by rewrite Hnb|done]. }
      destruct (filter _ (Remove.domain args)); [by apply elem_of_nil in Hd'|done]. }
  prints.
  match goal with
  | |- context [(?m ≫= _) {| files := files w; console := ?c |}] =>
      assert (∃ out, m {| files := files w; console := c |}
                     = (Ok tt, {| files := files w; console := out |})) as [out Hp]
  end.
  { destruct (bool_decide _); eexists; reflexivity. }
  step Hp. clear Hp. prints.
  erewrite run_bind by (by apply remove_backup_run).
  prints.
  match goal with
  | |- context [(Remove.call_filter_children ?t ?i ?dr ?c ≫= _) ?w0] =>
      destruct (call_filter_children_run t i dr c w0) as (deleted & out' & Hrun)
  end.
  step Hrun. cbn [files console]. rewrite Hd. fold new_children.
  rewrite Ho. unfold try_except.
  rewrite (run_bind _ _ _ _ _ (run_write_written _ _ _)). cbn [files console].
  prints. rewrite run_print. cbn [files console]. eauto.
Qed.

(** X23.  However a run of the domain script ends, no file other
    than the document and its backup is created, changed or deleted. *)
Theorem remove_main_touches_only_the_document_and_its_backup `{Urllib} `{Host}
    (args : Remove.Args) (w : world) (p : Path) :
  p ≠ Remove.bookmarks_path args →
  p ≠ backup_path_of (Remove.bookmarks_path args) →
  files (Remove.main args w).2 !! p = files w !! p.
Proof.
  intros Hp Hb.
  cut (unchanged_outside (λ q, q = Remove.bookmarks_path args
                                 ∨ q = backup_path_of (Remove.bookmarks_path args))
         (Remove.main args)).
  { intros Hm. apply Hm. by intros [Ht|Ht]. }
  unfold Remove.main.
  apply unchanged_bind; [frame|]. intros found.
  destruct (negb found); [frame|].
  apply unchanged_bind; [frame|]. intros data.
  destruct (bool_decide _); [frame|].
  do 4 (apply unchanged_bind; [frame|]; intros _).
  apply unchanged_bind; [destruct (bool_decide _); frame|]. intros _.
  apply unchanged_bind; [frame|]. intros _.
  apply unchanged_bind; [apply unchanged_remove_backup; by right|]. intros backup_path.
  apply unchanged_bind; [frame|]. intros _.
  apply unchanged_bind; [frame|]. intros [new_children deleted].
  destruct (Remove.dry_run args); [frame|].
  apply unchanged_try_except.
  - apply unchanged_bind; [|frame]. apply unchanged_write_file. by left.
  - intros e. frame. by left.
Qed.

(** X24.  The domain script leaves the document as it is, however
    the run ends, when the backup could not be written and when the run
    is a dry run (the document not being itself the backup path). *)
Theorem remove_main_changes_the_document_only_after_a_backup `{Urllib} `{Host}
    (args : Remove.Args) (w : world) :
  backup_write ≠ Written ∨ Remove.dry_run args = true →
  backup_path_of (Remove.bookmarks_path args) ≠ Remove.bookmarks_path args →
  files (Remove.main args w).2 !! Remove.bookmarks_path args
  = files w !! Remove.bookmarks_path args.
Proof.
  intros Hcase Hne.
  cut (unchanged_outside (λ q, q = backup_path_of (Remove.bookmarks_path args))
         (Remove.main args)).
  { intros Hm. apply Hm. intros Ht. by apply Hne. }
  unfold Remove.main.
  apply unchanged_bind; [frame|]. intros found.
  destruct (negb found); [frame|].
  apply unchanged_bind; [frame|]. intros data.
  destruct (bool_decide _); [frame|].
  do 4 (apply unchanged_bind; [frame|]; intros _).
  apply unchanged_bind; [destruct (bool_decide _); frame|]. intros _.
  apply unchanged_bind; [frame|]. intros _.
  destruct Hcase as [Hb|Hd].
  { apply unchanged_bind_stop;
      [by apply unchanged_remove_backup|by apply remove_backup_never_returns]. }
  apply unchanged_bind; [by apply unchanged_remove_backup|]. intros backup_path.
  apply unchanged_bind; [frame|]. intros _.
  apply unchanged_bind; [frame|]. intros [new_children deleted].
  rewrite Hd. frame.
Qed.

(** X25.  When the backup cannot be written, the domain script ends
    with status 1, whatever else happens: by its own [sys.exit(1)] on a
    missing or malformed document or on blank domains, by the uncaught
    exception of the backup otherwise. *)
Theorem remove_main_failed_backup_ends_with_status_1 `{Urllib} `{Host}
    (args : Remove.Args) (w : world) :
  backup_write ≠ Written →
  exit_status (Remove.main args w).1 = 1.
Proof.
  intros Hb. unfold Remove.main.
  destruct (files w !! Remove.bookmarks_path args) as [raw|] eqn:Hf.
  2:{ assert (path_exists (Remove.bookmarks_path args) w = (Ok false, w)) as Hex.
      { unfold path_exists, gets. rewrite Hf.
        rewrite bool_decide_false; [done|]. by intros [? ?]. }
      step Hex. cbn [negb]. prints. reflexivity. }
  assert (path_exists (Remove.bookmarks_path args) w = (Ok true, w)) as Hex.
  { unfold path_exists, gets. rewrite Hf. by rewrite bool_decide_true by eauto. }
  step Hex. cbn [negb].
  destruct (plistlib_load raw) as [data|e] eqn:Hl.
  2:{ erewrite run_bind_exit; [reflexivity|].
      erewrite run_try_raise.
      2:{ erewrite run_bind by (by apply run_read_bytes).
          unfold lift. rewrite Hl. reflexivity. }
      prints. reflexivity. }
  erewrite run_bind.
  2:{ apply run_try_ok. erewrite run_bind by (by apply run_read_bytes).
      unfold lift. rewrite Hl. reflexivity. }
  destruct (bool_decide _); [prints; reflexivity|].
  prints.
  match goal with
  | |- context [(?m ≫= _) {| files := files w; console := ?c |}] =>
      assert (∃ out, m {| files := files w; console := c |}
                     = (Ok tt, {| files := files w; console := out |})) as [out Hp]
  end.
  { destruct (bool_decide _); eexists; reflexivity. }
  step Hp. clear Hp. prints.
  match goal with
  | |- context [(Remove.backup_bookmarks ?p ≫= _) ?w0] =>
      destruct (remove_backup_raises p w0) as (e & w' & Hbk);
        [cbn [files]; eauto|done|]
  end.
  by rewrite (run_bind_raise _ _ _ _ _ Hbk).
Qed.

(** X26.  The backup path determines the second at which the backup
    was taken: two runs on the same document at different seconds write
    their backups to different files. *)
Theorem backups_of_different_seconds_do_not_collide (h1 h2 : Host) (path : Path) :
  calendar (@now h1) → calendar (@now h2) →
  @backup_path_of h1 path = @backup_path_of h2 path →
  @now h1 = @now h2.
Proof.
  intros Hc1 Hc2 Heq. apply (f_equal name) in Heq.
  unfold backup_path_of, backup_name in Heq. cbn [name] in Heq.
  apply String.app_inj in Heq.
  apply (f_equal String.rev) in Heq. rewrite !rev_append in Heq.
  apply String.app_inj in Heq. apply (f_equal String.rev) in Heq.
  rewrite !rev_rev in Heq. by apply strftime_inj.
Qed.

(** X27.  A run of the check script on a readable document ends with
    status 0 whatever the links answer.  It tests the bookmarks that are
    within the [--folder] scope, those that the pruning script tests,
    cut by [--limit]; with [--output-csv] and a successful write the CSV
    file holds the row of each tested bookmark with the cells of its
    verdict, in the order of the traversal, and nothing else changes on
    disk. *)
Theorem check_main_reports_and_exits_0 `{Urllib} `{Host} `{Check.Csv}
    (args : Check.Args) (w : world) (original : bytes) (data : entry) :
  files w !! Check.bookmarks_path args = Some original →
  plistlib_load original = Returns data →
  (Py.truthy (Check.output_csv args) = true → Check.csv_write = Written) →
  let results :=
    map (checked (Check.timeout args))
        (selected (Check.folder args) (Check.limit args)
                  (default [] (Children data))) in
  ∃ out,
    Check.main args w
    = (Ok tt,
       {| files :=
            if Py.truthy (Check.output_csv args)
            then <[Check.expanduser (default "" (Check.output_csv args))
                   := Check.csv_dump results]> (files w)
            else files w;
          console := out |}).
Proof.
  intros Hf Hl Hcsv results. unfold Check.main.
  erewrite run_bind.
  2:{ apply run_try_ok. unfold Check.load_bookmarks.
      erewrite run_bind by (by apply run_read_bytes).
      unfold lift. rewrite Hl. reflexivity. }
  rewrite (run_bind _ _ _ _ _ (call_walk_run _ _)).
  rewrite rows_in_scope. fold (selected (Check.folder args) (Check.limit args)
                                 (default [] (Children data))).
  prints.
  match goal with
  | |- context [(?m ≫= _) {| files := files w; console := ?c |}] =>
      assert (∃ out, m {| files := files w; console := c |}
                     = (Ok tt, {| files := files w; console := out |})) as [out Hp]
  end.
  { match goal with
    | |- context [if Py.truthy ?t then print _ else mret tt] =>
        destruct (Py.truthy t); eexists; reflexivity
    end. }
  step Hp. clear Hp.
  match goal with
  | |- context [(Check.check_rows ?t ?to ?i ?r ≫= _) ?w0] =>
      destruct (check_rows_run t to r i w0) as (out1 & Hrun)
  end.
  step Hrun. clear Hrun. cbn [files]. fold results.
  match goal with
  | |- context [(?m ≫= _) {| files := files w; console := out1 |}] =>
      assert (∃ out2,
                m {| files := files w; console := out1 |}
                = (Ok tt,
                   {| files :=
                        if Py.truthy (Check.output_csv args)
                        then <[Check.expanduser (default "" (Check.output_csv args))
                               := Check.csv_dump results]> (files w)
                        else files w;
                      console := out2 |})) as [out2 Hw]
  end.
  { destruct (Py.truthy (Check.output_csv args)); [|eexists; reflexivity].
    unfold Check.write_csv. rewrite Hcsv by done.
    rewrite (run_bind _ _ _ _ _ (run_write_written _ _ _)).
    rewrite run_print. eauto. }
  step Hw. clear Hw. prints.
  match goal with
  | |- context [for_each (λ b, print (@?line b)) ?l ?w0] =>
      destruct (print_each_run line l w0) as [out3 Hout]
  end.
  exists out3. exact Hout.
Qed.

(** X28.  However a run of the check script ends, it changes no file
    other than the one named by [--output-csv]; without that option it
    writes nothing. *)
Theorem check_main_touches_only_the_csv `{Urllib} `{Host} `{Check.Csv}
    (args : Check.Args) (w : world) (p : Path) :
  (Py.truthy (Check.output_csv args) = true →
   p ≠ Check.expanduser (default "" (Check.output_csv args))) →
  files (Check.main args w).2 !! p = files w !! p.
Proof.
  intros Hp.
  cut (unchanged_outside
         (λ q, Py.truthy (Check.output_csv args) = true
               ∧ q = Check.expanduser (default "" (Check.output_csv args)))
         (Check.main args)).
  { intros Hm. apply Hm. intros [Ht Hq]. by apply Hp. }
  unfold Check.main.
  apply unchanged_bind.
  { apply unchanged_try_except; [unfold Check.load_bookmarks; frame|].
    intros e. destruct e; first [apply unchanged_raise | frame]. }
  intros data.
  apply unchanged_bind; [apply unchanged_call_walk|]. intros all_rows.
  apply unchanged_bind; [frame|]. intros _.
  apply unchanged_bind.
  { match goal with
    | |- context [if Py.truthy ?t then print _ else mret tt] =>
        destruct (Py.truthy t); frame
    end. }
  intros _.
  apply unchanged_bind; [apply unchanged_check_rows|]. intros results.
  apply unchanged_bind.
  { destruct (Py.truthy (Check.output_csv args)) eqn:Hc; [|frame].
    apply unchanged_bind; [|frame]. by apply unchanged_write_file. }
  intros _.
  do 3 (apply unchanged_bind; [frame|]; intros _).
  apply unchanged_print_each.
Qed.

(** X29.  When the document is missing or cannot be parsed, the check
    script ends with status 1, by [sys.exit(1)] on a [PermissionError]
    and by the uncaught exception otherwise, and writes nothing. *)
Theorem check_main_unreadable_document_exits_1 `{Urllib} `{Host} `{Check.Csv}
    (args : Check.Args) (w : world) :
  files w !! Check.bookmarks_path args = None
  ∨ (∃ raw e, files w !! Check.bookmarks_path args = Some raw
              ∧ plistlib_load raw = Raises e) →
  ∃ r out,
    Check.main args w = (r, {| files := files w; console := out |})
    ∧ exit_status r = 1.
Proof.
  intros Hcase. unfold Check.main.
  match goal with
  | |- context [(try_except ?body ?handler ≫= _) w] =>
      assert (∃ e, body w = (Raise e, w)) as [e Hbody]
  end.
  { unfold Check.load_bookmarks, read_bytes. run.
    destruct Hcase as [->|(raw & e & -> & ->)]; eauto. }
  destruct e as [code msg|reason|msg|msg|msg].
  3:{ erewrite run_bind_exit.
      2:{ erewrite run_try_raise by exact Hbody. prints. reflexivity. }
      eauto. }
  all: erewrite run_bind_raise;
    [|erewrite run_try_raise by exact Hbody; reflexivity];
    destruct w; eauto.
Qed.

(** ** Witnesses of the further properties *)

Lemma bookmark_survives_iff_answer_below_threshold_witness :
  let it := Sample.bookmark "Busy" "http://busy.example" in
  let st := Sample.fresh in
  let req := {| full_url := url_of it;
                headers := [("User-Agent", "SafariBookmarkPruner/1.0")] |} in
  let answered_below :=
    @Prune.is_http_url Sample.urllib (url_of it) = true
    ∧ ∃ code, code < 300
        ∧ (@urlopen Sample.urllib req 10 = Returns code
           ∨ ∃ msg, @urlopen Sample.urllib req 10 = Raises (HTTPError code msg)) in
  Children it = None
  ∧ Py.truthy (URLString it) = true
  ∧ in_scope None (Prune.path_stack st) = true
  ∧ ∃ new_children st',
      @Prune.prune_children Sample.urllib None 10 false 300 [it] st
      = (Ok new_children, st')
      ∧ (new_children = [it] ↔ answered_below)
      ∧ (new_children = [] ↔ ¬ answered_below).
Proof.
  intros it st req answered_below.
  split; [reflexivity|]. split; [reflexivity|]. split; [reflexivity|].
  apply (@bookmark_survives_iff_answer_below_threshold Sample.urllib None 10 300
           it st); reflexivity.
Defined.


Lemma target_with_a_trailing_dot_matches_nothing_witness :
  (∀ d, d ∈ ["example.com."] → Py.endswith d "." = true)
  ∧ Remove.matches_domain "example.com" ["example.com."] = false.
Proof.
  assert (∀ d, d ∈ ["example.com."] → Py.endswith d "." = true) as Hdots.
  { intros d Hd. apply list_elem_of_singleton in Hd. subst d. reflexivity. }
  split; [exact Hdots|].
  exact (target_with_a_trailing_dot_matches_nothing "example.com"
           ["example.com."] Hdots).
Defined.

Lemma prune_main_missing_document_exits_1_witness :
  let host := Sample.host Written Written Written in
  let args := @Prune.default_args host in
  let w := {| files := ∅; console := [] |} in
  files w !! Prune.bookmarks_path args = None
  ∧ ∃ out,
      @Prune.main Sample.urllib host args w
      = (Exit 1, {| files := files w; console := out |}).
Proof.
  intros host args w.
  assert (files w !! Prune.bookmarks_path args = None) as Hf by reflexivity.
  split; [exact Hf|].
  exact (@prune_main_missing_document_exits_1 Sample.urllib host args w Hf).
Defined.

Lemma prune_main_malformed_document_exits_1_after_backup_witness :
  let host := Sample.host Written Written Written in
  let args := @Prune.default_args host in
  let path := Prune.bookmarks_path args in
  let w := {| files := {[ path := [] ]}; console := [] |} in
  files w !! path = Some []
  ∧ Py.nonempty (name path) = true
  ∧ @backup_write host = Written
  ∧ @plistlib_load host [] = Raises (Exception "Invalid file")
  ∧ ∃ out,
      @Prune.main Sample.urllib host args w
      = (Exit 1,
         {| files := <[@backup_path_of host path := []]> (files w);
            console := out |}).
Proof.
  intros host args path w.
  assert (files w !! path = Some []) as Hf by (vm_compute; reflexivity).
  split; [exact Hf|]. split; [reflexivity|]. split; [reflexivity|].
  split; [reflexivity|].
  exact (@prune_main_malformed_document_exits_1_after_backup Sample.urllib host
           args w [] (Exception "Invalid file") Hf eq_refl eq_refl eq_refl).
Defined.

Lemma prune_main_success_witness :
  let host := Sample.host Written Written Written in
  let args := @Prune.default_args host in
  let path := Prune.bookmarks_path args in
  let w := Sample.disk path in
  let original := Sample.bytes_of "tree" in
  let data := Sample.root Sample.tree in
  let new_children :=
    @retained Sample.urllib None 10 false 300 [] (default [] (Children data)) in
  files w !! path = Some original
  ∧ Py.nonempty (name path) = true
  ∧ @backup_write host = Written
  ∧ @plistlib_load host original = Returns data
  ∧ Prune.dry_run args = false
  ∧ @overwrite host = Written
  ∧ ∃ out,
      @Prune.main Sample.urllib host args w
      = (Ok tt,
         {| files := <[path := @plistlib_dump host (set_Children data new_children)]>
                       (<[@backup_path_of host path := original]> (files w));
            console := out |}).
Proof.
  intros host args path w original data new_children.
  assert (files w !! path = Some original) as Hf by (vm_compute; reflexivity).
  assert (@plistlib_load host original = Returns data) as Hl
    by (vm_compute; reflexivity).
  split; [exact Hf|]. split; [reflexivity|]. split; [reflexivity|].
  split; [exact Hl|]. split; [reflexivity|]. split; [reflexivity|].
  exact (@prune_main_success Sample.urllib host args w original data
           Hf eq_refl eq_refl Hl eq_refl eq_refl).
Defined.

Lemma prune_main_dry_run_witness :
  let host := Sample.host Written Written Written in
  let path := @Prune.BOOKMARKS_PATH host in
  let args := {| Prune.bookmarks_path := path; Prune.folder := None;
                 Prune.timeout := 10; Prune.dry_run := true;
                 Prune.min_status := 300 |} in
  let w := Sample.disk path in
  let original := Sample.bytes_of "tree" in
  let data := Sample.root Sample.tree in
  files w !! path = Some original
  ∧ Py.nonempty (name path) = true
  ∧ @backup_write host = Written
  ∧ @plistlib_load host original = Returns data
  ∧ Prune.dry_run args = true
  ∧ ∃ out,
      @Prune.main Sample.urllib host args w
      = (Ok tt,
         {| files := <[@backup_path_of host path := original]> (files w);
            console := out |}).
Proof.
  intros host path args w original data.
  assert (files w !! path = Some original) as Hf by (vm_compute; reflexivity).
  assert (@plistlib_load host original = Returns data) as Hl
    by (vm_compute; reflexivity).
  split; [exact Hf|]. split; [reflexivity|]. split; [reflexivity|].
  split; [exact Hl|]. split; [reflexivity|].
  exact (@prune_main_dry_run Sample.urllib host args w original data
           Hf eq_refl eq_refl Hl eq_refl).
Defined.

Lemma prune_main_touches_only_the_document_and_its_backup_witness :
  let host := Sample.host Written Written Written in
  let args := @Prune.default_args host in
  let path := Prune.bookmarks_path args in
  let other := {| parent := "/Users/me/Library/Safari"; name := "History.db" |} in
  let w := {| files := {[ path := Sample.bytes_of "tree"; other := [] ]};
              console := [] |} in
  other ≠ path
  ∧ other ≠ @backup_path_of host path
  ∧ files (@Prune.main Sample.urllib host args w).2 !! other = files w !! other.
Proof.
  intros host args path other w.
  assert (other ≠ path) as H1 by discriminate.
  assert (other ≠ @backup_path_of host path) as H2 by discriminate.
  split; [exact H1|]. split; [exact H2|].
  exact (@prune_main_touches_only_the_document_and_its_backup Sample.urllib host
           args w other H1 H2).
Defined.

Lemma prune_main_changes_the_document_only_after_a_backup_witness :
  let host := Sample.host (OpenFailed "Read-only file system") Written Written in
  let args := @Prune.default_args host in
  let path := Prune.bookmarks_path args in
  let w := Sample.disk path in
  (@backup_write host ≠ Written ∨ Prune.dry_run args = true)
  ∧ @backup_path_of host path ≠ path
  ∧ files (@Prune.main Sample.urllib host args w).2 !! path = files w !! path.
Proof.
  intros host args path w.
  assert (@backup_write host ≠ Written ∨ Prune.dry_run args = true) as H1
    by (left; discriminate).
  assert (@backup_path_of host path ≠ path) as H2 by discriminate.
  split; [exact H1|]. split; [exact H2|].
  exact (@prune_main_changes_the_document_only_after_a_backup Sample.urllib host
           args w H1 H2).
Defined.

Lemma prune_main_failed_backup_ends_with_status_1_witness :
  let host := Sample.host (Interrupted [] "No space left on device")
                          Written Written in
  let args := @Prune.default_args host in
  let w := Sample.disk (Prune.bookmarks_path args) in
  @backup_write host ≠ Written
  ∧ exit_status (@Prune.main Sample.urllib host args w).1 = 1.
Proof.
  intros host args w.
  assert (@backup_write host ≠ Written) as Hb by discriminate.
  split; [exact Hb|].
  exact (@prune_main_failed_backup_ends_with_status_1 Sample.urllib host args w Hb).
Defined.

Lemma remove_main_rejects_bad_input_before_any_write_witness :
  let host := Sample.host Written Written Written in
  let path := @Remove.BOOKMARKS_PATH host in
  let args := {| Remove.domain := ["  "]; Remove.ignore_folder := [];
                 Remove.dry_run := false; Remove.bookmarks_path := path |} in
  let w := Sample.disk path in
  (files w !! Remove.bookmarks_path args = None
   ∨ (∃ raw e, files w !! Remove.bookmarks_path args = Some raw
               ∧ @plistlib_load host raw = Raises e)
   ∨ (∀ d, d ∈ Remove.domain args →
           Py.nonempty (Py.strip Py.is_whitespace d) = false))
  ∧ ∃ out,
      @Remove.main Sample.urllib host args w
      = (Exit 1, {| files := files w; console := out |}).
Proof.
  intros host path args w.
  assert (files w !! Remove.bookmarks_path args = None
          ∨ (∃ raw e, files w !! Remove.bookmarks_path args = Some raw
                      ∧ @plistlib_load host raw = Raises e)
          ∨ (∀ d, d ∈ Remove.domain args →
                  Py.nonempty (Py.strip Py.is_whitespace d) = false)) as Hcase.
  { right. right. intros d Hd. apply list_elem_of_singleton in Hd. subst d.
    reflexivity. }
  split; [exact Hcase|].
  exact (@remove_main_rejects_bad_input_before_any_write Sample.urllib host
           args w Hcase).
Defined.

Lemma remove_main_success_writes_the_filtered_tree_witness :
  let host := Sample.host Written Written Written in
  let path := @Remove.BOOKMARKS_PATH host in
  let args := {| Remove.domain := ["facebook.com"]; Remove.ignore_folder := [];
                 Remove.dry_run := false; Remove.bookmarks_path := path |} in
  let w := Sample.disk path in
  let original := Sample.bytes_of "tree" in
  let data := Sample.root Sample.tree in
  let targets :=
    map (Py.strip Py.is_whitespace)
        (filter (λ d, Is_true (Py.nonempty (Py.strip Py.is_whitespace d)))
                (Remove.domain args)) in
  let new_children :=
    @spared Sample.urllib targets (list_to_set (Remove.ignore_folder args)) false
            (default [] (Children data)) in
  files w !! path = Some original
  ∧ Py.nonempty (name path) = true
  ∧ @backup_write host = Written
  ∧ @plistlib_load host original = Returns data
  ∧ (∃ d, d ∈ Remove.domain args
          ∧ Py.nonempty (Py.strip Py.is_whitespace d) = true)
  ∧ Remove.dry_run args = false
  ∧ @overwrite host = Written
  ∧ ∃ out,
      @Remove.main Sample.urllib host args w
      = (Ok tt,
         {| files := <[path := @plistlib_dump host (set_Children data new_children)]>
                       (<[@backup_path_of host path := original]> (files w));
            console := out |}).
Proof.
  intros host path args w original data targets new_children.
  assert (files w !! path = Some original) as Hf by (vm_compute; reflexivity).
  assert (@plistlib_load host original = Returns data) as Hl
    by (vm_compute; reflexivity).
  assert (∃ d, d ∈ Remove.domain args
               ∧ Py.nonempty (Py.strip Py.is_whitespace d) = true) as Hd.
  { exists "facebook.com". split; [apply list_elem_of_singleton; reflexivity|].
    reflexivity. }
  split; [exact Hf|]. split; [reflexivity|]. split; [reflexivity|].
  split; [exact Hl|]. split; [exact Hd|]. split; [reflexivity|].
  split; [reflexivity|].
  exact (@remove_main_success_writes_the_filtered_tree Sample.urllib host args w
           original data Hf eq_refl eq_refl Hl Hd eq_refl eq_refl).
Defined.

Lemma remove_main_dry_run_witness :
  let host := Sample.host Written Written Written in
  let path := @Remove.BOOKMARKS_PATH host in
  let args := {| Remove.domain := ["facebook.com"]; Remove.ignore_folder := [];
                 Remove.dry_run := true; Remove.bookmarks_path := path |} in
  let w := Sample.disk path in
  let original := Sample.bytes_of "tree" in
  let data := Sample.root Sample.tree in
  files w !! path = Some original
  ∧ Py.nonempty (name path) = true
  ∧ @backup_write host = Written
  ∧ @plistlib_load host original = Returns data
  ∧ (∃ d, d ∈ Remove.domain args
          ∧ Py.nonempty (Py.strip Py.is_whitespace d) = true)
  ∧ Remove.dry_run args = true
  ∧ ∃ out,
      @Remove.main Sample.urllib host args w
      = (Ok tt,
         {| files := <[@backup_path_of host path := original]> (files w);
            console := out |}).
Proof.
  intros host path args w original data.
  assert (files w !! path = Some original) as Hf by (vm_compute; reflexivity).
  assert (@plistlib_load host original = Returns data) as Hl
    by (vm_compute; reflexivity).
  assert (∃ d, d ∈ Remove.domain args
               ∧ Py.nonempty (Py.strip Py.is_whitespace d) = true) as Hd.
  { exists "facebook.com". split; [apply list_elem_of_singleton; reflexivity|].
    reflexivity. }
  split; [exact Hf|]. split; [reflexivity|]. split; [reflexivity|].
  split; [exact Hl|]. split; [exact Hd|]. split; [reflexivity|].
  exact (@remove_main_dry_run Sample.urllib host args w original data
           Hf eq_refl eq_refl Hl Hd eq_refl).
Defined.

Lemma remove_main_touches_only_the_document_and_its_backup_witness :
  let host := Sample.host Written Written Written in
  let path := @Remove.BOOKMARKS_PATH host in
  let args := {| Remove.domain := ["facebook.com"]; Remove.ignore_folder := [];
                 Remove.dry_run := false; Remove.bookmarks_path := path |} in
  let other := {| parent := "/Users/me/Library/Safari"; name := "History.db" |} in
  let w := {| files := {[ path := Sample.bytes_of "tree"; other := [] ]};
              console := [] |} in
  other ≠ path
  ∧ other ≠ @backup_path_of host path
  ∧ files (@Remove.main Sample.urllib host args w).2 !! other = files w !! other.
Proof.
  intros host path args other w.
  assert (other ≠ path) as H1 by discriminate.
  assert (other ≠ @backup_path_of host path) as H2 by discriminate.
  split; [exact H1|]. split; [exact H2|].
  exact (@remove_main_touches_only_the_document_and_its_backup Sample.urllib host
           args w other H1 H2).
Defined.

Lemma remove_main_changes_the_document_only_after_a_backup_witness :
  let host := Sample.host Written Written Written in
  let path := @Remove.BOOKMARKS_PATH host in
  let args := {| Remove.domain := ["facebook.com"]; Remove.ignore_folder := [];
                 Remove.dry_run := true; Remove.bookmarks_path := path |} in
  let w := Sample.disk path in
  (@backup_write host ≠ Written ∨ Remove.dry_run args = true)
  ∧ @backup_path_of host path ≠ path
  ∧ files (@Remove.main Sample.urllib host args w).2 !! path = files w !! path.
Proof.
  intros host path args w.
  assert (@backup_write host ≠ Written ∨ Remove.dry_run args = true) as H1
    by (right; reflexivity).
  assert (@backup_path_of host path ≠ path) as H2 by discriminate.
  split; [exact H1|]. split; [exact H2|].
  exact (@remove_main_changes_the_document_only_after_a_backup Sample.urllib host
           args w H1 H2).
Defined.

Lemma remove_main_failed_backup_ends_with_status_1_witness :
  let host := Sample.host (OpenFailed "Read-only file system") Written Written in
  let path := @Remove.BOOKMARKS_PATH host in
  let args := {| Remove.domain := ["facebook.com"]; Remove.ignore_folder := [];
                 Remove.dry_run := false; Remove.bookmarks_path := path |} in
  let w := Sample.disk path in
  @backup_write host ≠ Written
  ∧ exit_status (@Remove.main Sample.urllib host args w).1 = 1.
Proof.
  intros host path args w.
  assert (@backup_write host ≠ Written) as Hb by discriminate.
  split; [exact Hb|].
  exact (@remove_main_failed_backup_ends_with_status_1 Sample.urllib host args w Hb).
Defined.

Lemma backups_of_different_seconds_do_not_collide_witness :
  let h1 := Sample.host Written Written Written in
  let h2 := Sample.host Written (OpenFailed "Read-only file system") Written in
  let path := @Prune.BOOKMARKS_PATH h1 in
  calendar (@now h1) ∧ calendar (@now h2)
  ∧ @backup_path_of h1 path = @backup_path_of h2 path
  ∧ @now h1 = @now h2.
Proof.
  intros h1 h2 path.
  assert (calendar (@now h1)) as H1 by (unfold calendar; cbn; lia).
  assert (calendar (@now h2)) as H2 by (unfold calendar; cbn; lia).
  split; [exact H1|]. split; [exact H2|]. split; [reflexivity|].
  exact (backups_of_different_seconds_do_not_collide h1 h2 path H1 H2 eq_refl).
Defined.

Lemma check_main_reports_and_exits_0_witness :
  let host := Sample.host Written Written Written in
  let csv := Sample.csv Written in
  let path := @Check.BOOKMARKS_PATH host in
  let args := {| Check.bookmarks_path := path; Check.folder := Some "BookmarksBar";
                 Check.timeout := 10; Check.output_csv := Some "report.csv";
                 Check.limit := Some 2 |} in
  let w := Sample.disk path in
  let original := Sample.bytes_of "tree" in
  let data := Sample.root Sample.tree in
  let results :=
    map (@checked Sample.urllib (Check.timeout args))
        (@selected Sample.urllib (Check.folder args) (Check.limit args)
                   (default [] (Children data))) in
  files w !! Check.bookmarks_path args = Some original
  ∧ @plistlib_load host original = Returns data
  ∧ (Py.truthy (Check.output_csv args) = true → @Check.csv_write csv = Written)
  ∧ ∃ out,
      @Check.main Sample.urllib host csv args w
      = (Ok tt,
         {| files :=
              if Py.truthy (Check.output_csv args)
              then <[@Check.expanduser csv (default "" (Check.output_csv args))
                     := @Check.csv_dump csv results]> (files w)
              else files w;
            console := out |}).
Proof.
  intros host csv path args w original data results.
  assert (files w !! Check.bookmarks_path args = Some original) as Hf
    by (vm_compute; reflexivity).
  assert (@plistlib_load host original = Returns data) as Hl
    by (vm_compute; reflexivity).
  assert (Py.truthy (Check.output_csv args) = true
          → @Check.csv_write csv = Written) as Hc by reflexivity.
  split; [exact Hf|]. split; [exact Hl|]. split; [exact Hc|].
  exact (@check_main_reports_and_exits_0 Sample.urllib host csv args w
           original data Hf Hl Hc).
Defined.

Lemma check_main_touches_only_the_csv_witness :
  let host := Sample.host Written Written Written in
  let csv := Sample.csv Written in
  let path := @Check.BOOKMARKS_PATH host in
  let args := {| Check.bookmarks_path := path; Check.folder := None;
                 Check.timeout := 10; Check.output_csv := Some "report.csv";
                 Check.limit := None |} in
  let w := Sample.disk path in
  (Py.truthy (Check.output_csv args) = true →
   path ≠ @Check.expanduser csv (default "" (Check.output_csv args)))
  ∧ files (@Check.main Sample.urllib host csv args w).2 !! path
    = files w !! path.
Proof.
  intros host csv path args w.
  assert (Py.truthy (Check.output_csv args) = true →
          path ≠ @Check.expanduser csv (default "" (Check.output_csv args)))
    as Hp by (intros _; discriminate).
  split; [exact Hp|].
  exact (@check_main_touches_only_the_csv Sample.urllib host csv args w path Hp).
Defined.

Lemma check_main_unreadable_document_exits_1_witness :
  let host := Sample.host Written Written Written in
  let csv := Sample.csv Written in
  let path := @Check.BOOKMARKS_PATH host in
  let args := {| Check.bookmarks_path := path; Check.folder := None;
                 Check.timeout := 10; Check.output_csv := None;
                 Check.limit := None |} in
  let w := {| files := ∅; console := [] |} in
  (files w !! Check.bookmarks_path args = None
   ∨ (∃ raw e, files w !! Check.bookmarks_path args = Some raw
               ∧ @plistlib_load host raw = Raises e))
  ∧ ∃ r out,
      @Check.main Sample.urllib host csv args w
      = (r, {| files := files w; console := out |})
      ∧ exit_status r = 1.
Proof.
  intros host csv path args w.
  assert (files w !! Check.bookmarks_path args = None
          ∨ (∃ raw e, files w !! Check.bookmarks_path args = Some raw
                      ∧ @plistlib_load host raw = Raises e)) as Hcase
    by (left; reflexivity).
  split; [exact Hcase|].
  exact (@check_main_unreadable_document_exits_1 Sample.urllib host csv
           args w Hcase).
Defined.
